(** * SAP OData client: a shallow embedding of [SAPODataClient]

    The client of [odata-client.ts] is embedded as state-passing functions
    over an explicit session (connected flag, CSRF token, cookie list) and an
    explicit backend.  JavaScript strings are sequences of UTF-16 code units,
    dynamically typed payloads are values of [jsval], and a thrown exception
    is the [Throw] branch of the result type.  The tool handlers of
    [handlers.ts] run the client operations on the session of the client
    they hold; the dispatch of [server.ts] runs the handlers. *)

From Stdlib Require Import ZArith List String Ascii Bool Lia DecimalString.
Import ListNotations.
Open Scope Z_scope.
Set Warnings "-register-all".

(* ------------------------------------------------------------------ *)
(** ** JavaScript strings and values *)

Module JS.

(** A string is its sequence of UTF-16 code units (0 .. 65535). *)
Definition jsstring := list Z.

Definition lit (s : string) : jsstring :=
  map (fun a => Z.of_nat (nat_of_ascii a)) (list_ascii_of_string s).

Definition str_eqb (a b : jsstring) : bool :=
  if list_eq_dec Z.eq_dec a b then true else false.

(** [Array.prototype.join] on an array of strings. *)
Fixpoint join (sep : jsstring) (l : list jsstring) : jsstring :=
  match l with
  | [] => []
  | [x] => x
  | x :: rest => x ++ sep ++ join sep rest
  end.

(** [haystack.includes(needle)]. *)
Fixpoint starts_with (needle s : jsstring) : bool :=
  match needle, s with
  | [], _ => true
  | _ :: _, [] => false
  | a :: needle', b :: s' => (a =? b) && starts_with needle' s'
  end.

Fixpoint includes (needle s : jsstring) : bool :=
  starts_with needle s ||
  match s with
  | [] => false
  | _ :: s' => includes needle s'
  end.

(** [Number.prototype.toString] on an integer that prints in plain decimal,
    that is one whose absolute value is below 10^21. *)
Definition num_toString (n : Z) : jsstring :=
  lit (NilZero.string_of_int (Z.to_int n)).

(** JSON-shaped dynamic values.  Numbers are integers; an object is the list
    of its own entries in the order [Object.entries] enumerates them. *)
Inductive jsval :=
| JUndefined
| JNull
| JBool (b : bool)
| JNum (n : Z)
| JStr (s : jsstring)
| JArr (xs : list jsval)
| JObj (fields : list (jsstring * jsval)).

(** ToBoolean. *)
Definition truthy (v : jsval) : bool :=
  match v with
  | JUndefined | JNull => false
  | JBool b => b
  | JNum n => negb (n =? 0)
  | JStr s => match s with [] => false | _ => true end
  | JArr _ | JObj _ => true
  end.

(** [a || b]. *)
Definition or_else (a b : jsval) : jsval := if truthy a then a else b.

(** ToString, as applied by template literals, [String(v)] and
    [encodeURIComponent(v)]. *)
Fixpoint toString (v : jsval) : jsstring :=
  match v with
  | JUndefined => lit "undefined"
  | JNull => lit "null"
  | JBool true => lit "true"
  | JBool false => lit "false"
  | JNum n => num_toString n
  | JStr s => s
  | JArr xs =>
      (fix elems (l : list jsval) : jsstring :=
         match l with
         | [] => []
         | x :: rest =>
             let sx := match x with
                       | JUndefined | JNull => []
                       | _ => toString x
                       end in
             match rest with
             | [] => sx
             | _ :: _ => sx ++ lit "," ++ elems rest
             end
         end) xs
  | JObj _ => lit "[object Object]"
  end.

Fixpoint lookup (k : jsstring) (fields : list (jsstring * jsval)) : jsval :=
  match fields with
  | [] => JUndefined
  | (k', v) :: rest => if str_eqb k k' then v else lookup k rest
  end.

(** [v.name] for the property names the client reads (none of them is an
    array index or a prototype member).  [None] is a thrown TypeError:
    reading a property of [undefined] or [null]. *)
Definition get (v : jsval) (name : string) : option jsval :=
  match v with
  | JUndefined | JNull => None
  | JObj fields => Some (lookup (lit name) fields)
  | _ => Some JUndefined
  end.

(** [v[0]]. *)
Definition get0 (v : jsval) : option jsval :=
  match v with
  | JUndefined | JNull => None
  | JObj fields => Some (lookup (lit "0") fields)
  | JArr xs => Some (match xs with [] => JUndefined | x :: _ => x end)
  | JStr s => Some (match s with [] => JUndefined | c :: _ => JStr [c] end)
  | _ => Some JUndefined
  end.

(** Optional chaining: [v?.name] and [v?.[0]] never throw. *)
Definition opt_get (v : jsval) (name : string) : jsval :=
  match get v name with Some r => r | None => JUndefined end.

Definition opt_get0 (v : jsval) : jsval :=
  match get0 v with Some r => r | None => JUndefined end.

(** [v !== 'text']. *)
Definition strict_ne_str (v : jsval) (text : string) : bool :=
  match v with
  | JStr s => negb (str_eqb s (lit text))
  | _ => true
  end.

(** [xs.map(f)] where [f] may throw; calling [map] on anything that is not
    an array is a TypeError. *)
Fixpoint map_opt {A B} (f : A -> option B) (l : list A) : option (list B) :=
  match l with
  | [] => Some []
  | x :: rest =>
      match f x with
      | None => None
      | Some y =>
          match map_opt f rest with
          | None => None
          | Some ys => Some (y :: ys)
          end
      end
  end.

Definition array_map {B} (v : jsval) (f : jsval -> option B) : option (list B) :=
  match v with
  | JArr xs => map_opt f xs
  | _ => None
  end.

(** *** UTF-16 to UTF-8 and percent-encoding *)

Definition is_high (u : Z) : bool := (0xD800 <=? u) && (u <=? 0xDBFF).
Definition is_low (u : Z) : bool := (0xDC00 <=? u) && (u <=? 0xDFFF).

(** Code points of a string; [None] marks an unpaired surrogate. *)
Fixpoint codePoints (s : jsstring) : list (option Z) :=
  match s with
  | [] => []
  | u :: rest =>
      if is_high u then
        match rest with
        | l :: rest' =>
            if is_low l
            then Some ((u - 0xD800) * 0x400 + (l - 0xDC00) + 0x10000) :: codePoints rest'
            else None :: codePoints rest
        | [] => [None]
        end
      else if is_low u then None :: codePoints rest
      else Some u :: codePoints rest
  end.

Definition utf8 (cp : Z) : list Z :=
  if cp <? 0x80 then [cp]
  else if cp <? 0x800 then
    [Z.lor 0xC0 (Z.shiftr cp 6); Z.lor 0x80 (Z.land cp 0x3F)]
  else if cp <? 0x10000 then
    [Z.lor 0xE0 (Z.shiftr cp 12);
     Z.lor 0x80 (Z.land (Z.shiftr cp 6) 0x3F);
     Z.lor 0x80 (Z.land cp 0x3F)]
  else
    [Z.lor 0xF0 (Z.shiftr cp 18);
     Z.lor 0x80 (Z.land (Z.shiftr cp 12) 0x3F);
     Z.lor 0x80 (Z.land (Z.shiftr cp 6) 0x3F);
     Z.lor 0x80 (Z.land cp 0x3F)].

Definition hex_digit (d : Z) : Z :=
  if d <? 10 then 48 + d else 55 + d.

Definition percent (byte : Z) : jsstring :=
  [37; hex_digit (Z.shiftr byte 4); hex_digit (Z.land byte 0xF)].

Definition percent_bytes (bytes : list Z) : jsstring :=
  flat_map percent bytes.

Definition is_alnum (c : Z) : bool :=
  ((48 <=? c) && (c <=? 57)) || ((65 <=? c) && (c <=? 90)) ||
  ((97 <=? c) && (c <=? 122)).

Definition mem_chars (c : Z) (chars : string) : bool :=
  existsb (Z.eqb c) (lit chars).

(** Characters [encodeURIComponent] leaves alone. *)
Definition uri_unreserved (c : Z) : bool :=
  is_alnum c || mem_chars c "-_.!~*'()".

Fixpoint encode_points (pts : list (option Z)) : option jsstring :=
  match pts with
  | [] => Some []
  | None :: _ => None
  | Some cp :: rest =>
      match encode_points rest with
      | None => None
      | Some tail =>
          Some ((if uri_unreserved cp then [cp] else percent_bytes (utf8 cp)) ++ tail)
      end
  end.

(** [encodeURIComponent(v)]; [None] is the URIError raised on an unpaired
    surrogate. *)
Definition encodeURIComponent (v : jsval) : option jsstring :=
  encode_points (codePoints (toString v)).

End JS.
Export JS.

(* ------------------------------------------------------------------ *)
(** ** URLSearchParams *)

Module URLSearchParams.

Definition t := list (jsstring * jsstring).

Definition empty : t := [].

Definition append (name value : jsstring) (p : t) : t := p ++ [(name, value)].

(** Characters the application/x-www-form-urlencoded serializer leaves alone. *)
Definition form_unreserved (c : Z) : bool :=
  is_alnum c || mem_chars c "*-._".

Definition form_point (pt : option Z) : jsstring :=
  match pt with
  | None => percent_bytes (utf8 0xFFFD)
  | Some cp =>
      if cp =? 32 then [43]
      else if form_unreserved cp then [cp]
      else percent_bytes (utf8 cp)
  end.

Definition form_encode (s : jsstring) : jsstring :=
  flat_map form_point (codePoints s).

Definition toString (p : t) : jsstring :=
  join (lit "&")
       (map (fun nv => form_encode (fst nv) ++ lit "=" ++ form_encode (snd nv)) p).

End URLSearchParams.

(* ------------------------------------------------------------------ *)
(** ** The HTTP layer: requests, responses and thrown errors *)

Module Http.

Inductive method := GET | POST | PUT | DELETE.

Definition is_get (m : method) : bool :=
  match m with GET => true | _ => false end.

(** What the client hands to axios and what the request interceptor adds.
    [req_url] is relative to the configured base URL. *)
Record request := {
  req_method : method;
  req_url : jsstring;
  req_accept : jsstring;
  req_csrf : option jsstring;
  req_cookie : option jsstring;
  req_timeout : Z;
  req_data : option jsval
}.

Record response := {
  status : Z;
  statusText : jsstring;
  x_csrf_token : option jsstring;
  set_cookie : option (list jsstring);
  data : jsval
}.

(** What comes back for a request that was sent. *)
Inductive outcome :=
| Replied (r : response)
| NoReply.

Definition exchange := (request * outcome)%type.

(** Thrown values, by the three shapes [getErrorMessage] tells apart. *)
Inductive jserror :=
| HttpError (r : response)
| NoResponse
| Error (message : jsstring).

(** [error.response?.status]. *)
Definition error_status (e : jserror) : option Z :=
  match e with
  | HttpError r => Some (status r)
  | _ => None
  end.

Definition status_is (e : jserror) (code : Z) : bool :=
  match error_status e with
  | Some s => s =? code
  | None => false
  end.

(** axios resolves a response whose status is 2xx and rejects any other. *)
Definition validateStatus (s : Z) : bool := (200 <=? s) && (s <? 300).

Definition succeeded (o : outcome) : bool :=
  match o with
  | Replied r => validateStatus (status r)
  | NoReply => false
  end.

Definition replied_with (code : Z) (o : outcome) : bool :=
  match o with
  | Replied r => status r =? code
  | NoReply => false
  end.

End Http.
Export Http.

(* ------------------------------------------------------------------ *)
(** ** Types of [types.ts] *)

Record SAPODataConfig := {
  baseUrl : jsstring;
  username : jsstring;
  password : jsstring;
  client : option jsstring;
  timeout : Z;
  validateSSL : bool;
  enableCSRF : bool
}.

Record ODataQueryOptions := {
  select : option (list jsstring);
  filter : option jsstring;
  orderby : option jsstring;
  top : option Z;
  skip : option Z;
  expand : option (list jsstring)
}.

Record ODataService := {
  svc_name : jsval;
  svc_title : jsval;
  svc_version : jsval;
  svc_url : jsstring
}.

Record ODataProperty := {
  prop_name : jsval;
  prop_type : jsval;
  nullable : bool
}.

Record ODataEntity := {
  ent_name : jsval;
  properties : list ODataProperty
}.

Record ODataFunction := {
  fn_name : jsval;
  returnType : jsval
}.

Record ODataMetadata := {
  entities : list ODataEntity;
  functions : list ODataFunction;
  raw : option jsval
}.

Record ODataServiceList := {
  services : list ODataService;
  source : option jsstring;
  catalogUrl : option jsstring;
  message : option jsstring
}.

(** The private fields [connected], [csrfToken] and [cookies]. *)
Record Session := {
  connected : bool;
  csrfToken : option jsstring;
  cookies : list jsstring
}.

Definition clearedSession : Session :=
  {| connected := false; csrfToken := None; cookies := [] |}.

(* ------------------------------------------------------------------ *)
(** ** The client *)

Module SAPODataClient.

Inductive result (A : Type) :=
| Ok (a : A)
| Throw (e : jserror).
Arguments Ok {A} a.
Arguments Throw {A} e.

(** Errors raised by the runtime rather than by axios or the client. *)
Definition TypeError : jserror := Error (lit "TypeError").
Definition URIError : jserror := Error (lit "URI malformed").

Definition catalogPaths : list jsstring :=
  [lit "../iwfnd/catalogservice;v=2/ServiceCollection";
   lit "../IWFND/CATALOGSERVICE;v=2/ServiceCollection";
   lit "../iwfnd/catalogservice/ServiceCollection";
   lit "../IWFND/CATALOGSERVICE/ServiceCollection"].

Definition commonServices : list jsstring :=
  [lit "GWSAMPLE_BASIC";
   lit "GWDEMO";
   lit "RMTSAMPLEFLIGHT";
   lit "API_MATERIAL_SRV";
   lit "API_BUSINESS_PARTNER";
   lit "API_SALES_ORDER_SRV";
   lit "ZMM_MATERIAL_SRV";
   lit "ZSD_SALES_SRV";
   lit "ZFI_GL_SRV"].

Definition nonempty (s : jsstring) : bool :=
  match s with [] => false | _ => true end.

Notation "x <-? m ; k" := (match m with Some x => k | None => None end)
  (at level 61, m at next level, right associativity).

(** *** Metadata extraction (pure) *)

Definition extractProperty (prop : jsval) : option ODataProperty :=
  attrs <-? get prop "$" ;
  name <-? get attrs "Name" ;
  type <-? get attrs "Type" ;
  nullableAttr <-? get attrs "Nullable" ;
  Some {| prop_name := name; prop_type := type;
          nullable := strict_ne_str nullableAttr "false" |}.

Definition extractEntity (entity : jsval) : option ODataEntity :=
  attrs <-? get entity "$" ;
  name <-? get attrs "Name" ;
  props <-? array_map (or_else (opt_get entity "Property") (JArr [])) extractProperty ;
  Some {| ent_name := name; properties := props |}.

Definition extractFunction (func : jsval) : option ODataFunction :=
  attrs <-? get func "$" ;
  name <-? get attrs "Name" ;
  rtype <-? get attrs "ReturnType" ;
  Some {| fn_name := name; returnType := rtype |}.

(** [parsed?.['edmx:Edmx']?.['edmx:DataServices']?.[0]?.Schema?.[0]]. *)
Definition schemaOf (parsed : jsval) : jsval :=
  opt_get0 (opt_get (opt_get0 (opt_get (opt_get parsed "edmx:Edmx")
                                       "edmx:DataServices")) "Schema").

(** The body of the [try] block; [None] when it throws. *)
Definition extractMetadata_try (parsed : jsval) : option ODataMetadata :=
  let schema := schemaOf parsed in
  if negb (truthy schema) then
    Some {| entities := []; functions := []; raw := None |}
  else
    let entityTypes := or_else (opt_get schema "EntityType") (JArr []) in
    let functionImports :=
      or_else (opt_get (opt_get0 (opt_get schema "EntityContainer")) "FunctionImport")
              (JArr []) in
    entities <-? array_map entityTypes extractEntity ;
    functions <-? array_map functionImports extractFunction ;
    Some {| entities := entities; functions := functions; raw := None |}.

Definition extractMetadata (parsed : jsval) : ODataMetadata :=
  match extractMetadata_try parsed with
  | Some model => model
  | None => {| entities := []; functions := []; raw := Some parsed |}
  end.

(** *** Query strings and key predicates (pure) *)

Definition queryParams (options : ODataQueryOptions) : URLSearchParams.t :=
  let params := URLSearchParams.empty in
  let params :=
    match select options with
    | Some sel =>
        if (0 <? Z.of_nat (List.length sel))
        then URLSearchParams.append (lit "$select") (join (lit ",") sel) params
        else params
    | None => params
    end in
  let params :=
    match filter options with
    | Some f => if nonempty f then URLSearchParams.append (lit "$filter") f params
                else params
    | None => params
    end in
  let params :=
    match orderby options with
    | Some o => if nonempty o then URLSearchParams.append (lit "$orderby") o params
                else params
    | None => params
    end in
  let params :=
    match top options with
    | Some n => if negb (n =? 0)
                then URLSearchParams.append (lit "$top") (num_toString n) params
                else params
    | None => params
    end in
  let params :=
    match skip options with
    | Some n => if negb (n =? 0)
                then URLSearchParams.append (lit "$skip") (num_toString n) params
                else params
    | None => params
    end in
  match expand options with
  | Some ex =>
      if (0 <? Z.of_nat (List.length ex))
      then URLSearchParams.append (lit "$expand") (join (lit ",") ex) params
      else params
  | None => params
  end.

(** [params.toString() ? '?' + params.toString() : '']. *)
Definition querySuffix (params : URLSearchParams.t) : jsstring :=
  if nonempty (URLSearchParams.toString params)
  then lit "?" ++ URLSearchParams.toString params
  else [].

Definition queryUrl (serviceName entitySet : jsstring)
    (options : ODataQueryOptions) : jsstring :=
  serviceName ++ lit "/" ++ entitySet ++ querySuffix (queryParams options).

Section Client.

(** The backend is any deterministic machine answering requests; the XML
    parser ([xml2js]) either yields a parse tree or throws. *)
Variable Backend : Type.
Variable respond : Backend -> request -> outcome * Backend.
Variable parseXML : jsval -> jsstring + jsval.
Variable config : SAPODataConfig.

Record World := {
  session : Session;
  backend : Backend
}.

(** One run of an operation: what it returned or threw, the world it left
    and the exchanges it had with the backend, oldest first. *)
Record Run (A : Type) := {
  value : result A;
  final : World;
  trace : list exchange
}.
Arguments value {A} r.
Arguments final {A} r.
Arguments trace {A} r.

Definition M (A : Type) := World -> Run A.

Definition ret {A} (a : A) : M A :=
  fun w => {| value := Ok a; final := w; trace := [] |}.

Definition throw {A} (e : jserror) : M A :=
  fun w => {| value := Throw e; final := w; trace := [] |}.

Definition bind {A B} (m : M A) (k : A -> M B) : M B :=
  fun w =>
    let r := m w in
    match value r with
    | Ok a =>
        let r' := k a (final r) in
        {| value := value r'; final := final r'; trace := trace r ++ trace r' |}
    | Throw e => {| value := Throw e; final := final r; trace := trace r |}
    end.

(** [try { m } catch (error) { handler }]. *)
Definition try_catch {A} (m : M A) (handler : jserror -> M A) : M A :=
  fun w =>
    let r := m w in
    match value r with
    | Ok a => r
    | Throw e =>
        let r' := handler e (final r) in
        {| value := value r'; final := final r'; trace := trace r ++ trace r' |}
    end.

Definition set_session (f : Session -> Session) : M unit :=
  fun w =>
    {| value := Ok tt;
       final := {| session := f (session w); backend := backend w |};
       trace := [] |}.

Notation "x <- m ;; k" := (bind m (fun x => k))
  (at level 61, m at next level, right associativity).
Notation "m >> k" := (bind m (fun _ => k))
  (at level 61, right associativity).

(** *** Interceptors *)

(** [this.csrfToken && ...]: a held token is a non-empty string. *)
Definition holds_token (s : Session) : bool :=
  match csrfToken s with
  | Some t => nonempty t
  | None => false
  end.

Definition requestInterceptor (s : Session) (r : request) : request :=
  let csrf :=
    if holds_token s && negb (is_get (req_method r))
    then csrfToken s else req_csrf r in
  let cookie :=
    match cookies s with
    | [] => req_cookie r
    | _ :: _ => Some (join (lit "; ") (cookies s))
    end in
  {| req_method := req_method r; req_url := req_url r;
     req_accept := req_accept r; req_csrf := csrf; req_cookie := cookie;
     req_timeout := req_timeout r; req_data := req_data r |}.

(** [cookie.split(';')[0]]. *)
Fixpoint before_semicolon (cookie : jsstring) : jsstring :=
  match cookie with
  | [] => []
  | c :: rest => if c =? 59 then [] else c :: before_semicolon rest
  end.

Definition onFulfilled (s : Session) (r : response) : Session :=
  let token :=
    match x_csrf_token r with
    | Some t => if nonempty t && negb (str_eqb t (lit "Required"))
                then Some t else csrfToken s
    | None => csrfToken s
    end in
  let jar :=
    match set_cookie r with
    | Some setCookies => map before_semicolon setCookies
    | None => cookies s
    end in
  {| connected := connected s; csrfToken := token; cookies := jar |}.

Definition onRejected (s : Session) (e : jserror) : Session :=
  if status_is e 401 then clearedSession else s.

(** One request through the axios instance: request interceptor, the
    backend, then the response interceptor. *)
Definition send (r : request) : M response :=
  fun w =>
    let wire := requestInterceptor (session w) r in
    let (o, b) := respond (backend w) wire in
    match o with
    | Replied resp =>
        if validateStatus (status resp)
        then {| value := Ok resp;
                final := {| session := onFulfilled (session w) resp; backend := b |};
                trace := [(wire, o)] |}
        else {| value := Throw (HttpError resp);
                final := {| session := onRejected (session w) (HttpError resp);
                            backend := b |};
                trace := [(wire, o)] |}
    | NoReply =>
        {| value := Throw NoResponse;
           final := {| session := onRejected (session w) NoResponse; backend := b |};
           trace := [(wire, o)] |}
    end.

(** [httpClient.get(url, { headers: { Accept }, timeout })]; the instance
    defaults are [Accept: application/json] and the configured timeout. *)
Definition mkRequest (m : method) (url : jsstring) (accept : string)
    (csrf : option jsstring) (tmo : Z) (body : option jsval) : request :=
  {| req_method := m; req_url := url; req_accept := lit accept;
     req_csrf := csrf; req_cookie := None; req_timeout := tmo;
     req_data := body |}.

Definition http_get (url : jsstring) (accept : string) (tmo : Z) : M response :=
  send (mkRequest GET url accept None tmo None).

(** *** Connection lifecycle *)

Definition getErrorMessage (error : jserror) : jsstring :=
  match error with
  | HttpError r =>
      lit "HTTP " ++ num_toString (status r) ++ lit ": " ++ statusText r
  | NoResponse => lit "No response received from server"
  | Error msg => if nonempty msg then msg else lit "Unknown error"
  end.

Definition fetchCSRFToken : M unit :=
  try_catch
    (send (mkRequest GET [] "application/xml" (Some (lit "Fetch"))
             (timeout config) None) >> ret tt)
    (fun _ => ret tt).

Definition connect : M unit :=
  try_catch
    ((if enableCSRF config then fetchCSRFToken else ret tt) >>
     connectionTest <-
       try_catch
         (http_get (lit "../iwfnd/catalogservice;v=2/ServiceCollection")
            "application/json" 10000 >> ret true)
         (fun _ => ret false) ;;
     connectionTest <-
       (if negb connectionTest then
          try_catch
            (http_get [] "application/xml" 10000 >> ret true)
            (fun error =>
               if status_is error 404 then ret true
               else if status_is error 401 then
                 throw (Error (lit "Authentication failed - check username/password"))
               else if status_is error 403 then
                 throw (Error (lit "Access forbidden - check user authorizations"))
               else throw error)
        else ret connectionTest) ;;
     if connectionTest : bool then
       set_session (fun s => {| connected := true; csrfToken := csrfToken s;
                                cookies := cookies s |})
     else throw (Error (lit "Could not verify SAP OData connection")))
    (fun error =>
       set_session (fun _ => clearedSession) >>
       throw (Error (lit "Failed to connect to SAP OData service: "
                       ++ getErrorMessage error))).

Definition disconnect : M unit :=
  set_session (fun _ => clearedSession).

Definition set_disconnected : M unit :=
  set_session (fun s => {| connected := false; csrfToken := csrfToken s;
                           cookies := cookies s |}).

Definition isConnected : M bool :=
  fun w =>
    if negb (connected (session w)) then ret false w
    else
      try_catch
        (http_get [] "application/xml" 5000 >> ret true)
        (fun error =>
           if status_is error 404 then ret true
           else if status_is error 401 || status_is error 403 then
             set_disconnected >> ret false
           else set_disconnected >> ret false)
        w.

Definition ensureConnected : M unit :=
  fun w =>
    if negb (connected (session w))
    then throw (Error (lit "Not connected to SAP OData service. Use sap_connect first.")) w
    else ret tt w.

(** *** Service discovery *)

Definition catalogService (service : jsval) : option ODataService :=
  id <-? get service "ID" ;
  title <-? get service "Title" ;
  version <-? get service "Version" ;
  Some {| svc_name := id;
          svc_title := or_else title id;
          svc_version := version;
          svc_url := baseUrl config ++ toString id ++ lit "/" |}.

Definition commonService (serviceName : jsstring) : ODataService :=
  {| svc_name := JStr serviceName;
     svc_title := JStr serviceName;
     svc_version := JUndefined;
     svc_url := baseUrl config ++ serviceName ++ lit "/" |}.

(** [response.data && response.data.d && response.data.d.results]. *)
Definition catalogResults (response : response) : jsval :=
  if truthy (data response) then
    if truthy (opt_get (data response) "d")
    then opt_get (opt_get (data response) "d") "results"
    else opt_get (data response) "d"
  else data response.

(** One turn of the loop over [catalogPaths]: [Some] is the [return] inside
    the loop, [None] falls through to the next path. *)
Definition tryCatalogPath (catalogPath : jsstring) : M (option ODataServiceList) :=
  try_catch
    (response <- http_get catalogPath "application/json" (timeout config) ;;
     if truthy (catalogResults response) then
       match array_map (catalogResults response) catalogService with
       | Some services =>
           ret (Some {| services := services;
                        source := Some (lit "gateway_catalog");
                        catalogUrl := Some catalogPath;
                        message := None |})
       | None => throw TypeError
       end
     else ret None)
    (fun _ => ret None).

Fixpoint tryCatalog (paths : list jsstring) (otherwise : M ODataServiceList)
    : M ODataServiceList :=
  match paths with
  | [] => otherwise
  | catalogPath :: rest =>
      attempt <- tryCatalogPath catalogPath ;;
      match attempt with
      | Some list => ret list
      | None => tryCatalog rest otherwise
      end
  end.

(** The loop over [commonServices], pushing onto [foundServices]. *)
Fixpoint probeCommon (names : list jsstring) (foundServices : list ODataService)
    : M (list ODataService) :=
  match names with
  | [] => ret foundServices
  | serviceName :: rest =>
      foundServices' <-
        try_catch
          (http_get (serviceName ++ lit "/") "application/xml" 5000 >>
           ret (foundServices ++ [commonService serviceName]))
          (fun _ => ret foundServices) ;;
      probeCommon rest foundServices'
  end.

Definition noneFoundMessage : jsstring :=
  lit "No services found. The base URL exists but specific services need to be discovered through SAP GUI or by testing known service names.".

(** Methods 2 and 3 of [getServices]: probe the common names, and report
    what answered or that nothing did. *)
Definition commonServicesTest : M ODataServiceList :=
  foundServices <- probeCommon commonServices [] ;;
  if (0 <? Z.of_nat (List.length foundServices)) then
    ret {| services := foundServices;
           source := Some (lit "common_services_test");
           catalogUrl := None;
           message := None |}
  else
    ret {| services := [];
           source := Some (lit "none_found");
           catalogUrl := None;
           message := Some noneFoundMessage |}.

Definition getServices : M ODataServiceList :=
  ensureConnected >>
  try_catch
    (tryCatalog catalogPaths commonServicesTest)
    (fun error =>
       throw (Error (lit "Failed to get OData services: " ++ getErrorMessage error))).

(** *** Metadata retrieval *)

Definition getServiceMetadata (serviceName : jsstring) : M ODataMetadata :=
  ensureConnected >>
  try_catch
    (response <- http_get (serviceName ++ lit "/$metadata") "application/xml"
                   (timeout config) ;;
     match parseXML (data response) with
     | inr parsed => ret (extractMetadata parsed)
     | inl msg => throw (Error msg)
     end)
    (fun error =>
       throw (Error (lit "Failed to get service metadata: " ++ getErrorMessage error))).

(** *** Data operations *)

Definition queryEntitySet (serviceName entitySet : jsstring)
    (options : ODataQueryOptions) : M jsval :=
  ensureConnected >>
  try_catch
    (response <- http_get (queryUrl serviceName entitySet options)
                   "application/json" (timeout config) ;;
     ret (data response))
    (fun error =>
       throw (Error (lit "Failed to query entity set " ++ entitySet ++ lit ": "
                       ++ getErrorMessage error))).

Definition getEntity (serviceName entitySet : jsstring)
    (keyValues : list (jsstring * jsval)) : M jsval :=
  ensureConnected >>
  try_catch
    (match map_opt (fun entry =>
                      value <-? encodeURIComponent (snd entry) ;
                      Some (fst entry ++ lit "='" ++ value ++ lit "'"))
                   keyValues with
     | None => throw URIError
     | Some parts =>
         let keyString := join (lit ",") parts in
         let url := serviceName ++ lit "/" ++ entitySet ++ lit "(" ++ keyString ++ lit ")" in
         response <- http_get url "application/json" (timeout config) ;;
         ret (data response)
     end)
    (fun error =>
       throw (Error (lit "Failed to get entity: " ++ getErrorMessage error))).

Definition createEntity (serviceName entitySet : jsstring) (body : jsval) : M jsval :=
  ensureConnected >>
  try_catch
    (response <- send (mkRequest POST (serviceName ++ lit "/" ++ entitySet)
                         "application/json" None (timeout config) (Some body)) ;;
     ret (data response))
    (fun error =>
       throw (Error (lit "Failed to create entity: " ++ getErrorMessage error))).

Definition updateEntity (serviceName entitySet : jsstring)
    (keyValues : list (jsstring * jsval)) (body : jsval) : M jsval :=
  ensureConnected >>
  try_catch
    (match map_opt (fun entry =>
                      value <-? encodeURIComponent (snd entry) ;
                      Some (fst entry ++ lit "='" ++ value ++ lit "'"))
                   keyValues with
     | None => throw URIError
     | Some parts =>
         let keyString := join (lit ",") parts in
         response <- send (mkRequest PUT
                             (serviceName ++ lit "/" ++ entitySet ++ lit "("
                                ++ keyString ++ lit ")")
                             "application/json" None (timeout config) (Some body)) ;;
         ret (data response)
     end)
    (fun error =>
       throw (Error (lit "Failed to update entity: " ++ getErrorMessage error))).

Definition deleteEntity (serviceName entitySet : jsstring)
    (keyValues : list (jsstring * jsval)) : M unit :=
  ensureConnected >>
  try_catch
    (match map_opt (fun entry =>
                      value <-? encodeURIComponent (snd entry) ;
                      Some (fst entry ++ lit "='" ++ value ++ lit "'"))
                   keyValues with
     | None => throw URIError
     | Some parts =>
         let keyString := join (lit ",") parts in
         send (mkRequest DELETE
                 (serviceName ++ lit "/" ++ entitySet ++ lit "(" ++ keyString ++ lit ")")
                 "application/json" None (timeout config) None) >>
         ret tt
     end)
    (fun error =>
       throw (Error (lit "Failed to delete entity: " ++ getErrorMessage error))).

Definition callFunction (serviceName functionName : jsstring)
    (parameters : list (jsstring * jsval)) : M jsval :=
  ensureConnected >>
  try_catch
    (let params :=
       fold_left (fun params entry =>
                    URLSearchParams.append (fst entry) (toString (snd entry)) params)
                 parameters URLSearchParams.empty in
     let url := serviceName ++ lit "/" ++ functionName ++ querySuffix params in
     response <- http_get url "application/json" (timeout config) ;;
     ret (data response))
    (fun error =>
       throw (Error (lit "Failed to call function " ++ functionName ++ lit ": "
                       ++ getErrorMessage error))).

(** The operations that need an established session, with their arguments. *)
Inductive operation :=
| GetServices
| GetServiceMetadata (serviceName : jsstring)
| QueryEntitySet (serviceName entitySet : jsstring) (options : ODataQueryOptions)
| GetEntity (serviceName entitySet : jsstring) (keyValues : list (jsstring * jsval))
| CreateEntity (serviceName entitySet : jsstring) (body : jsval)
| UpdateEntity (serviceName entitySet : jsstring)
    (keyValues : list (jsstring * jsval)) (body : jsval)
| DeleteEntity (serviceName entitySet : jsstring) (keyValues : list (jsstring * jsval))
| CallFunction (serviceName functionName : jsstring)
    (parameters : list (jsstring * jsval)).

(** Running an operation for its effect: the returned value is dropped, a
    thrown error is kept. *)
Definition perform (op : operation) : M unit :=
  match op with
  | GetServices => getServices >> ret tt
  | GetServiceMetadata s => getServiceMetadata s >> ret tt
  | QueryEntitySet s e o => queryEntitySet s e o >> ret tt
  | GetEntity s e k => getEntity s e k >> ret tt
  | CreateEntity s e b => createEntity s e b >> ret tt
  | UpdateEntity s e k b => updateEntity s e k b >> ret tt
  | DeleteEntity s e k => deleteEntity s e k
  | CallFunction s f p => callFunction s f p >> ret tt
  end.

End Client.

Arguments session {Backend} w.
Arguments backend {Backend} w.
Arguments Build_World {Backend} session backend.
Arguments value {Backend A} r.
Arguments final {Backend A} r.
Arguments trace {Backend A} r.
Arguments ret {Backend A} a w.
Arguments throw {Backend A} e w.
Arguments bind {Backend A B} m k w.
Arguments try_catch {Backend A} m handler w.
Arguments set_session {Backend} f w.
Arguments send {Backend} respond r w.
Arguments http_get {Backend} respond url accept tmo w.
Arguments fetchCSRFToken {Backend} respond config w.
Arguments connect {Backend} respond config w.
Arguments disconnect {Backend} w.
Arguments set_disconnected {Backend} w.
Arguments isConnected {Backend} respond w.
Arguments ensureConnected {Backend} w.
Arguments tryCatalogPath {Backend} respond config catalogPath w.
Arguments tryCatalog {Backend} respond config paths otherwise w.
Arguments probeCommon {Backend} respond config names foundServices w.
Arguments commonServicesTest {Backend} respond config w.
Arguments getServices {Backend} respond config w.
Arguments getServiceMetadata {Backend} respond parseXML config serviceName w.
Arguments queryEntitySet {Backend} respond config serviceName entitySet options w.
Arguments getEntity {Backend} respond config serviceName entitySet keyValues w.
Arguments createEntity {Backend} respond config serviceName entitySet body w.
Arguments updateEntity {Backend} respond config serviceName entitySet keyValues body w.
Arguments deleteEntity {Backend} respond config serviceName entitySet keyValues w.
Arguments callFunction {Backend} respond config serviceName functionName parameters w.
Arguments perform {Backend} respond parseXML config op w.

End SAPODataClient.
Import SAPODataClient.

(* ------------------------------------------------------------------ *)
(** ** More of the runtime: JSON text and object keys *)

Module JSON.

Definition hex_lower (d : Z) : Z :=
  if d <? 10 then 48 + d else 87 + d.

(** [\uXXXX] with lower-case digits. *)
Definition unicodeEscape (c : Z) : jsstring :=
  [92; 117; hex_lower (Z.land (Z.shiftr c 12) 0xF);
   hex_lower (Z.land (Z.shiftr c 8) 0xF);
   hex_lower (Z.land (Z.shiftr c 4) 0xF); hex_lower (Z.land c 0xF)].

Definition quoteUnit (c : Z) : jsstring :=
  if c =? 8 then [92; 98]
  else if c =? 9 then [92; 116]
  else if c =? 10 then [92; 110]
  else if c =? 12 then [92; 102]
  else if c =? 13 then [92; 114]
  else if c =? 34 then [92; 34]
  else if c =? 92 then [92; 92]
  else if c <? 32 then unicodeEscape c
  else [c].

(** The characters of a quoted string: a surrogate pair goes through as it
    is, an unpaired surrogate is escaped. *)
Fixpoint quoteUnits (s : jsstring) : jsstring :=
  match s with
  | [] => []
  | u :: rest =>
      if is_high u then
        match rest with
        | l :: rest' =>
            if is_low l then u :: l :: quoteUnits rest'
            else unicodeEscape u ++ quoteUnits rest
        | [] => unicodeEscape u
        end
      else if is_low u then unicodeEscape u ++ quoteUnits rest
      else quoteUnit u ++ quoteUnits rest
  end.

Definition quote (s : jsstring) : jsstring := [34] ++ quoteUnits s ++ [34].

(** [JSON.stringify(v, null, 2)] below the top level, at the given
    indentation; [None] is the [undefined] of a value with no JSON text. *)
Fixpoint serialize (indent : jsstring) (v : jsval) : option jsstring :=
  match v with
  | JUndefined => None
  | JNull => Some (lit "null")
  | JBool true => Some (lit "true")
  | JBool false => Some (lit "false")
  | JNum n => Some (num_toString n)
  | JStr s => Some (quote s)
  | JArr xs =>
      let inner := indent ++ lit "  " in
      match xs with
      | [] => Some (lit "[]")
      | _ :: _ =>
          Some (lit "[" ++ [10] ++ inner
                  ++ join (lit "," ++ [10] ++ inner)
                       (map (fun x =>
                               match serialize inner x with
                               | Some text => text
                               | None => lit "null"
                               end) xs)
                  ++ [10] ++ indent ++ lit "]")
      end
  | JObj fields =>
      let inner := indent ++ lit "  " in
      match flat_map (fun kv =>
                        match serialize inner (snd kv) with
                        | Some text => [quote (fst kv) ++ lit ": " ++ text]
                        | None => []
                        end) fields with
      | [] => Some (lit "{}")
      | members =>
          Some (lit "{" ++ [10] ++ inner
                  ++ join (lit "," ++ [10] ++ inner) members
                  ++ [10] ++ indent ++ lit "}")
      end
  end.

(** [`${JSON.stringify(v, null, 2)}`]. *)
Definition stringify (v : jsval) : jsstring :=
  match serialize [] v with
  | Some text => text
  | None => lit "undefined"
  end.

End JSON.

(* ------------------------------------------------------------------ *)
(** ** The tool handlers *)

Module SAPODataHandlers.

(** [Object.entries(v)]: the own entries of an object, the indexed elements
    of an array, the indexed characters of a string, nothing for a number or
    a boolean; [None] is the TypeError on [undefined] and [null]. *)
Fixpoint indexedFrom (i : nat) (l : list jsval) : list (jsstring * jsval) :=
  match l with
  | [] => []
  | x :: rest => (num_toString (Z.of_nat i), x) :: indexedFrom (S i) rest
  end.

Definition entriesOf (v : jsval) : option (list (jsstring * jsval)) :=
  match v with
  | JUndefined | JNull => None
  | JObj fields => Some fields
  | JArr xs => Some (indexedFrom 0 xs)
  | JStr s => Some (indexedFrom 0 (map (fun c => JStr [c]) s))
  | JBool _ | JNum _ => Some []
  end.

(** [v && Object.keys(v).length > 0]. *)
Definition hasKeys (v : jsval) : bool :=
  truthy v &&
  match entriesOf v with
  | Some entries => (0 <? Z.of_nat (List.length entries))
  | None => false
  end.

Definition nl : jsstring := [10].

(** The client a handler object holds: its configuration and session. *)
Record Client := {
  clientConfig : SAPODataConfig;
  clientSession : Session
}.

Definition newClient (config : SAPODataConfig) : Client :=
  {| clientConfig := config; clientSession := clearedSession |}.

Record ConnectionInfo := {
  info_connected : bool;
  info_baseUrl : jsstring;
  info_username : jsstring;
  info_client : option jsstring;
  info_timeout : Z;
  info_enableCSRF : bool;
  hasCSRFToken : bool
}.

Definition getConnectionInfo (c : Client) : ConnectionInfo :=
  {| info_connected := connected (clientSession c);
     info_baseUrl := baseUrl (clientConfig c);
     info_username := username (clientConfig c);
     info_client := client (clientConfig c);
     info_timeout := timeout (clientConfig c);
     info_enableCSRF := enableCSRF (clientConfig c);
     hasCSRFToken := match csrfToken (clientSession c) with
                     | Some t => nonempty t
                     | None => false
                     end |}.

(** What a tool returns: the text and, for some tools, the raw data. *)
Inductive RawData :=
| NoData
| Body (v : jsval)
| Model (m : ODataMetadata).

Record ToolResult := {
  text : jsstring;
  rawData : RawData
}.

Definition boolText (b : bool) : jsstring :=
  if b then lit "true" else lit "false".

(** [value || 'Not specified'] for an optional string. *)
Definition orNotSpecified (v : option jsstring) : jsstring :=
  match v with
  | Some (c :: s) => c :: s
  | _ => lit "Not specified"
  end.

Definition connectedText (config : SAPODataConfig) : jsstring :=
  lit "Successfully connected to SAP OData service:" ++ nl
  ++ lit "- Base URL: " ++ baseUrl config ++ nl
  ++ lit "- Username: " ++ username config ++ nl
  ++ lit "- Client: " ++ orNotSpecified (client config) ++ nl
  ++ lit "- CSRF Enabled: " ++ boolText (enableCSRF config) ++ nl ++ nl
  ++ lit "Note: The base URL may return 404 when accessed directly. This is normal for SAP OData services - you need to specify a service name. Use 'Get list of available OData services' to discover available services.".

Definition connection404Hint : jsstring :=
  lit "Connection test returned 404. This might be expected for SAP OData base URLs. The issue could be:" ++ nl
  ++ lit "1. The base URL is incomplete (needs a service name)" ++ nl
  ++ lit "2. OData services are not activated at this path" ++ nl
  ++ lit "3. Different URL structure is needed" ++ nl ++ nl
  ++ lit "Try running the discovery tool to find the correct URL: npm run discover:services".

Definition connectionLost : jserror :=
  Error (lit "SAP OData connection lost. Please reconnect using sap_connect.").

Definition notConnected : jserror :=
  Error (lit "Not connected to SAP OData service. Use sap_connect first.").

(** *** Texts of the tools *)

Definition count {A} (l : list A) : jsstring := num_toString (Z.of_nat (List.length l)).

Definition propertyText (prop : ODataProperty) : jsstring :=
  lit "  " ++ [0x2022] ++ lit " " ++ toString (prop_name prop) ++ lit ": "
  ++ toString (prop_type prop)
  ++ (if nullable prop then [] else lit " (required)") ++ nl.

Definition entityText (entity : ODataEntity) : jsstring :=
  nl ++ lit "- " ++ toString (ent_name entity) ++ lit ":" ++ nl
  ++ (if (0 <? Z.of_nat (List.length (properties entity)))
      then List.concat (map propertyText (properties entity))
      else []).

Definition functionText (func : ODataFunction) : jsstring :=
  nl ++ lit "- " ++ toString (fn_name func)
  ++ (if truthy (returnType func)
      then lit " " ++ [0x2192] ++ lit " " ++ toString (returnType func)
      else [])
  ++ nl.

Definition metadataText (serviceName : jsval) (result : ODataMetadata) : jsstring :=
  lit "SAP OData Service Metadata for " ++ toString serviceName ++ lit ":" ++ nl ++ nl
  ++ (if (0 <? Z.of_nat (List.length (entities result)))
      then lit "Entity Types (" ++ count (entities result) ++ lit "):" ++ nl
           ++ List.concat (map entityText (entities result))
      else [])
  ++ (if (0 <? Z.of_nat (List.length (functions result)))
      then nl ++ nl ++ lit "Function Imports (" ++ count (functions result)
           ++ lit "):" ++ nl ++ List.concat (map functionText (functions result))
      else []).

Definition statusText (isConnected : bool) (info : ConnectionInfo) : jsstring :=
  lit "SAP OData Connection Status:" ++ nl ++ nl
  ++ lit "Status: "
  ++ (if isConnected then [0x2705] ++ lit " Connected"
      else [0x274C] ++ lit " Disconnected") ++ nl
  ++ lit "Base URL: " ++ info_baseUrl info ++ nl
  ++ lit "Username: " ++ info_username info ++ nl
  ++ lit "Client: " ++ orNotSpecified (info_client info) ++ nl
  ++ lit "Timeout: " ++ num_toString (info_timeout info) ++ lit "ms" ++ nl
  ++ lit "CSRF Enabled: " ++ boolText (info_enableCSRF info) ++ nl
  ++ lit "CSRF Token: "
  ++ (if hasCSRFToken info then lit "Available" else lit "Not available") ++ nl
  ++ (if negb isConnected
      then nl ++ lit "Note: Connection appears to be lost. Use sap_connect to reconnect."
      else []).

Section Handlers.

(** Besides the backend and the XML parser: the schema validation of the
    connection arguments ([SAPODataConfigSchema.parse]), and the messages
    the engine and axios give to the errors they raise. *)
Variable Backend : Type.
Variable respond : Backend -> request -> outcome * Backend.
Variable parseXML : jsval -> jsstring + jsval.
Variable parseConfig : jsval -> jsstring + SAPODataConfig.
Variable readError : jsval -> string -> jsstring.
Variable entriesError : jsstring.
Variable axiosMessage : jserror -> jsstring.

(** The handler object and the backend it talks to. *)
Record Handlers := {
  sapClient : option Client;
  network : Backend
}.

Record Outcome (A : Type) := {
  returned : result A;
  after : Handlers;
  exchanged : list exchange
}.
Arguments returned {A} o.
Arguments after {A} o.
Arguments exchanged {A} o.

Definition H (A : Type) := Handlers -> Outcome A.

Definition pure {A} (a : A) : H A :=
  fun h => {| returned := Ok a; after := h; exchanged := [] |}.

Definition raise {A} (e : jserror) : H A :=
  fun h => {| returned := Throw e; after := h; exchanged := [] |}.

Definition andThen {A B} (m : H A) (k : A -> H B) : H B :=
  fun h =>
    let o := m h in
    match returned o with
    | Ok a =>
        let o' := k a (after o) in
        {| returned := returned o'; after := after o';
           exchanged := exchanged o ++ exchanged o' |}
    | Throw e => {| returned := Throw e; after := after o; exchanged := exchanged o |}
    end.

Definition attempt {A} (m : H A) (handler : jserror -> H A) : H A :=
  fun h =>
    let o := m h in
    match returned o with
    | Ok a => o
    | Throw e =>
        let o' := handler e (after o) in
        {| returned := returned o'; after := after o';
           exchanged := exchanged o ++ exchanged o' |}
    end.

Notation "x <~ m ;; k" := (andThen m (fun x => k))
  (at level 61, m at next level, right associativity).
Notation "m ;;; k" := (andThen m (fun _ => k))
  (at level 61, right associativity).

(** [this.sapClient = c]. *)
Definition setClient (c : option Client) : H unit :=
  fun h => {| returned := Ok tt;
              after := {| sapClient := c; network := network h |};
              exchanged := [] |}.

(** [await this.sapClient!.method(...)]: the client operation runs on the
    session of the held client; on a null client the call is a TypeError. *)
Definition onClient {A} (method : string)
    (op : SAPODataConfig -> M Backend A) : H A :=
  fun h =>
    match sapClient h with
    | None => raise (Error (readError JNull method)) h
    | Some c =>
        let r := op (clientConfig c)
                   {| session := clientSession c; backend := network h |} in
        {| returned := value r;
           after := {| sapClient := Some {| clientConfig := clientConfig c;
                                            clientSession := session (final r) |};
                       network := backend (final r) |};
           exchanged := trace r |}
    end.

(** [error instanceof Error ? error.message : String(error)]; every value
    thrown here is an Error. *)
Definition errorMessageOf (error : jserror) : jsstring :=
  match error with
  | Error msg => msg
  | other => axiosMessage other
  end.

Definition ensureConnected : H unit :=
  fun h =>
    match sapClient h with
    | None => raise notConnected h
    | Some _ => pure tt h
    end.

(** The two statements every data handler starts with. *)
Definition requireLiveSession : H unit :=
  ensureConnected ;;;
  alive <~ onClient "isConnected" (fun _ => isConnected respond) ;;
  if negb alive then raise connectionLost else pure tt.

(** [args.name]. *)
Definition arg (args : jsval) (name : string) : H jsval :=
  match get args name with
  | Some v => pure v
  | None => raise (Error (readError args name))
  end.

(** [result.d || result]. *)
Definition payload (result : jsval) : H jsval :=
  match get result "d" with
  | Some d => pure (or_else d result)
  | None => raise (Error (readError result "d"))
  end.

Definition handleConnect (args : jsval) : H ToolResult :=
  attempt
    ((fun h =>
        match sapClient h with
        | Some _ => onClient "disconnect" (fun _ => disconnect) h
        | None => pure tt h
        end) ;;;
     match parseConfig args with
     | inl msg => raise (Error msg)
     | inr config =>
         setClient (Some (newClient config)) ;;;
         onClient "connect" (fun cfg => connect respond cfg) ;;;
         pure {| text := connectedText config; rawData := NoData |}
     end)
    (fun error =>
       let errorMessage := errorMessageOf error in
       if includes (lit "404") errorMessage
       then raise (Error connection404Hint)
       else raise (Error (lit "Failed to connect to SAP OData service: "
                            ++ errorMessage))).

Definition handleGetServiceMetadata (args : jsval) : H ToolResult :=
  requireLiveSession ;;;
  attempt
    (serviceName <~ arg args "serviceName" ;;
     result <~ onClient "getServiceMetadata"
                 (fun cfg => getServiceMetadata respond parseXML cfg
                               (toString serviceName)) ;;
     pure {| text := metadataText serviceName result; rawData := Model result |})
    (fun error =>
       raise (Error (lit "Failed to get service metadata: " ++ errorMessageOf error))).

(** The client operations on key values as the handlers pass them: any
    value at all.  [Object.entries] fails on [undefined] and [null] inside
    the operation's own [try]. *)
Definition keyed {A} (prefix : jsstring)
    (op : list (jsstring * jsval) -> M Backend A) (keyValues : jsval) : M Backend A :=
  match entriesOf keyValues with
  | Some entries => op entries
  | None =>
      bind SAPODataClient.ensureConnected
           (fun _ => throw (Error (prefix ++ getErrorMessage (Error entriesError))))
  end.

Definition entityHeader (what : string) (serviceName entitySet : jsval) : jsstring :=
  lit what ++ toString serviceName ++ lit "/" ++ toString entitySet ++ lit ":"
  ++ nl ++ nl.

Definition handleGetEntity (args : jsval) : H ToolResult :=
  requireLiveSession ;;;
  attempt
    (serviceName <~ arg args "serviceName" ;;
     entitySet <~ arg args "entitySet" ;;
     keyValues <~ arg args "keyValues" ;;
     result <~ onClient "getEntity"
                 (fun cfg =>
                    keyed (lit "Failed to get entity: ")
                      (getEntity respond cfg (toString serviceName) (toString entitySet))
                      keyValues) ;;
     shown <~ payload result ;;
     pure {| text := entityHeader "SAP OData Entity from " serviceName entitySet
                       ++ lit "Key values: " ++ JSON.stringify keyValues ++ nl ++ nl
                       ++ lit "Entity data:" ++ nl ++ JSON.stringify shown;
             rawData := Body result |})
    (fun error =>
       raise (Error (lit "Failed to get entity: " ++ errorMessageOf error))).

Definition handleCreateEntity (args : jsval) : H ToolResult :=
  requireLiveSession ;;;
  attempt
    (serviceName <~ arg args "serviceName" ;;
     entitySet <~ arg args "entitySet" ;;
     body <~ arg args "data" ;;
     result <~ onClient "createEntity"
                 (fun cfg => createEntity respond cfg (toString serviceName)
                               (toString entitySet) body) ;;
     shown <~ payload result ;;
     pure {| text := entityHeader "SAP OData Entity Created in " serviceName entitySet
                       ++ lit "Input data:" ++ nl ++ JSON.stringify body ++ nl ++ nl
                       ++ lit "Created entity:" ++ nl ++ JSON.stringify shown;
             rawData := Body result |})
    (fun error =>
       raise (Error (lit "Failed to create entity: " ++ errorMessageOf error))).

Definition handleUpdateEntity (args : jsval) : H ToolResult :=
  requireLiveSession ;;;
  attempt
    (serviceName <~ arg args "serviceName" ;;
     entitySet <~ arg args "entitySet" ;;
     keyValues <~ arg args "keyValues" ;;
     body <~ arg args "data" ;;
     result <~ onClient "updateEntity"
                 (fun cfg =>
                    keyed (lit "Failed to update entity: ")
                      (fun entries =>
                         updateEntity respond cfg (toString serviceName)
                           (toString entitySet) entries body)
                      keyValues) ;;
     pure {| text := entityHeader "SAP OData Entity Updated in " serviceName entitySet
                       ++ lit "Key values: " ++ JSON.stringify keyValues ++ nl ++ nl
                       ++ lit "Update data: " ++ JSON.stringify body ++ nl ++ nl
                       ++ lit "Update successful"
                       ++ (if hasKeys result
                           then nl ++ nl ++ lit "Response: " ++ JSON.stringify result
                           else []);
             rawData := Body result |})
    (fun error =>
       raise (Error (lit "Failed to update entity: " ++ errorMessageOf error))).

Definition handleDeleteEntity (args : jsval) : H ToolResult :=
  requireLiveSession ;;;
  attempt
    (serviceName <~ arg args "serviceName" ;;
     entitySet <~ arg args "entitySet" ;;
     keyValues <~ arg args "keyValues" ;;
     onClient "deleteEntity"
       (fun cfg =>
          keyed (lit "Failed to delete entity: ")
            (deleteEntity respond cfg (toString serviceName) (toString entitySet))
            keyValues) ;;;
     pure {| text := entityHeader "SAP OData Entity Deleted from " serviceName entitySet
                       ++ lit "Key values: " ++ JSON.stringify keyValues ++ nl ++ nl
                       ++ lit "Entity successfully deleted";
             rawData := NoData |})
    (fun error =>
       raise (Error (lit "Failed to delete entity: " ++ errorMessageOf error))).

Definition handleCallFunction (args : jsval) : H ToolResult :=
  requireLiveSession ;;;
  attempt
    (serviceName <~ arg args "serviceName" ;;
     functionName <~ arg args "functionName" ;;
     parameters <~ arg args "parameters" ;;
     result <~ onClient "callFunction"
                 (fun cfg =>
                    keyed (lit "Failed to call function " ++ toString functionName
                             ++ lit ": ")
                      (callFunction respond cfg (toString serviceName)
                         (toString functionName))
                      (or_else parameters (JObj []))) ;;
     pure {| text := entityHeader "SAP OData Function Result for " serviceName
                       functionName
                       ++ (if hasKeys parameters
                           then lit "Parameters: " ++ JSON.stringify parameters
                                ++ nl ++ nl
                           else [])
                       ++ lit "Result:" ++ nl ++ JSON.stringify result;
             rawData := Body result |})
    (fun error =>
       functionName <~ arg args "functionName" ;;
       raise (Error (lit "Failed to call function " ++ toString functionName
                       ++ lit ": " ++ errorMessageOf error))).

Definition handleConnectionStatus : H ToolResult :=
  fun h =>
    match sapClient h with
    | None =>
        pure {| text := lit "No SAP OData connection established. Use sap_connect to connect to an SAP OData service.";
                rawData := NoData |} h
    | Some _ =>
        attempt
          (isConnected <~ onClient "isConnected" (fun _ => isConnected respond) ;;
           (fun h' =>
              match sapClient h' with
              | Some c =>
                  pure {| text := statusText isConnected (getConnectionInfo c);
                          rawData := NoData |} h'
              | None => raise (Error (readError JNull "getConnectionInfo")) h'
              end))
          (fun error =>
             pure {| text := lit "Error checking connection status: "
                               ++ errorMessageOf error;
                     rawData := NoData |})
          h
    end.

Definition handleDisconnect : H ToolResult :=
  fun h =>
    match sapClient h with
    | Some _ =>
        attempt
          (onClient "disconnect" (fun _ => disconnect) ;;;
           setClient None ;;;
           pure {| text := lit "Successfully disconnected from SAP OData service";
                   rawData := NoData |})
          (fun error =>
             setClient None ;;;
             pure {| text := lit "Warning during disconnect: " ++ errorMessageOf error
                               ++ nl ++ lit "Connection has been cleared.";
                     rawData := NoData |})
          h
    | None =>
        pure {| text := lit "No active SAP OData connection to disconnect";
                rawData := NoData |} h
    end.

(** The data tools modelled here, and the handler of each. *)
Inductive dataTool :=
| GetServiceMetadataTool
| GetEntityTool
| CreateEntityTool
| UpdateEntityTool
| DeleteEntityTool
| CallFunctionTool.

Definition handle (tool : dataTool) (args : jsval) : H ToolResult :=
  match tool with
  | GetServiceMetadataTool => handleGetServiceMetadata args
  | GetEntityTool => handleGetEntity args
  | CreateEntityTool => handleCreateEntity args
  | UpdateEntityTool => handleUpdateEntity args
  | DeleteEntityTool => handleDeleteEntity args
  | CallFunctionTool => handleCallFunction args
  end.

End Handlers.

Arguments sapClient {Backend} h.
Arguments network {Backend} h.
Arguments Build_Handlers {Backend} sapClient network.
Arguments returned {Backend A} o.
Arguments after {Backend A} o.
Arguments exchanged {Backend A} o.
Arguments pure {Backend A} a h.
Arguments raise {Backend A} e h.
Arguments andThen {Backend A B} m k h.
Arguments attempt {Backend A} m handler h.
Arguments setClient {Backend} c h.
Arguments onClient {Backend} readError {A} method op h.
Arguments ensureConnected {Backend} h.
Arguments requireLiveSession {Backend} respond readError h.
Arguments arg {Backend} readError args name h.
Arguments payload {Backend} readError result h.
Arguments keyed {Backend} entriesError {A} prefix op keyValues w.
Arguments handleConnect {Backend} respond parseConfig readError axiosMessage args h.
Arguments handleGetServiceMetadata {Backend} respond parseXML readError axiosMessage args h.
Arguments handleGetEntity {Backend} respond readError entriesError axiosMessage args h.
Arguments handleCreateEntity {Backend} respond readError axiosMessage args h.
Arguments handleUpdateEntity {Backend} respond readError entriesError axiosMessage args h.
Arguments handleDeleteEntity {Backend} respond readError entriesError axiosMessage args h.
Arguments handleCallFunction {Backend} respond readError entriesError axiosMessage args h.
Arguments handleConnectionStatus {Backend} respond readError axiosMessage h.
Arguments handleDisconnect {Backend} readError axiosMessage h.
Arguments handle {Backend} respond parseXML readError entriesError axiosMessage tool args h.

End SAPODataHandlers.

(* ------------------------------------------------------------------ *)
(** ** The tool table and the servers' dispatch *)

Module SAPODataMCPServer.
Import SAPODataHandlers.

(** The names of [toolDefinitions], in the order of the table. *)
Definition toolNames : list string :=
  ["sap_connect"; "sap_get_services"; "sap_get_service_metadata";
   "sap_query_entity_set"; "sap_get_entity"; "sap_create_entity";
   "sap_update_entity"; "sap_delete_entity"; "sap_call_function";
   "sap_connection_status"; "sap_disconnect"]%string.

(** The [switch] on the tool name that the three entry points share: the
    eleven cases in the order of the source, then [default]. *)
Definition switchOnName {R} (name : jsstring)
    (connect getServices getServiceMetadata queryEntitySet getEntity createEntity
       updateEntity deleteEntity callFunction connectionStatus disconnect
       otherwise : R) : R :=
  if str_eqb name (lit "sap_connect") then connect
  else if str_eqb name (lit "sap_get_services") then getServices
  else if str_eqb name (lit "sap_get_service_metadata") then getServiceMetadata
  else if str_eqb name (lit "sap_query_entity_set") then queryEntitySet
  else if str_eqb name (lit "sap_get_entity") then getEntity
  else if str_eqb name (lit "sap_create_entity") then createEntity
  else if str_eqb name (lit "sap_update_entity") then updateEntity
  else if str_eqb name (lit "sap_delete_entity") then deleteEntity
  else if str_eqb name (lit "sap_call_function") then callFunction
  else if str_eqb name (lit "sap_connection_status") then connectionStatus
  else if str_eqb name (lit "sap_disconnect") then disconnect
  else otherwise.

Inductive ErrorCode := MethodNotFound | InternalError.

(** What the request handler of the stdio server can catch and throw: an
    error of a handler, or an [McpError] with its code. *)
Inductive thrown :=
| Plain (e : jserror)
| Mcp (code : ErrorCode) (message : jsstring).

Section Server.

(** The two handlers not embedded here are parameters, and so is the
    message the SDK gives an [McpError] from its code and text. *)
Variable Backend : Type.
Variable respond : Backend -> request -> outcome * Backend.
Variable parseXML : jsval -> jsstring + jsval.
Variable parseConfig : jsval -> jsstring + SAPODataConfig.
Variable readError : jsval -> string -> jsstring.
Variable entriesError : jsstring.
Variable axiosMessage : jserror -> jsstring.
Variable handleGetServices : H Backend ToolResult.
Variable handleQueryEntitySet : jsval -> H Backend ToolResult.
Variable mcpMessage : ErrorCode -> jsstring -> jsstring.

(** One call of a tool: what came back or was thrown, the handler object
    left, the exchanges with the backend. *)
Record Reply := {
  replied : ToolResult + thrown;
  left_ : Handlers Backend;
  wire : list exchange
}.

Definition ofHandler (m : H Backend ToolResult) (h : Handlers Backend) : Reply :=
  let o := m h in
  {| replied := match returned o with
                | Ok r => inl r
                | Throw e => inr (Plain e)
                end;
     left_ := after o;
     wire := exchanged o |}.

(** [error instanceof Error ? error.message : String(error)]. *)
Definition messageOf (error : thrown) : jsstring :=
  match error with
  | Plain e => errorMessageOf axiosMessage e
  | Mcp code message => mcpMessage code message
  end.

(** The callback [MyMCP.init] and the HTTP entry point register for the
    tool called [name]. *)
Definition registered (name : jsstring) (args : jsval) : H Backend ToolResult :=
  switchOnName name
    (handleConnect respond parseConfig readError axiosMessage args)
    handleGetServices
    (handleGetServiceMetadata respond parseXML readError axiosMessage args)
    (handleQueryEntitySet args)
    (handleGetEntity respond readError entriesError axiosMessage args)
    (handleCreateEntity respond readError axiosMessage args)
    (handleUpdateEntity respond readError entriesError axiosMessage args)
    (handleDeleteEntity respond readError entriesError axiosMessage args)
    (handleCallFunction respond readError entriesError axiosMessage args)
    (handleConnectionStatus respond readError axiosMessage)
    (handleDisconnect readError axiosMessage)
    (pure {| text := lit "Tool " ++ name ++ lit " not implemented.";
             rawData := NoData |}).

(** The [CallToolRequestSchema] handler of [setupToolHandlers]. *)
Definition callTool (name : jsstring) (args : jsval) (h : Handlers Backend) : Reply :=
  let attempted :=
    switchOnName name
      (ofHandler (handleConnect respond parseConfig readError axiosMessage args) h)
      (ofHandler handleGetServices h)
      (ofHandler (handleGetServiceMetadata respond parseXML readError axiosMessage args) h)
      (ofHandler (handleQueryEntitySet args) h)
      (ofHandler (handleGetEntity respond readError entriesError axiosMessage args) h)
      (ofHandler (handleCreateEntity respond readError axiosMessage args) h)
      (ofHandler (handleUpdateEntity respond readError entriesError axiosMessage args) h)
      (ofHandler (handleDeleteEntity respond readError entriesError axiosMessage args) h)
      (ofHandler (handleCallFunction respond readError entriesError axiosMessage args) h)
      (ofHandler (handleConnectionStatus respond readError axiosMessage) h)
      (ofHandler (handleDisconnect readError axiosMessage) h)
      {| replied := inr (Mcp MethodNotFound (lit "Unknown tool: " ++ name));
         left_ := h; wire := [] |} in
  match replied attempted with
  | inl r => attempted
  | inr error =>
      {| replied := inr (Mcp InternalError (messageOf error));
         left_ := left_ attempted; wire := wire attempted |}
  end.

End Server.

Arguments replied {Backend} r.
Arguments left_ {Backend} r.
Arguments wire {Backend} r.
Arguments Build_Reply {Backend} replied left_ wire.
Arguments ofHandler {Backend} m h.
Arguments registered {Backend} respond parseXML parseConfig readError entriesError
  axiosMessage handleGetServices handleQueryEntitySet name args h.
Arguments callTool {Backend} respond parseXML parseConfig readError entriesError
  axiosMessage handleGetServices handleQueryEntitySet mcpMessage name args h.

End SAPODataMCPServer.

(* ------------------------------------------------------------------ *)
(** ** Vocabulary of the properties *)

(** The URLs and methods an operation put on the wire, in order. *)
Definition urls (t : list exchange) : list jsstring :=
  map (fun ex => req_url (fst ex)) t.

Definition methods (t : list exchange) : list method :=
  map (fun ex => req_method (fst ex)) t.

(** The key predicate as the specification words it: each entry becomes
    [Key='encodedValue'], entries are comma-joined. *)
Definition keyEntry (entry : jsstring * jsval) : option jsstring :=
  match encodeURIComponent (snd entry) with
  | Some encodedValue => Some (fst entry ++ lit "='" ++ encodedValue ++ lit "'")
  | None => None
  end.

Definition keyPredicate (keyValues : list (jsstring * jsval)) : option jsstring :=
  match map_opt keyEntry keyValues with
  | Some entries => Some (join (lit ",") entries)
  | None => None
  end.

Definition entityUrl (serviceName entitySet keyString : jsstring) : jsstring :=
  serviceName ++ lit "/" ++ entitySet ++ lit "(" ++ keyString ++ lit ")".

Definition notConnectedError : jserror :=
  Error (lit "Not connected to SAP OData service. Use sap_connect first.").

(** The exchanges of a run in which the backend answered with [code]. *)
Definition got (code : Z) (t : list exchange) : Prop :=
  exists rq r, In (rq, Replied r) t /\ status r = code.

(** The error [connect] throws on bad credentials. *)
Definition authenticationFailed : jserror :=
  Error (lit "Failed to connect to SAP OData service: Authentication failed - check username/password").

(** The connectivity probe of [connect]: the bare GET that carries no
    token-fetch header. *)
Definition isProbe (rq : request) : Prop :=
  req_url rq = [] /\ req_csrf rq = None.

(** The URLs of the exchanges that came back 2xx. *)
Definition answered (t : list exchange) : list jsstring :=
  urls (List.filter (fun ex => succeeded (snd ex)) t).

(** The nodes of the parse tree a metadata model is read from:
    [Schema.EntityType[i]] and its [Property[j]]. *)
Definition arrayItems (v : jsval) : list jsval :=
  match v with
  | JArr xs => xs
  | _ => []
  end.

Definition entityNodes (parsed : jsval) : list jsval :=
  arrayItems (or_else (opt_get (schemaOf parsed) "EntityType") (JArr [])).

Definition propertyNodes (entity : jsval) : list jsval :=
  arrayItems (or_else (opt_get entity "Property") (JArr [])).

(** The document marks the property with [Nullable="false"]. *)
Definition markedNotNullable (prop : jsval) : Prop :=
  exists attrs,
    get prop "$" = Some attrs /\ get attrs "Nullable" = Some (JStr (lit "false")).

(** The result of a discovery that found nothing. *)
Definition noneFound : ODataServiceList :=
  {| services := []; source := Some (lit "none_found"); catalogUrl := None;
     message := Some noneFoundMessage |}.

(** The three provenance tags of a discovery result. *)
Definition sourceTags : list jsstring :=
  [lit "gateway_catalog"; lit "common_services_test"; lit "none_found"].

(** [wp m w Q]: the run of [m] from [w] satisfies [Q]. *)
Definition wp {Backend A} (m : M Backend A) (w : World Backend)
    (Q : Run Backend A -> Prop) : Prop :=
  Q (m w).

(** An operation is guarded when it can neither set the connected flag nor
    keep it after an HTTP 401. *)
Definition guarded {Backend A} (m : M Backend A) : Prop :=
  forall w,
    (connected (session w) = false ->
     connected (session (final (m w))) = false)
    /\ (got 401 (trace (m w)) ->
        connected (session (final (m w))) = false).

(** *** Vocabulary of the further properties *)

(** A held CSRF token is a usable one: neither empty nor the placeholder
    [Required]. *)
Definition tokenOk (s : Session) : Prop :=
  match csrfToken s with
  | None => True
  | Some t => t <> [] /\ t <> lit "Required"
  end.

(** Every stored cookie is a bare [name=value]: it holds no semicolon. *)
Definition cookiesOk (s : Session) : Prop :=
  Forall (fun cookie => ~ In 59 cookie) (cookies s).

(** [maintains I T m]: from a session satisfying [I], the run of [m] leaves
    a session satisfying [I] and has only exchanges satisfying [T]. *)
Definition maintains {Backend A} (I : Session -> Prop) (T : exchange -> Prop)
    (m : M Backend A) : Prop :=
  forall w,
    I (session w) ->
    I (session (final (m w))) /\ Forall T (trace (m w)).

(** [steady m]: unless it meets an HTTP 401, [m] leaves the connected flag
    as it found it. *)
Definition steady {Backend A} (m : M Backend A) : Prop :=
  forall w,
    ~ got 401 (trace (m w)) ->
    connected (session (final (m w))) = connected (session w).

(** A GET carries no CSRF token; a GET of [connect] may carry the literal
    [Fetch]. *)
Definition getWithoutToken (ex : exchange) : Prop :=
  req_method (fst ex) = GET -> req_csrf (fst ex) = None.

Definition getWithoutHeldToken (ex : exchange) : Prop :=
  req_method (fst ex) = GET ->
  req_csrf (fst ex) = None \/ req_csrf (fst ex) = Some (lit "Fetch").


(** A failure of [connect], by its cause. *)
Definition connectFailure (cause : jsstring) : jserror :=
  Error (lit "Failed to connect to SAP OData service: " ++ cause).

(** What [connect] returns once its catalog request has failed, by the
    outcome of the bare probe. *)
Definition probeVerdict (o : outcome) : result unit :=
  match o with
  | Replied r =>
      if validateStatus (status r) || (status r =? 404) then Ok tt
      else if status r =? 401 then
        Throw (connectFailure (lit "Authentication failed - check username/password"))
      else if status r =? 403 then
        Throw (connectFailure (lit "Access forbidden - check user authorizations"))
      else
        Throw (connectFailure
                 (lit "HTTP " ++ num_toString (status r) ++ lit ": " ++ statusText r))
  | NoReply => Throw (connectFailure (lit "No response received from server"))
  end.

(** The value each query option contributes, if any, and the parameter it
    becomes. *)
Definition listValue (v : option (list jsstring)) : option jsstring :=
  match v with
  | Some (x :: l) => Some (join (lit ",") (x :: l))
  | _ => None
  end.

Definition textValue (v : option jsstring) : option jsstring :=
  match v with
  | Some (c :: s) => Some (c :: s)
  | _ => None
  end.

Definition countValue (v : option Z) : option jsstring :=
  match v with
  | Some n => if n =? 0 then None else Some (num_toString n)
  | None => None
  end.

Definition optionalParam (name : string) (v : option jsstring) : URLSearchParams.t :=
  match v with
  | Some x => [(lit name, x)]
  | None => []
  end.

Definition queryPlan (o : ODataQueryOptions) : list (string * option jsstring) :=
  [("$select"%string, listValue (select o));
   ("$filter"%string, textValue (filter o));
   ("$orderby"%string, textValue (orderby o));
   ("$top"%string, countValue (top o));
   ("$skip"%string, countValue (skip o));
   ("$expand"%string, listValue (expand o))].


(** [l] is [m] with some elements left out, in the same order. *)
Fixpoint subsequence (l m : list jsstring) : bool :=
  match l, m with
  | [], _ => true
  | _ :: _, [] => false
  | x :: l', y :: m' =>
      if str_eqb x y then subsequence l' m' else subsequence l m'
  end.

Definition queryNames : list jsstring :=
  [lit "$select"; lit "$filter"; lit "$orderby"; lit "$top"; lit "$skip";
   lit "$expand"].

(** The function-import nodes a model is read from:
    [Schema.EntityContainer[0].FunctionImport[k]]. *)
Definition functionNodes (parsed : jsval) : list jsval :=
  arrayItems
    (or_else (opt_get (opt_get0 (opt_get (schemaOf parsed) "EntityContainer"))
                      "FunctionImport")
             (JArr [])).

(** A node without attributes: [xml2js] gives it no [$] member. *)
Definition attributeless (node : jsval) : Prop :=
  get node "$" = None \/ get node "$" = Some JUndefined
  \/ get node "$" = Some JNull.

(** *** Vocabulary of the handler properties *)

(** The words each tool puts in front of the cause of a failure. *)
Definition toolPrefix (tool : SAPODataHandlers.dataTool) (args : jsval) : jsstring :=
  match tool with
  | SAPODataHandlers.GetServiceMetadataTool => lit "Failed to get service metadata: "
  | SAPODataHandlers.GetEntityTool => lit "Failed to get entity: "
  | SAPODataHandlers.CreateEntityTool => lit "Failed to create entity: "
  | SAPODataHandlers.UpdateEntityTool => lit "Failed to update entity: "
  | SAPODataHandlers.DeleteEntityTool => lit "Failed to delete entity: "
  | SAPODataHandlers.CallFunctionTool =>
      lit "Failed to call function " ++ toString (opt_get args "functionName")
        ++ lit ": "
  end.

(** The world a held client lives in. *)
Definition worldOf {Backend} (c : SAPODataHandlers.Client) (net : Backend)
    : World Backend :=
  {| session := SAPODataHandlers.clientSession c; backend := net |}.

(** The error [handleConnect] throws for a failure with the given message. *)
Definition connectError (errorMessage : jsstring) : jserror :=
  if includes (lit "404") errorMessage
  then Error SAPODataHandlers.connection404Hint
  else Error (lit "Failed to connect to SAP OData service: " ++ errorMessage).

(** The handler object holding a client with the given configuration, after
    a client operation that left the world [w]. *)
Definition holding {Backend} (config : SAPODataConfig) (w : World Backend)
    : SAPODataHandlers.Handlers Backend :=
  {| SAPODataHandlers.sapClient :=
       Some {| SAPODataHandlers.clientConfig := config;
               SAPODataHandlers.clientSession := session w |};
     SAPODataHandlers.network := backend w |}.

(** The world of a client the constructor has just built. *)
Definition newWorld {Backend} (net : Backend) : World Backend :=
  {| session := clearedSession; backend := net |}.

(** A handler object whose client has the connected flag set. *)
Definition live {Backend} (h : SAPODataHandlers.Handlers Backend) : Prop :=
  exists c,
    SAPODataHandlers.sapClient h = Some c
    /\ connected (SAPODataHandlers.clientSession c) = true.

(** [throwsWithin Pre E m]: from a handler object satisfying [Pre], every
    error [m] throws satisfies [E]. *)
Definition throwsWithin {Backend A}
    (Pre : SAPODataHandlers.Handlers Backend -> Prop) (E : jserror -> Prop)
    (m : SAPODataHandlers.H Backend A) : Prop :=
  forall h e, Pre h -> SAPODataHandlers.returned (m h) = Throw e -> E e.

(** [sendsAtMost n m]: no run of [m] has more than [n] exchanges. *)
Definition sendsAtMost {Backend A} (n : nat) (m : SAPODataHandlers.H Backend A)
    : Prop :=
  forall h, (List.length (SAPODataHandlers.exchanged (m h)) <= n)%nat.

(** What the [try] block of a data tool can throw: the TypeError of a
    property read on [undefined] or [null], or an error of the client
    operation, whose message starts with the operation's prefix. *)
Definition bodyError (readError : jsval -> string -> jsstring)
    (prefix : jsstring) (e : jserror) : Prop :=
  (exists v name, e = Error (readError v name))
  \/ (exists cause, e = Error (prefix ++ cause)).

(** The probe of [isConnected] as a client with session [s] puts it on the
    wire. *)
Definition probeOf (s : Session) : request :=
  requestInterceptor s (mkRequest GET [] "application/xml" None 5000 None).

(** The probe was answered in a way [isConnected] takes for alive. *)
Definition alive (o : outcome) : bool := succeeded o || replied_with 404 o.


(** The GET of [getServiceMetadata] as a client with session [s] puts it on
    the wire. *)
Definition metadataRequest (s : Session) (config : SAPODataConfig)
    (serviceName : jsval) : request :=
  requestInterceptor s
    (mkRequest GET (toString serviceName ++ lit "/$metadata") "application/xml"
       None (timeout config) None).

(** The session after an exchange. *)
Definition sessionAfter (s : Session) (o : outcome) : Session :=
  match o with
  | Replied r =>
      if validateStatus (status r) then onFulfilled s r
      else onRejected s (HttpError r)
  | NoReply => onRejected s NoResponse
  end.

(** *** Calls with run-time arguments *)

(** A call of a data operation with the arguments it gets at run time.
    [Declared] is a call whose arguments have the declared types: query
    options as [ODataQueryOptions] declares them, key values and parameters
    an object given by its entries.  In the other calls the key values and
    the parameters are any value. *)
Inductive call :=
| Declared (op : operation)
| GetEntityWith (serviceName entitySet : jsstring) (keyValues : jsval)
| UpdateEntityWith (serviceName entitySet : jsstring) (keyValues body : jsval)
| DeleteEntityWith (serviceName entitySet : jsstring) (keyValues : jsval)
| CallFunctionWith (serviceName functionName : jsstring) (parameters : jsval).






(** *** Concrete backends *)

(** A backend that plays a fixed list of outcomes, then stops answering. *)
Definition Script := list outcome.

Definition play (s : Script) (_ : request) : outcome * Script :=
  match s with
  | [] => (NoReply, [])
  | o :: rest => (o, rest)
  end.

Definition answer (code : Z) (text : string) (body : jsval) : response :=
  {| status := code; statusText := lit text; x_csrf_token := None;
     set_cookie := None; data := body |}.

Definition reply (code : Z) (text : string) (body : jsval) : outcome :=
  Replied (answer code text body).

(** A backend with no document at the base path and nothing else. *)
Definition bareBackend (_ : unit) (rq : request) : outcome * unit :=
  (match req_url rq with
   | [] => reply 404 "Not Found" JUndefined
   | _ :: _ => NoReply
   end, tt).

Definition demoConfig : SAPODataConfig :=
  {| baseUrl := lit "https://sap-host:8000/sap/opu/odata/sap/";
     username := lit "DEVELOPER";
     password := lit "secret";
     client := None;
     timeout := 30000;
     validateSSL := true;
     enableCSRF := true |}.

Definition liveSession : Session :=
  {| connected := true; csrfToken := Some (lit "tok"); cookies := [lit "sid=1"] |}.

Definition noOptions : ODataQueryOptions :=
  {| select := None; filter := None; orderby := None;
     top := None; skip := None; expand := None |}.

Definition top5PriceFilter : ODataQueryOptions :=
  {| select := None; filter := Some (lit "Price gt 10"); orderby := None;
     top := Some 5; skip := None; expand := None |}.

Definition liveWorld : World unit :=
  {| session := liveSession; backend := tt |}.

Definition idleWorld : World unit :=
  {| session := clearedSession; backend := tt |}.

(** A connected client in front of a scripted backend. *)
Definition scripted (script : Script) : World Script :=
  {| session := liveSession; backend := script |}.

(** A fresh client in front of a scripted backend. *)
Definition fresh (script : Script) : World Script :=
  {| session := clearedSession; backend := script |}.

Definition unauthorized : outcome := reply 401 "Unauthorized" JUndefined.
Definition notFound : outcome := reply 404 "Not Found" JUndefined.

(** Two catalog records and the document that lists them. *)
Definition flightRecord : jsval :=
  JObj [(lit "ID", JStr (lit "RMTSAMPLEFLIGHT"));
        (lit "Title", JStr (lit "Flight sample"));
        (lit "Version", JStr (lit "2"))].

Definition partnerRecord : jsval :=
  JObj [(lit "ID", JStr (lit "API_BUSINESS_PARTNER"));
        (lit "Title", JStr []);
        (lit "Version", JStr (lit "1"))].

Definition catalogDocument : jsval :=
  JObj [(lit "d", JObj [(lit "results", JArr [flightRecord; partnerRecord])])].

Definition flightService : ODataService :=
  {| svc_name := JStr (lit "RMTSAMPLEFLIGHT");
     svc_title := JStr (lit "Flight sample");
     svc_version := JStr (lit "2");
     svc_url := lit "https://sap-host:8000/sap/opu/odata/sap/RMTSAMPLEFLIGHT/" |}.

Definition partnerService : ODataService :=
  {| svc_name := JStr (lit "API_BUSINESS_PARTNER");
     svc_title := JStr (lit "API_BUSINESS_PARTNER");
     svc_version := JStr (lit "1");
     svc_url := lit "https://sap-host:8000/sap/opu/odata/sap/API_BUSINESS_PARTNER/" |}.

(** The first catalog path is missing, the second lists two services. *)
Definition catalogScript : Script :=
  [notFound; reply 200 "OK" catalogDocument].

(** No catalog; of the common names only GWDEMO and API_MATERIAL_SRV answer. *)
Definition probeScript : Script :=
  [notFound; notFound; notFound; notFound;
   notFound; reply 200 "OK" JUndefined; notFound; reply 200 "OK" JUndefined;
   notFound; notFound; notFound; notFound; notFound].

(** A metadata parse tree in the shape [xml2js] produces: one entity type
    with a key marked [Nullable="false"] and an unmarked property. *)
Definition element (attrs children : list (jsstring * jsval)) : jsval :=
  JObj ((lit "$", JObj attrs) :: children).

Definition idProperty : jsval :=
  element [(lit "Name", JStr (lit "ID")); (lit "Type", JStr (lit "Edm.String"));
           (lit "Nullable", JStr (lit "false"))] [].

Definition nameProperty : jsval :=
  element [(lit "Name", JStr (lit "Name")); (lit "Type", JStr (lit "Edm.String"))] [].

Definition productType : jsval :=
  element [(lit "Name", JStr (lit "Product"))]
          [(lit "Property", JArr [idProperty; nameProperty])].

Definition edmx (entityTypes : list jsval) : jsval :=
  JObj [(lit "edmx:Edmx",
         element [(lit "Version", JStr (lit "1.0"))]
           [(lit "edmx:DataServices",
             JArr [JObj [(lit "Schema",
                          JArr [JObj [(lit "EntityType", JArr entityTypes)]])]])])].

Definition productTree : jsval := edmx [productType].

Definition productEntity : ODataEntity :=
  {| ent_name := JStr (lit "Product");
     properties :=
       [{| prop_name := JStr (lit "ID"); prop_type := JStr (lit "Edm.String");
           nullable := false |};
        {| prop_name := JStr (lit "Name"); prop_type := JStr (lit "Edm.String");
           nullable := true |}] |}.

(** A tree whose entity type has no attributes: [xml2js] renders such an
    element as a bare string, and reading its name throws. *)
Definition brokenTree : jsval := edmx [JStr []].

(** A stand-in for the XML parser: text starting with an angle bracket
    parses to [tree], anything else is rejected. *)
Definition parseAs (tree : jsval) (text : jsval) : jsstring + jsval :=
  match text with
  | JStr (60 :: _) => inr tree
  | _ => inl (lit "Non-whitespace before first tag.")
  end.

Definition xmlText : jsval := JStr (lit "<edmx:Edmx/>").
Definition plainText : jsval := JStr (lit "Service unavailable").

(** The requests of the scenarios as they go on the wire. *)
Definition probeRequest : request :=
  mkRequest GET [] "application/xml" None 10000 None.

Definition liveRequest (m : method) (url : jsstring) (accept : string) : request :=
  requestInterceptor liveSession (mkRequest m url accept None 30000 None).

Definition productsQuery : operation :=
  QueryEntitySet (lit "SVC") (lit "Products") noOptions.

Definition idKey : list (jsstring * jsval) := [(lit "ID", JStr (lit "42"))].

(** Record updates on query options. *)
Definition with_select (v : option (list jsstring)) (o : ODataQueryOptions) :=
  {| select := v; filter := filter o; orderby := orderby o;
     top := top o; skip := skip o; expand := expand o |}.
Definition with_filter (v : option jsstring) (o : ODataQueryOptions) :=
  {| select := select o; filter := v; orderby := orderby o;
     top := top o; skip := skip o; expand := expand o |}.
Definition with_top (v : option Z) (o : ODataQueryOptions) :=
  {| select := select o; filter := filter o; orderby := orderby o;
     top := v; skip := skip o; expand := expand o |}.
Definition with_skip (v : option Z) (o : ODataQueryOptions) :=
  {| select := select o; filter := filter o; orderby := orderby o;
     top := top o; skip := v; expand := expand o |}.
Definition with_expand (v : option (list jsstring)) (o : ODataQueryOptions) :=
  {| select := select o; filter := filter o; orderby := orderby o;
     top := top o; skip := skip o; expand := v |}.

(** The parameter names a query carries. *)
Definition paramNames (p : URLSearchParams.t) : list jsstring := map fst p.

(** *** Concrete handler objects *)

(** An answer that carries a token and a cookie with attributes. *)
Definition tokenAnswer (token : string) : response :=
  {| status := 200; statusText := lit "OK";
     x_csrf_token := Some (lit token);
     set_cookie := Some [lit "sid=2; Path=/; HttpOnly"];
     data := JUndefined |}.

Definition tokenReply (token : string) : outcome := Replied (tokenAnswer token).

(** Token fetch answered with a token, catalog found, entity created. *)
Definition handshakeScript : Script :=
  [tokenReply "abc"; reply 200 "OK" JUndefined; reply 201 "Created" JNull].

Definition serverError : outcome := reply 500 "Internal Server Error" JUndefined.

(** The texts of the engine, as V8 words them. *)
Definition v8ReadError (v : jsval) (name : string) : jsstring :=
  lit "Cannot read properties of " ++ toString v ++ lit " (reading '"
    ++ lit name ++ lit "')".

Definition v8EntriesError : jsstring :=
  lit "Cannot convert undefined or null to object".

(** A stand-in for the schema validation: an argument object with a string
    [baseUrl] is accepted, with the other settings of [demoConfig]. *)
Definition parseDemo (args : jsval) : jsstring + SAPODataConfig :=
  match get args "baseUrl" with
  | Some (JStr url) =>
      inr {| baseUrl := url; username := username demoConfig;
             password := password demoConfig; client := client demoConfig;
             timeout := timeout demoConfig; validateSSL := validateSSL demoConfig;
             enableCSRF := enableCSRF demoConfig |}
  | _ => inl (lit "Required")
  end.

Definition connectArgs : jsval :=
  JObj [(lit "baseUrl", JStr (lit "https://sap-host:8000/sap/opu/odata/sap/"));
        (lit "username", JStr (lit "DEVELOPER"));
        (lit "password", JStr (lit "secret"))].

Definition chair : jsval := JObj [(lit "Name", JStr (lit "Chair"))].

Definition chairArgs : jsval :=
  JObj [(lit "serviceName", JStr (lit "SVC"));
        (lit "entitySet", JStr (lit "Products"));
        (lit "data", chair)].

Definition demoClient (s : Session) : SAPODataHandlers.Client :=
  {| SAPODataHandlers.clientConfig := demoConfig;
     SAPODataHandlers.clientSession := s |}.

(** A handler object without a client, and one holding a client with the
    given session, in front of a scripted backend. *)
Definition noClient (script : Script) : SAPODataHandlers.Handlers Script :=
  {| SAPODataHandlers.sapClient := None; SAPODataHandlers.network := script |}.

Definition holder (s : Session) (script : Script) : SAPODataHandlers.Handlers Script :=
  {| SAPODataHandlers.sapClient := Some (demoClient s);
     SAPODataHandlers.network := script |}.

(** The tools on the scripted backend, with the engine's texts. *)
Definition demoTool (tool : SAPODataHandlers.dataTool) (args : jsval)
    : SAPODataHandlers.H Script SAPODataHandlers.ToolResult :=
  SAPODataHandlers.handle play (parseAs productTree) v8ReadError v8EntriesError
    getErrorMessage tool args.

Definition demoConnect (args : jsval)
    : SAPODataHandlers.H Script SAPODataHandlers.ToolResult :=
  SAPODataHandlers.handleConnect play parseDemo v8ReadError getErrorMessage args.

Definition demoCreate (args : jsval)
    : SAPODataHandlers.H Script SAPODataHandlers.ToolResult :=
  SAPODataHandlers.handleCreateEntity play v8ReadError getErrorMessage args.

(** The registered callbacks on the scripted backend; the two handlers left
    out answer with an empty text. *)
Definition emptyResult : SAPODataHandlers.ToolResult :=
  {| SAPODataHandlers.text := []; SAPODataHandlers.rawData := SAPODataHandlers.NoData |}.

Definition demoRegistered (name : jsstring) (args : jsval)
    : SAPODataHandlers.H Script SAPODataHandlers.ToolResult :=
  SAPODataMCPServer.registered play (parseAs productTree) parseDemo v8ReadError
    v8EntriesError getErrorMessage
    (SAPODataHandlers.pure emptyResult)
    (fun _ => SAPODataHandlers.pure emptyResult)
    name args.

(** The stdio server on the same backend, with the message the SDK gives an
    [McpError]. *)
Definition sdkMessage (code : SAPODataMCPServer.ErrorCode) (message : jsstring)
    : jsstring :=
  lit "MCP error " ++
  match code with
  | SAPODataMCPServer.MethodNotFound => lit "-32601"
  | SAPODataMCPServer.InternalError => lit "-32603"
  end ++ lit ": " ++ message.

Definition demoCall (name : jsstring) (args : jsval)
    (h : SAPODataHandlers.Handlers Script) : SAPODataMCPServer.Reply Script :=
  SAPODataMCPServer.callTool play (parseAs productTree) parseDemo v8ReadError
    v8EntriesError getErrorMessage
    (SAPODataHandlers.pure emptyResult)
    (fun _ => SAPODataHandlers.pure emptyResult)
    sdkMessage name args h.


Definition rejected : Script := [unauthorized; unauthorized; unauthorized].

(** The probe passes, then the metadata document arrives. *)
Definition metadataScript : Script :=
  [reply 200 "OK" JUndefined; reply 200 "OK" xmlText].

Definition productsArgs : jsval :=
  JObj [(lit "serviceName", JStr (lit "SVC"));
        (lit "entitySet", JStr (lit "Products"))].

(* ------------------------------------------------------------------ *)
(** ** Properties *)

(** *** The runtime model on sample inputs *)

Example encodeURIComponent_text :
  encodeURIComponent (JStr (lit "Price gt 10")) = Some (lit "Price%20gt%2010").
Proof. vm_compute. reflexivity. Qed.

Example encodeURIComponent_number :
  encodeURIComponent (JNum 42) = Some (lit "42").
Proof. vm_compute. reflexivity. Qed.

Example encodeURIComponent_reserved :
  encodeURIComponent (JStr (lit "a/b?c=d&e'f")) = Some (lit "a%2Fb%3Fc%3Dd%26e'f").
Proof. vm_compute. reflexivity. Qed.

(** U+00E9 and the surrogate pair of U+1F600. *)
Example encodeURIComponent_utf8 :
  encodeURIComponent (JStr [0xE9; 0xD83D; 0xDE00])
  = Some (lit "%C3%A9%F0%9F%98%80").
Proof. vm_compute. reflexivity. Qed.

Example encodeURIComponent_unpaired_surrogate :
  encodeURIComponent (JStr [0x41; 0xD83D]) = None.
Proof. vm_compute. reflexivity. Qed.

Example form_encode_text :
  URLSearchParams.form_encode (lit "$filter Price~10*") = lit "%24filter+Price%7E10*".
Proof. vm_compute. reflexivity. Qed.

Example toString_array :
  toString (JArr [JNum 1; JNull; JStr (lit "x"); JArr [JNum (-2); JBool true]])
  = lit "1,,x,-2,true".
Proof. vm_compute. reflexivity. Qed.

Example keyPredicate_two_keys :
  keyPredicate [(lit "SalesOrder", JStr (lit "500 A")); (lit "Item", JNum 10)]
  = Some (lit "SalesOrder='500%20A',Item='10'").
Proof. vm_compute. reflexivity. Qed.

(** *** Query strings *)

Lemma querySuffix_top5PriceFilter :
  querySuffix (queryParams top5PriceFilter) = lit "?%24filter=Price+gt+10&%24top=5".
Proof. vm_compute. reflexivity. Qed.

Lemma paramNames_append name value p :
  paramNames (URLSearchParams.append name value p) = paramNames p ++ [name].
Proof. unfold paramNames, URLSearchParams.append. now rewrite map_app. Qed.

Lemma in_cond_append (c : bool) name value p nm :
  In nm (paramNames (if c then URLSearchParams.append name value p else p)) ->
  In nm (paramNames p) \/ (c = true /\ nm = name).
Proof.
  destruct c; [rewrite paramNames_append, in_app_iff; cbn | ]; intuition.
Qed.

Lemma length_positive {A} (l : list A) :
  (0 <? Z.of_nat (List.length l)) = true -> l <> [].
Proof. now destruct l. Qed.

Lemma nonempty_true (s : jsstring) : nonempty s = true -> s <> [].
Proof. now destruct s. Qed.

Lemma nonzero_true (n : Z) : negb (n =? 0) = true -> n <> 0.
Proof. intros H ->. discriminate H. Qed.

Create HintDb truthy.
#[local] Hint Resolve length_positive nonempty_true nonzero_true : truthy.

Ltac peel_params H :=
  lazymatch type of H with
  | In _ (paramNames (match ?x with Some _ => _ | None => _ end)) =>
      destruct x;
      [ apply in_cond_append in H; destruct H as [H | [? ->]];
        [ peel_params H | ]
      | peel_params H ]
  | In _ (paramNames URLSearchParams.empty) => destruct H
  end.

(** A parameter occurs in the query only for a truthy option. *)
Lemma queryParams_names (o : ODataQueryOptions) (nm : jsstring) :
  In nm (paramNames (queryParams o)) ->
  (nm = lit "$select" /\ exists sel, select o = Some sel /\ sel <> [])
  \/ (nm = lit "$filter" /\ exists f, filter o = Some f /\ f <> [])
  \/ (nm = lit "$orderby" /\ exists ob, orderby o = Some ob /\ ob <> [])
  \/ (nm = lit "$top" /\ exists n, top o = Some n /\ n <> 0)
  \/ (nm = lit "$skip" /\ exists n, skip o = Some n /\ n <> 0)
  \/ (nm = lit "$expand" /\ exists ex, expand o = Some ex /\ ex <> []).
Proof.
  destruct o as [sel f ob t k ex]; intros H.
  unfold queryParams in H; cbv zeta in H;
    cbv beta iota delta [select filter orderby top skip expand] in H.
  peel_params H;
    cbv beta iota delta [select filter orderby top skip expand];
    first
      [ left; split; [reflexivity | eauto with truthy]
      | right; left; split; [reflexivity | eauto with truthy]
      | right; right; left; split; [reflexivity | eauto with truthy]
      | right; right; right; left; split; [reflexivity | eauto with truthy]
      | right; right; right; right; left; split; [reflexivity | eauto with truthy]
      | right; right; right; right; right; split; [reflexivity | eauto with truthy] ].
Qed.

(** C10. Option presence is tested by truthiness: a zero [top] or [skip], an
    empty [filter], an empty [select] list and an empty [expand] list each
    leave the query exactly as if the option were absent, and the
    corresponding parameter name does not occur in it. *)
Theorem queryParams_falsy_option_is_absent (o : ODataQueryOptions) :
  (queryParams (with_top (Some 0) o) = queryParams (with_top None o)
   /\ ~ In (lit "$top") (paramNames (queryParams (with_top (Some 0) o))))
  /\ (queryParams (with_skip (Some 0) o) = queryParams (with_skip None o)
      /\ ~ In (lit "$skip") (paramNames (queryParams (with_skip (Some 0) o))))
  /\ (queryParams (with_filter (Some []) o) = queryParams (with_filter None o)
      /\ ~ In (lit "$filter") (paramNames (queryParams (with_filter (Some []) o))))
  /\ (queryParams (with_select (Some []) o) = queryParams (with_select None o)
      /\ ~ In (lit "$select") (paramNames (queryParams (with_select (Some []) o))))
  /\ (queryParams (with_expand (Some []) o) = queryParams (with_expand None o)
      /\ ~ In (lit "$expand") (paramNames (queryParams (with_expand (Some []) o)))).
Proof.
  repeat split; try reflexivity; intros H; apply queryParams_names in H;
    cbn [with_top with_skip with_filter with_select with_expand
         select filter orderby top skip expand] in H;
    repeat match goal with
           | H : _ \/ _ |- _ => destruct H as [H | H]
           end;
    destruct H as [Hn [x [Hx Hne]]];
    first [ discriminate Hn | injection Hx as <-; now apply Hne ].
Qed.

(** *** Metadata extraction *)

Lemma map_opt_nth {A B} (f : A -> option B) (l : list A) (ys : list B) :
  map_opt f l = Some ys ->
  forall i y, nth_error ys i = Some y ->
              exists x, nth_error l i = Some x /\ f x = Some y.
Proof.
  revert ys. induction l as [ | x l IH]; cbn; intros ys H.
  - injection H as <-. intros [ | i] y Hy; discriminate Hy.
  - destruct (f x) as [y0 | ] eqn:Hx; [ | discriminate H].
    destruct (map_opt f l) as [ys0 | ]; [ | discriminate H].
    injection H as <-. intros [ | i] y Hy; cbn in Hy.
    + injection Hy as <-. now exists x.
    + exact (IH ys0 eq_refl i y Hy).
Qed.

Lemma array_map_nth {B} (v : jsval) (f : jsval -> option B) (ys : list B) :
  array_map v f = Some ys ->
  forall i y, nth_error ys i = Some y ->
              exists x, nth_error (arrayItems v) i = Some x /\ f x = Some y.
Proof.
  destruct v; cbn; try discriminate. apply map_opt_nth.
Qed.

Lemma strict_ne_str_false (v : jsval) (text : string) :
  strict_ne_str v text = false <-> v = JStr (lit text).
Proof.
  unfold strict_ne_str, str_eqb. destruct v; try (split; discriminate).
  destruct (list_eq_dec Z.eq_dec s (lit text)) as [-> | Hne]; cbn.
  - split; reflexivity.
  - split; [discriminate | ]. intros H. injection H as ->. now destruct Hne.
Qed.

Lemma extractProperty_nullable (prop : jsval) (p : ODataProperty) :
  extractProperty prop = Some p ->
  (nullable p = false <-> markedNotNullable prop).
Proof.
  unfold extractProperty, markedNotNullable.
  destruct (get prop "$") as [attrs | ] eqn:Ha; [ | discriminate].
  destruct (get attrs "Name"); [ | discriminate].
  destruct (get attrs "Type"); [ | discriminate].
  destruct (get attrs "Nullable") as [nl | ] eqn:Hn; [ | discriminate].
  intros H. injection H as <-. cbn [nullable].
  rewrite strict_ne_str_false. split.
  - intros ->. now exists attrs.
  - intros (attrs' & Ha' & Hn'). injection Ha' as <-. congruence.
Qed.

Lemma extractMetadata_entities (parsed : jsval) (i : nat) (e : ODataEntity) :
  nth_error (entities (extractMetadata parsed)) i = Some e ->
  exists entity,
    nth_error (entityNodes parsed) i = Some entity
    /\ extractEntity entity = Some e.
Proof.
  unfold extractMetadata, extractMetadata_try, entityNodes.
  destruct (negb (truthy (schemaOf parsed))).
  { cbn. destruct i; discriminate. }
  destruct (array_map (or_else (opt_get (schemaOf parsed) "EntityType") (JArr []))
              extractEntity) as [ents | ] eqn:He;
    [ | cbn; destruct i; discriminate ].
  match goal with
  | |- context [array_map ?v extractFunction] =>
      destruct (array_map v extractFunction)
  end; [ | cbn; destruct i; discriminate ].
  cbn [entities]. intros Hi. exact (array_map_nth _ _ _ He i e Hi).
Qed.

(** In the model [extractMetadata] produces, the property at position [j] of
    the entity at position [i] comes from the node
    [Schema.EntityType[i].Property[j]] of the parse tree, and is not nullable
    exactly when that node is marked so. *)
Lemma extractMetadata_property
    (parsed : jsval) (i j : nat) (e : ODataEntity) (p : ODataProperty) :
  nth_error (entities (extractMetadata parsed)) i = Some e ->
  nth_error (properties e) j = Some p ->
  exists entity prop,
    nth_error (entityNodes parsed) i = Some entity
    /\ nth_error (propertyNodes entity) j = Some prop
    /\ (nullable p = false <-> markedNotNullable prop)
    /\ (~ markedNotNullable prop -> nullable p = true).
Proof.
  intros He Hp.
  destruct (extractMetadata_entities parsed i e He) as (entity & Hi & Hx).
  unfold extractEntity in Hx.
  destruct (get entity "$") as [attrs | ]; [ | discriminate].
  destruct (get attrs "Name"); [ | discriminate].
  destruct (array_map (or_else (opt_get entity "Property") (JArr []))
              extractProperty) as [props | ] eqn:Hprops; [ | discriminate].
  injection Hx as <-. cbn [properties] in Hp.
  destruct (array_map_nth _ _ _ Hprops j p Hp) as (prop & Hj & Hprop).
  exists entity, prop. split; [exact Hi | ]. split; [exact Hj | ].
  pose proof (extractProperty_nullable prop p Hprop) as Hiff.
  split; [exact Hiff | ].
  intros Hnot. destruct (nullable p); [reflexivity | ].
  destruct Hnot. now apply Hiff.
Qed.

Lemma map_opt_In_None {A B} (f : A -> option B) (l : list A) (x : A) :
  In x l -> f x = None -> map_opt f l = None.
Proof.
  induction l as [ | y l IH]; cbn; [tauto | ].
  intros [-> | Hin] Hx.
  - now rewrite Hx.
  - destruct (f y); [ | reflexivity ]. now rewrite (IH Hin Hx).
Qed.

Lemma map_opt_length {A B} (f : A -> option B) (l : list A) (ys : list B) :
  map_opt f l = Some ys -> List.length ys = List.length l.
Proof.
  revert ys. induction l as [ | x l IH]; cbn; intros ys H.
  - now injection H as <-.
  - destruct (f x); [ | discriminate H ].
    destruct (map_opt f l) as [ys0 | ]; [ | discriminate H ].
    injection H as <-. cbn. now rewrite (IH ys0).
Qed.

Lemma array_map_In_None {B} (v : jsval) (f : jsval -> option B) (x : jsval) :
  In x (arrayItems v) -> f x = None -> array_map v f = None.
Proof.
  destruct v; cbn; try tauto. apply map_opt_In_None.
Qed.

Lemma array_map_length {B} (v : jsval) (f : jsval -> option B) (ys : list B) :
  array_map v f = Some ys -> List.length ys = List.length (arrayItems v).
Proof.
  destruct v; cbn; try discriminate. apply map_opt_length.
Qed.

Lemma falsy_has_no_items (schema : jsval) (name : string) :
  truthy schema = false ->
  arrayItems (or_else (opt_get schema name) (JArr [])) = [].
Proof.
  destruct schema as [ | | [ | ] | n | [ | c s] | xs | fields ];
    try discriminate; reflexivity.
Qed.

Lemma falsy_has_no_functions (schema : jsval) :
  truthy schema = false ->
  arrayItems
    (or_else (opt_get (opt_get0 (opt_get schema "EntityContainer")) "FunctionImport")
             (JArr [])) = [].
Proof.
  destruct schema as [ | | [ | ] | n | [ | c s] | xs | fields ];
    try discriminate; reflexivity.
Qed.

(** One node that cannot be read empties the model. *)
Lemma extractMetadata_bad_node (parsed bad : jsval) :
  (In bad (entityNodes parsed) /\ extractEntity bad = None)
  \/ (In bad (functionNodes parsed) /\ extractFunction bad = None) ->
  extractMetadata parsed = {| entities := []; functions := []; raw := Some parsed |}.
Proof.
  intros Hbad. unfold extractMetadata, extractMetadata_try.
  unfold entityNodes, functionNodes in Hbad.
  destruct (truthy (schemaOf parsed)) eqn:Hs; cbn [negb].
  - destruct Hbad as [[Hin Hx] | [Hin Hx]].
    + now rewrite (array_map_In_None _ _ _ Hin Hx).
    + rewrite (array_map_In_None _ _ _ Hin Hx).
      now destruct (array_map _ extractEntity).
  - rewrite falsy_has_no_items, falsy_has_no_functions in Hbad by exact Hs.
    destruct Hbad as [[[] _] | [[] _]].
Qed.

(** X13. Extraction of the metadata model is all or nothing.  One entity
    type or one function import that cannot be read (for instance a node
    without attributes) empties the whole model: no entity and no function
    is reported, and the parse tree is attached as [raw].  Otherwise [raw]
    is absent and the model has one entity per [EntityType] node and one
    function per [FunctionImport] node. *)
Theorem extractMetadata_all_or_nothing (parsed : jsval) :
  (forall bad,
      (In bad (entityNodes parsed) /\ extractEntity bad = None)
      \/ (In bad (functionNodes parsed) /\ extractFunction bad = None) ->
      extractMetadata parsed
      = {| entities := []; functions := []; raw := Some parsed |})
  /\ (raw (extractMetadata parsed) = None ->
      List.length (entities (extractMetadata parsed))
      = List.length (entityNodes parsed)
      /\ List.length (functions (extractMetadata parsed))
         = List.length (functionNodes parsed))
  /\ (forall node,
         attributeless node ->
         extractEntity node = None /\ extractFunction node = None).
Proof.
  split; [ | split ].
  - intros bad. apply extractMetadata_bad_node.
  - unfold extractMetadata, extractMetadata_try, entityNodes, functionNodes.
    destruct (truthy (schemaOf parsed)) eqn:Hs; cbn [negb].
    + destruct (array_map _ extractEntity) as [ents | ] eqn:He;
        [ | discriminate ].
      destruct (array_map _ extractFunction) as [fns | ] eqn:Hf;
        [ | discriminate ].
      intros _. cbn [entities functions].
      now rewrite (array_map_length _ _ _ He), (array_map_length _ _ _ Hf).
    + intros _. cbn [entities functions].
      now rewrite falsy_has_no_items, falsy_has_no_functions.
  - intros node [H | [H | H]]; unfold extractEntity, extractFunction;
      rewrite H; split; reflexivity.
Qed.

(** *** Runs against an arbitrary backend *)

Section Properties.

Variable Backend : Type.
Variable respond : Backend -> request -> outcome * Backend.
Variable parseXML : jsval -> jsstring + jsval.
Variable config : SAPODataConfig.

Ltac run_send :=
  match goal with
  | |- context [respond ?b ?rq] =>
      let o := fresh "o" in
      let b' := fresh "b" in
      let E := fresh "E" in
      destruct (respond b rq) as [o b'] eqn:E;
      try (destruct o as [? | ])
  end.

(** One rule of [wp] per combinator, so that a proof follows the control
    flow of the operation. *)
Lemma wp_ret {A} (a : A) w (Q : Run Backend A -> Prop) :
  Q {| value := Ok a; final := w; trace := [] |} -> wp (ret a) w Q.
Proof. exact (fun H => H). Qed.

Lemma wp_throw {A} e w (Q : Run Backend A -> Prop) :
  Q {| value := Throw e; final := w; trace := [] |} -> wp (throw e) w Q.
Proof. exact (fun H => H). Qed.

Lemma wp_set_session f w (Q : Run Backend unit -> Prop) :
  Q {| value := Ok tt;
       final := {| session := f (session w); backend := backend w |};
       trace := [] |} ->
  wp (set_session f) w Q.
Proof. exact (fun H => H). Qed.

Lemma wp_bind {A B} (m : M Backend A) (k : A -> M Backend B) w
    (Q : Run Backend B -> Prop) :
  wp m w (fun r =>
            match value r with
            | Ok a =>
                wp (k a) (final r)
                   (fun r' => Q {| value := value r'; final := final r';
                                   trace := trace r ++ trace r' |})
            | Throw e =>
                Q {| value := Throw e; final := final r; trace := trace r |}
            end) ->
  wp (bind m k) w Q.
Proof.
  unfold wp, bind. destruct (value (m w)); exact (fun H => H).
Qed.

Lemma wp_try_catch {A} (m : M Backend A) handler w
    (Q : Run Backend A -> Prop) :
  wp m w (fun r =>
            match value r with
            | Ok _ => Q r
            | Throw e =>
                wp (handler e) (final r)
                   (fun r' => Q {| value := value r'; final := final r';
                                   trace := trace r ++ trace r' |})
            end) ->
  wp (try_catch m handler) w Q.
Proof.
  unfold wp, try_catch. destruct (value (m w)); exact (fun H => H).
Qed.

Lemma wp_send rq w (Q : Run Backend response -> Prop) :
  let wire := requestInterceptor (session w) rq in
  (forall r b,
      respond (backend w) wire = (Replied r, b) ->
      validateStatus (status r) = true ->
      Q {| value := Ok r;
           final := {| session := onFulfilled (session w) r; backend := b |};
           trace := [(wire, Replied r)] |}) ->
  (forall r b,
      respond (backend w) wire = (Replied r, b) ->
      validateStatus (status r) = false ->
      Q {| value := Throw (HttpError r);
           final := {| session := onRejected (session w) (HttpError r);
                       backend := b |};
           trace := [(wire, Replied r)] |}) ->
  (forall b,
      respond (backend w) wire = (NoReply, b) ->
      Q {| value := Throw NoResponse;
           final := {| session := onRejected (session w) NoResponse;
                       backend := b |};
           trace := [(wire, NoReply)] |}) ->
  wp (send respond rq) w Q.
Proof.
  intros wire Hok Hrej Hnone. unfold wp, send. fold wire.
  destruct (respond (backend w) wire) as [[r | ] b] eqn:E.
  - destruct (validateStatus (status r)) eqn:V; [now apply Hok | now apply Hrej].
  - now apply Hnone.
Qed.

Lemma wp_ensureConnected w (Q : Run Backend unit -> Prop) :
  (connected (session w) = true ->
   Q {| value := Ok tt; final := w; trace := [] |}) ->
  (connected (session w) = false ->
   Q {| value := Throw notConnectedError; final := w; trace := [] |}) ->
  wp ensureConnected w Q.
Proof.
  intros Hyes Hno. unfold wp, ensureConnected.
  destruct (connected (session w)); [now apply Hyes | now apply Hno].
Qed.

Ltac wp_start :=
  match goal with
  | |- context [?op ?w] =>
      match type of (op w) with
      | Run _ _ =>
          pattern (op w);
          match goal with
          | |- ?Q _ => change (wp op w Q)
          end
      end
  end.

Ltac wp_simpl :=
  cbn beta iota zeta delta [value final trace session backend negb].

Ltac wp_step :=
  lazymatch goal with
  | |- wp (bind _ _) _ _ => apply wp_bind
  | |- wp (try_catch _ _) _ _ => apply wp_try_catch
  | |- wp (ret _) _ _ => apply wp_ret
  | |- wp (throw _) _ _ => apply wp_throw
  | |- wp (set_session _) _ _ => apply wp_set_session
  | |- wp (send _ _) _ _ => apply wp_send; intros
  | |- wp (http_get _ _ _ _) _ _ => unfold http_get; apply wp_send; intros
  | |- wp (if ?c then _ else _) _ _ => destruct c eqn:?
  | |- wp (match ?x with _ => _ end) _ _ => destruct x eqn:?
  end; wp_simpl.

Lemma try_catch_Ok {A} (m : M Backend A) handler w a :
  value (m w) = Ok a -> try_catch m handler w = m w.
Proof. unfold try_catch. intros ->. reflexivity. Qed.

Lemma try_catch_Throw {A} (m : M Backend A) handler w e :
  value (m w) = Throw e ->
  try_catch m handler w
  = {| value := value (handler e (final (m w)));
       final := final (handler e (final (m w)));
       trace := trace (m w) ++ trace (handler e (final (m w))) |}.
Proof. unfold try_catch. intros ->. reflexivity. Qed.

Lemma requestInterceptor_get_csrf s rq :
  req_method rq = GET -> req_csrf (requestInterceptor s rq) = req_csrf rq.
Proof.
  intros Hm. unfold requestInterceptor. cbn [req_csrf]. rewrite Hm.
  cbn [is_get negb]. now rewrite andb_false_r.
Qed.

(** Splitting a membership in a finished trace into its exchanges. *)
Ltac split_trace H :=
  cbn [In app] in H;
  repeat match type of H with
         | _ \/ _ => destruct H as [H | H]
         end;
  try (exfalso; exact H).

Ltac use_status H401 :=
  unfold status_is, error_status, validateStatus in *;
  rewrite ?H401 in *; cbn in *; try discriminate.

(** C1 (amended). For the options [{top: 5, filter: "Price gt 10"}] the query
    string is [%24filter=Price+gt+10&%24top=5]: the filter precedes top, and
    the serializer writes [$] as [%24] and a space as [+].  On a connected
    client the call issues exactly one GET, to
    [serviceName/entitySet?%24filter=Price+gt+10&%24top=5], whatever the
    service, the entity set, the session and the backend. *)
Theorem queryEntitySet_top5PriceFilter_request
    (serviceName entitySet : jsstring) (w : World Backend) :
  connected (session w) = true ->
  URLSearchParams.toString (queryParams top5PriceFilter)
    = lit "%24filter=Price+gt+10&%24top=5"
  /\ urls (trace (queryEntitySet respond config serviceName entitySet
                    top5PriceFilter w))
     = [serviceName ++ lit "/" ++ entitySet
          ++ lit "?%24filter=Price+gt+10&%24top=5"]
  /\ methods (trace (queryEntitySet respond config serviceName entitySet
                       top5PriceFilter w))
     = [GET].
Proof.
  intros Hc. split; [vm_compute; reflexivity | ].
  unfold queryEntitySet, bind, try_catch, ensureConnected, http_get, send, queryUrl.
  rewrite Hc, querySuffix_top5PriceFilter. cbn [negb ret value final trace].
  run_send; [destruct (validateStatus (status r)) | ]; split; reflexivity.
Qed.

(** *** Connection lifecycle *)

(** Every failure of [connect] goes through its outer [catch]. *)
Lemma connect_throw_cleared (w : World Backend) (e : jserror) :
  value (connect respond config w) = Throw e ->
  session (final (connect respond config w)) = clearedSession.
Proof.
  unfold connect.
  match goal with
  | |- context [try_catch ?m ?h w] => destruct (value (m w)) eqn:Hb
  end.
  - rewrite (try_catch_Ok _ _ _ _ Hb), Hb. discriminate.
  - rewrite (try_catch_Throw _ _ _ _ Hb). intros _. reflexivity.
Qed.

(** C4. When the connectivity probe of [connect] is answered with HTTP 401,
    [connect] throws the authentication-failure error and leaves the session
    fully cleared; and whenever [connect] throws, whatever the cause, the
    session it leaves is fully cleared (token null, no cookies, not
    connected). *)
Theorem connect_failure_clears_session (w : World Backend) :
  (forall rq r,
      In (rq, Replied r) (trace (connect respond config w)) ->
      isProbe rq -> status r = 401 ->
      value (connect respond config w) = Throw authenticationFailed
      /\ session (final (connect respond config w)) = clearedSession)
  /\ (forall e,
         value (connect respond config w) = Throw e ->
         session (final (connect respond config w)) = clearedSession).
Proof.
  split; [ | apply connect_throw_cleared ].
  intros rq r Hin [Hurl Hcsrf] H401.
  assert (Hv : value (connect respond config w) = Throw authenticationFailed).
  { revert Hin. wp_start. unfold connect, fetchCSRFToken.
    destruct (enableCSRF config); repeat wp_step; intros Hin; split_trace Hin;
      injection Hin as <- Hr; try subst r;
      try (rewrite requestInterceptor_get_csrf in Hcsrf by reflexivity;
           discriminate Hcsrf);
      try discriminate Hurl;
      try discriminate Hr;
      try (injection Hr as ->);
      try solve [use_status H401];
      vm_compute; reflexivity. }
  split; [exact Hv | exact (connect_throw_cleared w _ Hv)].
Qed.

Lemma status_is_exclusive e c c' :
  status_is e c = true -> c <> c' -> status_is e c' = false.
Proof.
  unfold status_is. destruct (error_status e); [ | discriminate].
  intros H Hne. apply Z.eqb_eq in H. subst. now apply Z.eqb_neq.
Qed.

Lemma onRejected_other s e :
  status_is e 401 = false -> onRejected s e = s.
Proof. unfold onRejected. now intros ->. Qed.

Lemma onRejected_401 s e :
  status_is e 401 = true -> onRejected s e = clearedSession.
Proof. unfold onRejected. now intros ->. Qed.

Lemma onFulfilled_connected s r :
  connected (onFulfilled s r) = connected s.
Proof. reflexivity. Qed.

(** What [isConnected] does on a client whose flag is set, by the outcome
    of its single probe. *)
Lemma isConnected_live (w : World Backend) :
  connected (session w) = true ->
  exists rq o b,
    respond (backend w) rq = (o, b)
    /\ rq = requestInterceptor (session w)
              (mkRequest GET [] "application/xml" None 5000 None)
    /\ trace (isConnected respond w) = [(rq, o)]
    /\ (succeeded o = true \/ replied_with 404 o = true ->
        value (isConnected respond w) = Ok true
        /\ connected (session (final (isConnected respond w))) = true)
    /\ (succeeded o = false -> replied_with 404 o = false ->
        value (isConnected respond w) = Ok false
        /\ connected (session (final (isConnected respond w))) = false).
Proof.
  intros Hc. unfold isConnected. rewrite Hc. cbn [negb].
  wp_start. repeat wp_step;
    (eexists; eexists; eexists; split; [eassumption | ]);
    (split; [reflexivity | ]); (split; [reflexivity | ]);
    cbn [succeeded replied_with]; split; intros;
    repeat match goal with
           | H : _ \/ _ |- _ => destruct H
           | H : status_is (HttpError _) _ = _ |- _ =>
               progress (cbn [status_is error_status] in H)
           | H : status_is NoResponse _ = _ |- _ => discriminate H
           end;
    try congruence; split; try reflexivity; try exact Hc.
  all: rewrite onRejected_other; [exact Hc | ].
  all: apply (status_is_exclusive _ 404); [assumption | discriminate].
Qed.

Lemma probe_on_wire s tmo :
  isProbe (requestInterceptor s (mkRequest GET [] "application/xml" None tmo None)).
Proof.
  split; [reflexivity | ]. now rewrite requestInterceptor_get_csrf.
Qed.

(** C5. If the backend answers the bare base-path probe with HTTP 404, then
    [connect] returns normally with the connected flag set, whatever the
    configuration and whatever the token fetch and the catalog request met,
    and the [isConnected] that follows returns true and leaves the flag
    set. *)
Theorem connect_then_isConnected_on_404 (w : World Backend) :
  (forall b rq, isProbe rq ->
                exists r b', respond b rq = (Replied r, b') /\ status r = 404) ->
  value (connect respond config w) = Ok tt
  /\ connected (session (final (connect respond config w))) = true
  /\ value (isConnected respond (final (connect respond config w))) = Ok true
  /\ connected (session (final (isConnected respond
                                  (final (connect respond config w))))) = true.
Proof.
  intros H404.
  assert (Hconn : value (connect respond config w) = Ok tt
                  /\ connected (session (final (connect respond config w))) = true).
  { wp_start. unfold connect, fetchCSRFToken.
    destruct (enableCSRF config); repeat wp_step; try (split; reflexivity);
      exfalso;
      match goal with
      | H : respond ?b (requestInterceptor ?s
                          (mkRequest GET [] "application/xml" None 10000 None))
            = _ |- _ =>
          destruct (H404 b _ (probe_on_wire s 10000))
            as (r404 & b404 & E404 & S404);
          rewrite E404 in H; try discriminate H; injection H as <- <-
      end;
      use_status S404. }
  destruct Hconn as [Hv Hc]. split; [exact Hv | split; [exact Hc | ]].
  destruct (isConnected_live _ Hc) as (rq & o & b' & E & -> & Ht & Hyes & Hno).
  apply Hyes. right.
  match type of E with
  | respond ?b (requestInterceptor ?s _) = _ =>
      destruct (H404 b _ (probe_on_wire s 5000)) as (r404 & b404 & E404 & S404)
  end.
  rewrite E404 in E. injection E as <- _. cbn. now rewrite S404.
Qed.

(** C9 (amended). [isConnected] answers from the flag when it is already
    false: it returns false and sends nothing.  When the flag is set it makes
    exactly one round trip, a GET of the bare base path, and classifies the
    outcome: HTTP 404 returns true and keeps the flag; HTTP 401 or 403
    returns false and drops the flag; any other failure does the same. *)
Theorem isConnected_classification (w : World Backend) :
  (connected (session w) = false ->
   value (isConnected respond w) = Ok false
   /\ trace (isConnected respond w) = []
   /\ final (isConnected respond w) = w)
  /\ (connected (session w) = true ->
      exists rq o,
        trace (isConnected respond w) = [(rq, o)]
        /\ req_method rq = GET /\ req_url rq = []
        /\ (replied_with 404 o = true ->
            value (isConnected respond w) = Ok true
            /\ connected (session (final (isConnected respond w))) = true)
        /\ (replied_with 401 o = true \/ replied_with 403 o = true ->
            value (isConnected respond w) = Ok false
            /\ connected (session (final (isConnected respond w))) = false)
        /\ (succeeded o = false -> replied_with 404 o = false ->
            value (isConnected respond w) = Ok false
            /\ connected (session (final (isConnected respond w))) = false)).
Proof.
  split.
  - intros Hc. unfold isConnected. rewrite Hc. repeat split.
  - intros Hc.
    destruct (isConnected_live w Hc) as (rq & o & b & E & Hrq & Ht & Hyes & Hno).
    exists rq, o. split; [exact Ht | ].
    split; [now rewrite Hrq | ]. split; [now rewrite Hrq | ].
    split; [intros H; apply Hyes; now right | ].
    split; [ | exact Hno ].
    intros H. destruct o as [r | ]; cbn [replied_with] in H;
      [ | destruct H; discriminate ].
    apply Hno; cbn [succeeded replied_with]; unfold validateStatus;
      destruct H as [H | H]; apply Z.eqb_eq in H; rewrite H; reflexivity.
Qed.

(** *** Metadata retrieval *)

(** C8 (amended). On a connected client whose metadata request is answered
    with a 2xx document: if the XML parser yields a tree and extracting the
    model from that tree throws, [getServiceMetadata] does not throw and
    returns the empty model annotated with the parse tree; if the XML parser
    itself fails, the failure is rethrown as a "Failed to get service
    metadata" error. *)
Theorem getServiceMetadata_extraction_is_best_effort
    (serviceName : jsstring) (w : World Backend) (r : response) (b : Backend) :
  connected (session w) = true ->
  respond (backend w)
    (requestInterceptor (session w)
       (mkRequest GET (serviceName ++ lit "/$metadata") "application/xml" None
          (timeout config) None)) = (Replied r, b) ->
  validateStatus (status r) = true ->
  (forall parsed,
      parseXML (data r) = inr parsed ->
      extractMetadata_try parsed = None ->
      value (getServiceMetadata respond parseXML config serviceName w)
      = Ok {| entities := []; functions := []; raw := Some parsed |})
  /\ (forall msg,
         parseXML (data r) = inl msg ->
         value (getServiceMetadata respond parseXML config serviceName w)
         = Throw (Error (lit "Failed to get service metadata: "
                           ++ getErrorMessage (Error msg)))).
Proof.
  intros Hc E V.
  split; [intros parsed Hp Hx | intros msg Hp];
    wp_start; unfold getServiceMetadata;
    apply wp_bind, wp_ensureConnected; [ | congruence | | congruence ];
    intros _; wp_simpl; repeat wp_step;
    match goal with
    | H : respond _ _ = _ |- _ => rewrite E in H; try discriminate H;
                                  injection H as <- <-
    end;
    try congruence;
    match goal with
    | H : parseXML _ = _ |- _ =>
        rewrite Hp in H; first [discriminate H | injection H as <-]
    end;
    try reflexivity.
  unfold extractMetadata. now rewrite Hx.
Qed.

(** C7. In the model [getServiceMetadata] returns, the property at position
    [j] of the entity at position [i] comes from the node
    [Schema.EntityType[i].Property[j]] of the parsed metadata document, and
    its [nullable] field is false exactly when that node carries
    [Nullable="false"]; every property not so marked has [nullable = true]. *)
Theorem getServiceMetadata_nullable
    (serviceName : jsstring) (w : World Backend) (model : ODataMetadata) :
  value (getServiceMetadata respond parseXML config serviceName w) = Ok model ->
  exists rq r parsed,
    trace (getServiceMetadata respond parseXML config serviceName w)
    = [(rq, Replied r)]
    /\ parseXML (data r) = inr parsed
    /\ forall i j e p,
        nth_error (entities model) i = Some e ->
        nth_error (properties e) j = Some p ->
        exists entity prop,
          nth_error (entityNodes parsed) i = Some entity
          /\ nth_error (propertyNodes entity) j = Some prop
          /\ (nullable p = false <-> markedNotNullable prop)
          /\ (~ markedNotNullable prop -> nullable p = true).
Proof.
  wp_start. unfold getServiceMetadata.
  apply wp_bind, wp_ensureConnected; intros Hc; wp_simpl; [ | discriminate ].
  repeat wp_step; try discriminate.
  intros Hm. injection Hm as <-.
  eexists; eexists; eexists. split; [reflexivity | ].
  split; [eassumption | ].
  intros i k e p. apply extractMetadata_property.
Qed.

(** *** Key predicates *)

Lemma keyEntry_inline (keyValues : list (jsstring * jsval)) :
  map_opt (fun entry =>
             match encodeURIComponent (snd entry) with
             | Some value => Some (fst entry ++ lit "='" ++ value ++ lit "'")
             | None => None
             end) keyValues
  = map_opt keyEntry keyValues.
Proof. reflexivity. Qed.

(** C2. For every [keyValues] record, [getEntity], [updateEntity] and
    [deleteEntity] build one and the same key predicate: each entry becomes
    [Key='encodedValue'] with the value URL-encoded, the entries are joined
    by commas, and the predicate is put in parentheses after
    [serviceName/entitySet]; each operation sends exactly one request to that
    URL (GET, PUT, DELETE).  When a value cannot be URL-encoded (an unpaired
    surrogate) none of the three sends anything.  For [{ID: "42"}] the
    predicate is [ID='42']. *)
Theorem key_predicate_shared
    (serviceName entitySet : jsstring) (keyValues : list (jsstring * jsval))
    (body : jsval) (w : World Backend) :
  connected (session w) = true ->
  match keyPredicate keyValues with
  | Some keyString =>
      let url := entityUrl serviceName entitySet keyString in
      let get := getEntity respond config serviceName entitySet keyValues w in
      let put := updateEntity respond config serviceName entitySet keyValues body w in
      let del := deleteEntity respond config serviceName entitySet keyValues w in
      (urls (trace get) = [url] /\ methods (trace get) = [GET])
      /\ (urls (trace put) = [url] /\ methods (trace put) = [PUT])
      /\ (urls (trace del) = [url] /\ methods (trace del) = [DELETE])
  | None =>
      trace (getEntity respond config serviceName entitySet keyValues w) = []
      /\ trace (updateEntity respond config serviceName entitySet keyValues body w) = []
      /\ trace (deleteEntity respond config serviceName entitySet keyValues w) = []
  end
  /\ keyPredicate [(lit "ID", JStr (lit "42"))] = Some (lit "ID='42'").
Proof.
  intros Hc. split; [ | vm_compute; reflexivity ].
  unfold keyPredicate.
  destruct (map_opt keyEntry keyValues) as [entries | ] eqn:Hk;
    cbv zeta; repeat split;
    wp_start;
    unfold getEntity, updateEntity, deleteEntity;
    apply wp_bind, wp_ensureConnected; try congruence;
    intros _; wp_simpl; rewrite keyEntry_inline, Hk;
    repeat wp_step; reflexivity.
Qed.

(** *** A 401 invalidates the session *)

Lemma got_app code (t1 t2 : list exchange) :
  got code (t1 ++ t2) -> got code t1 \/ got code t2.
Proof.
  intros (rq & r & Hin & Hs). apply in_app_or in Hin.
  destruct Hin; [left | right]; now exists rq, r.
Qed.

Lemma got_nil code : ~ got code [].
Proof. intros (rq & r & [] & _). Qed.

Lemma guarded_ret {A} (a : A) : guarded (@ret Backend A a).
Proof.
  intros w. split; [tauto | ]. intros H. now apply got_nil in H.
Qed.

Lemma guarded_throw {A} e : guarded (@throw Backend A e).
Proof.
  intros w. split; [tauto | ]. intros H. now apply got_nil in H.
Qed.

Lemma guarded_bind {A B} (m : M Backend A) (k : A -> M Backend B) :
  guarded m -> (forall a, guarded (k a)) -> guarded (bind m k).
Proof.
  intros Hm Hk w. destruct (Hm w) as [Hm1 Hm2]. unfold bind.
  destruct (value (m w)) as [a | e]; cbn [final trace].
  - destruct (Hk a (final (m w))) as [Hk1 Hk2]. split.
    + intros Hw. auto.
    + intros Hg. apply got_app in Hg. destruct Hg; auto.
  - split; assumption.
Qed.

Lemma guarded_try_catch {A} (m : M Backend A) handler :
  guarded m -> (forall e, guarded (handler e)) -> guarded (try_catch m handler).
Proof.
  intros Hm Hh w. destruct (Hm w) as [Hm1 Hm2]. unfold try_catch.
  destruct (value (m w)) as [a | e]; cbn [final trace].
  - split; assumption.
  - destruct (Hh e (final (m w))) as [Hh1 Hh2]. split.
    + intros Hw. auto.
    + intros Hg. apply got_app in Hg. destruct Hg; auto.
Qed.

Lemma guarded_send rq : guarded (send respond rq).
Proof.
  intros w. wp_start. apply wp_send; intros; wp_simpl; split.
  - now rewrite onFulfilled_connected.
  - intros (rq' & r' & [Hin | []] & Hs). injection Hin as _ <-.
    unfold validateStatus in *. rewrite Hs in *. discriminate.
  - intros Hw. unfold onRejected. now destruct (status_is _ 401).
  - intros (rq' & r' & [Hin | []] & Hs). injection Hin as _ <-.
    rewrite onRejected_401; [reflexivity | ].
    cbn [status_is error_status]. now rewrite Hs.
  - intros Hw. exact Hw.
  - intros (rq' & r' & [Hin | []] & Hs). discriminate Hin.
Qed.

Lemma guarded_ensureConnected : guarded (@ensureConnected Backend).
Proof.
  intros w. unfold ensureConnected.
  destruct (connected (session w)) eqn:Hc; cbn [negb ret throw final trace];
    (split; [intros H; first [discriminate H | exact Hc]
            | intros H; now apply got_nil in H]).
Qed.

Lemma guarded_set_disconnected : guarded (@set_disconnected Backend).
Proof.
  intros w. split; reflexivity.
Qed.

Ltac guardedness :=
  repeat first
    [ apply guarded_ensureConnected
    | apply guarded_set_disconnected
    | apply guarded_send
    | apply guarded_ret
    | apply guarded_throw
    | apply guarded_bind; [ | intros ? ]
    | apply guarded_try_catch; [ | intros ? ]
    | match goal with
      | |- guarded (http_get _ _ _ _) => unfold http_get
      | |- guarded (if ?c then _ else _) => destruct c
      | |- guarded (match ?x with _ => _ end) => destruct x
      end ].

Lemma guarded_perform op : guarded (perform respond parseXML config op).
Proof.
  destruct op; cbn [perform];
    unfold getServices, getServiceMetadata, queryEntitySet, getEntity,
      createEntity, updateEntity, deleteEntity, callFunction, commonServicesTest;
    guardedness.
Qed.

Lemma perform_not_connected op w :
  connected (session w) = false ->
  perform respond parseXML config op w
  = {| value := Throw notConnectedError; final := w; trace := [] |}.
Proof.
  intros Hc.
  assert (He : @ensureConnected Backend w
               = {| value := Throw notConnectedError; final := w; trace := [] |}).
  { unfold ensureConnected. now rewrite Hc. }
  destruct op; cbn [perform];
    unfold getServices, getServiceMetadata, queryEntitySet, getEntity,
      createEntity, updateEntity, deleteEntity, callFunction, bind;
    rewrite He; reflexivity.
Qed.

(** C3. The response interceptor clears the whole session (not connected,
    token null, no cookies) as soon as a request is answered with HTTP 401.
    Hence, when a data operation or [isConnected] on a connected client
    meets a 401, the client is left disconnected and the data operation that
    follows throws the "not connected" error without sending anything. *)
Theorem unauthorized_invalidates_session :
  (forall rq w r b,
      respond (backend w) (requestInterceptor (session w) rq) = (Replied r, b) ->
      status r = 401 ->
      session (final (send respond rq w)) = clearedSession)
  /\ (forall op w,
         connected (session w) = true ->
         got 401 (trace (perform respond parseXML config op w)) ->
         connected (session (final (perform respond parseXML config op w))) = false
         /\ forall next,
             perform respond parseXML config next
               (final (perform respond parseXML config op w))
             = {| value := Throw notConnectedError;
                  final := final (perform respond parseXML config op w);
                  trace := [] |})
  /\ (forall w,
         connected (session w) = true ->
         got 401 (trace (isConnected respond w)) ->
         session (final (isConnected respond w)) = clearedSession
         /\ forall next,
             perform respond parseXML config next (final (isConnected respond w))
             = {| value := Throw notConnectedError;
                  final := final (isConnected respond w);
                  trace := [] |}).
Proof.
  split; [ | split ].
  - intros rq w r b E S. unfold send. rewrite E.
    unfold validateStatus. rewrite S. cbn.
    apply onRejected_401. cbn. now rewrite S.
  - intros op w Hc Hg.
    pose proof (proj2 (guarded_perform op w) Hg) as Hd.
    split; [exact Hd | ]. intros next. now apply perform_not_connected.
  - intros w Hc Hg.
    assert (Hs : session (final (isConnected respond w)) = clearedSession).
    { revert Hg. unfold isConnected. rewrite Hc. cbn [negb].
      wp_start. repeat wp_step;
        intros (rq' & r' & [Hin | []] & Hs);
        first [discriminate Hin | injection Hin as _ <-];
        try solve [use_status Hs].
      all: rewrite onRejected_401; [reflexivity | cbn; now rewrite Hs]. }
    split; [exact Hs | ]. intros next. apply perform_not_connected.
    now rewrite Hs.
Qed.

(** *** Service discovery *)

(** One catalog attempt is one exchange, and yields a list exactly on a 2xx
    answer whose results are an array of readable records. *)
Lemma tryCatalogPath_run (catalogPath : jsstring) (w : World Backend) :
  exists wire o b,
    trace (tryCatalogPath respond config catalogPath w) = [(wire, o)]
    /\ respond (backend w) wire = (o, b)
    /\ req_url wire = catalogPath
    /\ backend (final (tryCatalogPath respond config catalogPath w)) = b
    /\ value (tryCatalogPath respond config catalogPath w)
       = Ok match o with
            | Replied r =>
                if validateStatus (status r) && truthy (catalogResults r) then
                  match array_map (catalogResults r) (catalogService config) with
                  | Some found =>
                      Some {| services := found;
                              source := Some (lit "gateway_catalog");
                              catalogUrl := Some catalogPath;
                              message := None |}
                  | None => None
                  end
                else None
            | NoReply => None
            end.
Proof.
  wp_start. unfold tryCatalogPath. repeat wp_step;
    (eexists; eexists; eexists; split; [reflexivity | ]);
    (split; [eassumption | ]); (split; [reflexivity | ]);
    (split; [reflexivity | ]);
    unfold validateStatus in *;
    repeat match goal with
           | H : _ = _ |- _ => rewrite H
           end; reflexivity.
Qed.

Lemma tryCatalog_unfold path paths otherwise (w : World Backend) :
  let first := tryCatalogPath respond config path w in
  tryCatalog respond config (path :: paths) otherwise w
  = match value first with
    | Ok (Some list) =>
        {| value := Ok list; final := final first; trace := trace first ++ [] |}
    | Ok None =>
        let rest := tryCatalog respond config paths otherwise (final first) in
        {| value := value rest; final := final rest;
           trace := trace first ++ trace rest |}
    | Throw e => {| value := Throw e; final := final first; trace := trace first |}
    end.
Proof.
  cbn [tryCatalog]. unfold bind.
  destruct (value (tryCatalogPath respond config path w)) as [[list | ] | e];
    reflexivity.
Qed.

(** A catalog answer carrying a readable results array ends the discovery. *)
Lemma tryCatalog_found paths otherwise :
  (forall w ex, In ex (trace (otherwise w)) ->
                ~ In (req_url (fst ex)) catalogPaths) ->
  forall (w : World Backend) rq r found,
    In (rq, Replied r) (trace (tryCatalog respond config paths otherwise w)) ->
    In (req_url rq) catalogPaths ->
    validateStatus (status r) = true ->
    truthy (catalogResults r) = true ->
    array_map (catalogResults r) (catalogService config) = Some found ->
    value (tryCatalog respond config paths otherwise w)
    = Ok {| services := found;
            source := Some (lit "gateway_catalog");
            catalogUrl := Some (req_url rq);
            message := None |}.
Proof.
  intros Hother. induction paths as [ | path paths IH];
    intros w rq r found Hin Hcat Hok Htruthy Hmap.
  - cbn [tryCatalog] in Hin. now destruct (Hother w _ Hin).
  - rewrite tryCatalog_unfold in *. cbv zeta in *.
    destruct (tryCatalogPath_run path w) as (wire & o & b & Ht & E & Hu & Hb & Hv).
    rewrite Hv, Ht in *.
    destruct o as [r0 | ].
    + destruct (validateStatus (status r0) && truthy (catalogResults r0)) eqn:Hc.
      * destruct (array_map (catalogResults r0) (catalogService config))
          as [found0 | ] eqn:Hm0; cbn [value trace app In] in *.
        -- destruct Hin as [Hin | []]. injection Hin as -> ->.
           rewrite Hu. congruence.
        -- destruct Hin as [Hin | Hin]; [ | now apply (IH _ _ r) ].
           injection Hin as -> ->. congruence.
      * cbn [value trace app In] in *.
        destruct Hin as [Hin | Hin]; [ | now apply (IH _ _ r) ].
        injection Hin as -> ->. rewrite Hok, Htruthy in Hc. discriminate Hc.
    + cbn [value trace app In] in *.
      destruct Hin as [Hin | Hin]; [discriminate Hin | now apply (IH _ _ r) ].
Qed.

Lemma answered_cons_failed rq o t :
  succeeded o = false -> answered ((rq, o) :: t) = answered t.
Proof. unfold answered. cbn. now intros ->. Qed.

Lemma answered_cons_succeeded rq o t :
  succeeded o = true -> answered ((rq, o) :: t) = req_url rq :: answered t.
Proof. unfold answered. cbn. now intros ->. Qed.

Lemma answered_app t1 t2 : answered (t1 ++ t2) = answered t1 ++ answered t2.
Proof. unfold answered, urls. now rewrite filter_app, map_app. Qed.

Lemma answered_all_failed t :
  (forall rq o, In (rq, o) t -> succeeded o = false) -> answered t = [].
Proof.
  induction t as [ | [rq o] t IH]; intros H; [reflexivity | ].
  rewrite answered_cons_failed; [ | apply (H rq); now left ].
  apply IH. intros rq' o' Hin. apply (H rq'). now right.
Qed.

(** When every catalog attempt fails, discovery continues with the fallback
    after exchanges none of which succeeded. *)
Lemma tryCatalog_all_failed paths otherwise (w : World Backend) :
  (forall rq o,
      In (rq, o) (trace (tryCatalog respond config paths otherwise w)) ->
      In (req_url rq) paths -> succeeded o = false) ->
  exists w' t,
    answered t = []
    /\ tryCatalog respond config paths otherwise w
       = {| value := value (otherwise w'); final := final (otherwise w');
            trace := t ++ trace (otherwise w') |}.
Proof.
  revert w. induction paths as [ | path paths IH]; intros w Hfail.
  - exists w, []. split; [reflexivity | ]. cbn [tryCatalog app].
    now destruct (otherwise w).
  - rewrite tryCatalog_unfold in *. cbv zeta in *.
    destruct (tryCatalogPath_run path w) as (wire & o & b & Ht & E & Hu & Hb & Hv).
    assert (Ho : succeeded o = false).
    { apply (Hfail wire); [ | left; now rewrite Hu ].
      destruct (value (tryCatalogPath respond config path w)) as [[? | ] | ?];
        cbn [trace]; rewrite Ht; now left. }
    assert (Hnone : value (tryCatalogPath respond config path w) = Ok None).
    { rewrite Hv. destruct o as [r | ]; [ | reflexivity].
      cbn [succeeded] in Ho. now rewrite Ho. }
    rewrite Hnone in *. cbn [trace] in Hfail.
    destruct (IH (final (tryCatalogPath respond config path w))) as (w' & t & Ha & Hrun).
    { intros rq o' Hin Hp. apply (Hfail rq).
      - apply in_or_app. now right.
      - now right. }
    exists w', ((wire, o) :: t). split.
    + now rewrite answered_cons_failed.
    + rewrite Hrun, Ht. reflexivity.
Qed.

(** The probes of the common names: the services found are exactly the
    names whose probe was answered, in order. *)
Lemma probeCommon_run names found (w : World Backend) :
  exists hits,
    incl hits names
    /\ value (probeCommon respond config names found w)
       = Ok (found ++ map (commonService config) hits)
    /\ answered (trace (probeCommon respond config names found w))
       = map (fun n => n ++ lit "/") hits
    /\ forall ex, In ex (trace (probeCommon respond config names found w)) ->
                  exists n, In n names /\ req_url (fst ex) = n ++ lit "/".
Proof.
  revert found w. induction names as [ | name names IH]; intros found w.
  - exists []. cbn. rewrite app_nil_r. repeat split; try easy.
  - cbn [probeCommon]. wp_start. repeat wp_step.
    1: destruct (IH (found ++ [commonService config name])
                   {| session := onFulfilled (session w) r; backend := b |})
         as (hits & Hi & Hv & Ha & Hu).
    2: destruct (IH found {| session := onRejected (session w) (HttpError r);
                             backend := b |})
         as (hits & Hi & Hv & Ha & Hu).
    3: destruct (IH found {| session := onRejected (session w) NoResponse;
                             backend := b |})
         as (hits & Hi & Hv & Ha & Hu).
    1: exists (name :: hits).
    2, 3: exists hits.
    all: unfold wp; cbn [value final trace app]; rewrite ?app_nil_r.
    all: split; [ auto using incl_cons, incl_tl, in_eq | ].
    all: split; [ rewrite Hv; cbn [map]; now rewrite <- ?app_assoc | ].
    all: split;
      [ first [ rewrite answered_cons_succeeded by assumption
              | rewrite answered_cons_failed by (cbn; assumption)
              | rewrite answered_cons_failed by reflexivity ];
        rewrite Ha; reflexivity
      | intros ex [<- | Hin];
        [ exists name; split; [now left | reflexivity]
        | destruct (Hu ex Hin) as (n & Hn & Hurl);
          exists n; split; [now right | exact Hurl] ] ].
Qed.

Lemma probe_url_not_catalog (n : jsstring) :
  In n commonServices -> ~ In (n ++ lit "/") catalogPaths.
Proof.
  intros Hn Hc. cbv [commonServices] in Hn. cbn [In] in Hn.
  repeat (destruct Hn as [<- | Hn]; [ | ]); try (destruct Hn);
    cbv in Hc; repeat (destruct Hc as [Hc | Hc]; [discriminate Hc | ]);
    exact Hc.
Qed.

Lemma commonServicesTest_run (w : World Backend) :
  exists hits,
    incl hits commonServices
    /\ answered (trace (commonServicesTest respond config w))
       = map (fun n => n ++ lit "/") hits
    /\ (forall ex, In ex (trace (commonServicesTest respond config w)) ->
                   ~ In (req_url (fst ex)) catalogPaths)
    /\ value (commonServicesTest respond config w)
       = Ok match hits with
            | [] => noneFound
            | _ :: _ =>
                {| services := map (commonService config) hits;
                   source := Some (lit "common_services_test");
                   catalogUrl := None;
                   message := None |}
            end.
Proof.
  destruct (probeCommon_run commonServices [] w) as (hits & Hi & Hv & Ha & Hu).
  exists hits. unfold commonServicesTest, bind. rewrite Hv. cbn [app].
  assert (Ht : forall c (a b : ODataServiceList),
             trace ((if c : bool then ret a else ret b)
                      (final (probeCommon respond config commonServices [] w)))
             = []) by (now intros [ | ]).
  cbn [trace value]. rewrite Ht, app_nil_r.
  split; [exact Hi | ]. split; [exact Ha | ]. split.
  - intros ex Hin. destruct (Hu ex Hin) as (n & Hn & ->).
    now apply probe_url_not_catalog.
  - destruct hits; reflexivity.
Qed.

Lemma tryCatalog_tagged paths (w : World Backend) :
  exists list,
    value (tryCatalog respond config paths (commonServicesTest respond config) w)
    = Ok list
    /\ exists tag, source list = Some tag /\ In tag sourceTags.
Proof.
  revert w. induction paths as [ | path paths IH]; intros w.
  - cbn [tryCatalog].
    destruct (commonServicesTest_run w) as (hits & _ & _ & _ & Hv).
    rewrite Hv. eexists; split; [reflexivity | ].
    destruct hits; cbn [source noneFound]; eexists; (split; [reflexivity | ]);
      cbn; tauto.
  - rewrite tryCatalog_unfold. cbv zeta.
    destruct (tryCatalogPath_run path w) as (wire & o & b & _ & _ & _ & _ & Hv).
    rewrite Hv.
    destruct (match o with Replied _ => _ | NoReply => _ end) as [list | ] eqn:Hl.
    + exists list. split; [reflexivity | ].
      exists (lit "gateway_catalog"). split; [ | now left ].
      destruct o as [r | ]; [ | discriminate Hl ].
      destruct (_ && _); [ | discriminate Hl ].
      destruct (array_map _ _); [ | discriminate Hl ].
      now injection Hl as <-.
    + cbn [value]. apply IH.
Qed.

Lemma getServices_run (w : World Backend) :
  connected (session w) = true ->
  value (getServices respond config w)
  = value (tryCatalog respond config catalogPaths
             (commonServicesTest respond config) w)
  /\ trace (getServices respond config w)
     = trace (tryCatalog respond config catalogPaths
                (commonServicesTest respond config) w).
Proof.
  intros Hc. destruct (tryCatalog_tagged catalogPaths w) as (list & Hv & _).
  unfold getServices, bind, ensureConnected. rewrite Hc. cbn [negb ret value final].
  rewrite (try_catch_Ok _ _ _ _ Hv). split; reflexivity.
Qed.

(** The result of [getServices] by strategy, with the descriptors as the
    client maps them. *)
Lemma getServices_by_strategy (w : World Backend) :
  connected (session w) = true ->
  (forall rq r s1 s2 d1 d2,
      In (rq, Replied r) (trace (getServices respond config w)) ->
      In (req_url rq) catalogPaths ->
      validateStatus (status r) = true ->
      catalogResults r = JArr [s1; s2] ->
      catalogService config s1 = Some d1 ->
      catalogService config s2 = Some d2 ->
      value (getServices respond config w)
      = Ok {| services := [d1; d2];
              source := Some (lit "gateway_catalog");
              catalogUrl := Some (req_url rq);
              message := None |})
  /\ (forall n1 n2,
         (forall rq o,
             In (rq, o) (trace (getServices respond config w)) ->
             In (req_url rq) catalogPaths -> succeeded o = false) ->
         answered (trace (getServices respond config w))
         = [n1 ++ lit "/"; n2 ++ lit "/"] ->
         In n1 commonServices /\ In n2 commonServices
         /\ value (getServices respond config w)
            = Ok {| services := [commonService config n1; commonService config n2];
                    source := Some (lit "common_services_test");
                    catalogUrl := None;
                    message := None |})
  /\ ((forall rq o,
          In (rq, o) (trace (getServices respond config w)) ->
          succeeded o = false) ->
      value (getServices respond config w)
      = Ok {| services := [];
              source := Some (lit "none_found");
              catalogUrl := None;
              message := Some noneFoundMessage |}
      /\ noneFoundMessage <> [])
  /\ (exists list tag,
         value (getServices respond config w) = Ok list
         /\ source list = Some tag /\ In tag sourceTags).
Proof.
  intros Hc. destruct (getServices_run w Hc) as [Hval Htr].
  rewrite Hval, Htr. clear Hval Htr.
  assert (Hfallback :
            (forall rq o,
                In (rq, o) (trace (tryCatalog respond config catalogPaths
                                     (commonServicesTest respond config) w)) ->
                In (req_url rq) catalogPaths -> succeeded o = false) ->
            exists hits,
              incl hits commonServices
              /\ answered (trace (tryCatalog respond config catalogPaths
                                    (commonServicesTest respond config) w))
                 = map (fun n => n ++ lit "/") hits
              /\ value (tryCatalog respond config catalogPaths
                          (commonServicesTest respond config) w)
                 = Ok match hits with
                      | [] => noneFound
                      | _ :: _ =>
                          {| services := map (commonService config) hits;
                             source := Some (lit "common_services_test");
                             catalogUrl := None;
                             message := None |}
                      end).
  { intros Hfail.
    destruct (tryCatalog_all_failed _ _ _ Hfail) as (w' & t & Ha & Hrun).
    destruct (commonServicesTest_run w') as (hits & Hi & Hans & _ & Hv).
    exists hits. rewrite Hrun. cbn [value trace].
    rewrite answered_app, Ha, Hans, Hv. auto. }
  assert (Hother : forall w' ex,
             In ex (trace (commonServicesTest respond config w')) ->
             ~ In (req_url (fst ex)) catalogPaths).
  { intros w' ex. destruct (commonServicesTest_run w') as (hits & _ & _ & Hu & _).
    apply Hu. }
  split; [ | split; [ | split ] ].
  - intros rq r s1 s2 d1 d2 Hin Hcat Hok Hres H1 H2.
    apply (tryCatalog_found catalogPaths _ Hother w rq r [d1; d2]);
      try assumption.
    + now rewrite Hres.
    + rewrite Hres. cbn [array_map map_opt]. now rewrite H1, H2.
  - intros n1 n2 Hfail Hans.
    destruct (Hfallback Hfail) as (hits & Hi & Ha & Hv).
    rewrite Hans in Ha.
    destruct hits as [ | h1 [ | h2 [ | h3 hits]]]; try discriminate Ha.
    cbn [map] in Ha. injection Ha as E1 E2.
    apply app_inv_tail in E1, E2. subst h1 h2.
    split; [apply Hi; now left | ].
    split; [apply Hi; right; now left | ].
    exact Hv.
  - intros Hfail.
    destruct Hfallback as (hits & Hi & Ha & Hv); [intros; eauto | ].
    rewrite (answered_all_failed _ Hfail) in Ha.
    destruct hits; [ | discriminate Ha ].
    split; [exact Hv | ]. cbv. discriminate.
  - destruct (tryCatalog_tagged catalogPaths w) as (list & Hv & tag & Hs & Ht).
    now exists list, tag.
Qed.

(** Reading [response.data.d.results] when it is an array. *)
Lemma catalogResults_read (r : response) (d : jsval) (xs : list jsval) :
  get (data r) "d" = Some d ->
  get d "results" = Some (JArr xs) ->
  catalogResults r = JArr xs.
Proof.
  intros Hd Hres.
  assert (Ht : truthy d = true).
  { destruct d; cbn in Hres; try discriminate Hres; reflexivity. }
  assert (Hv : truthy (data r) = true).
  { destruct (data r); cbn in Hd; try discriminate Hd; try reflexivity;
      injection Hd as <-; discriminate Hres. }
  unfold catalogResults, opt_get. now rewrite Hv, Hd, Ht, Hres.
Qed.

Lemma catalogService_read (s id title version : jsval) :
  get s "ID" = Some id -> get s "Title" = Some title ->
  get s "Version" = Some version ->
  catalogService config s
  = Some {| svc_name := id; svc_title := or_else title id; svc_version := version;
            svc_url := baseUrl config ++ toString id ++ lit "/" |}.
Proof. intros H1 H2 H3. unfold catalogService. now rewrite H1, H2, H3. Qed.

(** C6. The result of [getServices] on a connected client carries the tag of
    the strategy that produced it.  (a) A catalog path answered 2xx whose
    [data.d.results] is an array of two service records gives exactly the
    two descriptors of those records (name [ID], title [Title] or else
    [ID], version [Version], url the base URL followed by [ID] and a
    slash), tagged [gateway_catalog] with that path.  (b) When every
    catalog request fails and exactly two probes of the common names are
    answered, the result is the two descriptors of those names (name and
    title the probed name, no version, url the base URL followed by the
    name and a slash), in probe order, tagged [common_services_test].
    (c) When no request succeeds the result is the empty list tagged
    [none_found] with the diagnostic message.  (d) In every case the call
    returns a result tagged with one of the three strategies. *)
Theorem getServices_source_tag (w : World Backend) :
  connected (session w) = true ->
  (forall rq r d s1 s2 id1 title1 version1 id2 title2 version2,
      In (rq, Replied r) (trace (getServices respond config w)) ->
      In (req_url rq) catalogPaths ->
      validateStatus (status r) = true ->
      get (data r) "d" = Some d ->
      get d "results" = Some (JArr [s1; s2]) ->
      get s1 "ID" = Some id1 -> get s1 "Title" = Some title1 ->
      get s1 "Version" = Some version1 ->
      get s2 "ID" = Some id2 -> get s2 "Title" = Some title2 ->
      get s2 "Version" = Some version2 ->
      value (getServices respond config w)
      = Ok {| services :=
                [{| svc_name := id1; svc_title := or_else title1 id1;
                    svc_version := version1;
                    svc_url := baseUrl config ++ toString id1 ++ lit "/" |};
                 {| svc_name := id2; svc_title := or_else title2 id2;
                    svc_version := version2;
                    svc_url := baseUrl config ++ toString id2 ++ lit "/" |}];
              source := Some (lit "gateway_catalog");
              catalogUrl := Some (req_url rq);
              message := None |})
  /\ (forall n1 n2,
         (forall rq o,
             In (rq, o) (trace (getServices respond config w)) ->
             In (req_url rq) catalogPaths -> succeeded o = false) ->
         answered (trace (getServices respond config w))
         = [n1 ++ lit "/"; n2 ++ lit "/"] ->
         In n1 commonServices /\ In n2 commonServices
         /\ value (getServices respond config w)
            = Ok {| services :=
                      [{| svc_name := JStr n1; svc_title := JStr n1;
                          svc_version := JUndefined;
                          svc_url := baseUrl config ++ n1 ++ lit "/" |};
                       {| svc_name := JStr n2; svc_title := JStr n2;
                          svc_version := JUndefined;
                          svc_url := baseUrl config ++ n2 ++ lit "/" |}];
                    source := Some (lit "common_services_test");
                    catalogUrl := None;
                    message := None |})
  /\ ((forall rq o,
          In (rq, o) (trace (getServices respond config w)) ->
          succeeded o = false) ->
      value (getServices respond config w)
      = Ok {| services := [];
              source := Some (lit "none_found");
              catalogUrl := None;
              message := Some (lit "No services found. The base URL exists but specific services need to be discovered through SAP GUI or by testing known service names.") |})
  /\ (exists list tag,
         value (getServices respond config w) = Ok list
         /\ source list = Some tag /\ In tag sourceTags).
Proof.
  intros Hc.
  destruct (getServices_by_strategy w Hc) as (Hcat & Hprobe & Hnone & Htag).
  split; [ | split; [ | split ] ].
  - intros rq r d s1 s2 id1 title1 version1 id2 title2 version2
      Hin Hpath Hok Hd Hres Hi1 Ht1 Hv1 Hi2 Ht2 Hv2.
    apply (Hcat rq r s1 s2 _ _ Hin Hpath Hok (catalogResults_read r d _ Hd Hres)).
    + exact (catalogService_read s1 id1 title1 version1 Hi1 Ht1 Hv1).
    + exact (catalogService_read s2 id2 title2 version2 Hi2 Ht2 Hv2).
  - exact Hprobe.
  - intros Hfail. exact (proj1 (Hnone Hfail)).
  - exact Htag.
Qed.

(** *** Session invariants *)

Section Maintains.

Variable I : Session -> Prop.
Variable T : exchange -> Prop.
Hypothesis I_fulfilled : forall s r, I s -> I (onFulfilled s r).
Hypothesis I_cleared : I clearedSession.

Lemma maintains_ret {A} (a : A) : maintains I T (@ret Backend A a).
Proof. intros w Hw. split; [exact Hw | constructor]. Qed.

Lemma maintains_throw {A} e : maintains I T (@throw Backend A e).
Proof. intros w Hw. split; [exact Hw | constructor]. Qed.

Lemma maintains_set_session f :
  (forall s, I s -> I (f s)) -> maintains I T (@set_session Backend f).
Proof. intros Hf w Hw. split; [now apply Hf | constructor]. Qed.

Lemma maintains_bind {A B} (m : M Backend A) (k : A -> M Backend B) :
  maintains I T m -> (forall a, maintains I T (k a)) -> maintains I T (bind m k).
Proof.
  intros Hm Hk w Hw. destruct (Hm w Hw) as [Hi Ht]. unfold bind.
  destruct (value (m w)) as [a | e]; cbn [final trace].
  - destruct (Hk a (final (m w)) Hi) as [Hi' Ht'].
    split; [exact Hi' | now apply Forall_app].
  - now split.
Qed.

Lemma maintains_try_catch {A} (m : M Backend A) handler :
  maintains I T m -> (forall e, maintains I T (handler e)) ->
  maintains I T (try_catch m handler).
Proof.
  intros Hm Hh w Hw. destruct (Hm w Hw) as [Hi Ht]. unfold try_catch.
  destruct (value (m w)) as [a | e]; cbn [final trace].
  - now split.
  - destruct (Hh e (final (m w)) Hi) as [Hi' Ht'].
    split; [exact Hi' | now apply Forall_app].
Qed.

Lemma maintains_send rq :
  (forall s o, I s -> T (requestInterceptor s rq, o)) ->
  maintains I T (send respond rq).
Proof.
  intros Hrq w Hw. wp_start. apply wp_send; intros; wp_simpl;
    (split; [ | constructor; [now apply Hrq | constructor] ]).
  - now apply I_fulfilled.
  - unfold onRejected. now destruct (status_is _ 401).
  - exact Hw.
Qed.

Lemma maintains_ensureConnected : maintains I T (@ensureConnected Backend).
Proof.
  intros w Hw. unfold ensureConnected.
  destruct (connected (session w)); cbn; (split; [exact Hw | constructor]).
Qed.

End Maintains.

(** Syntax-directed proof of [maintains]: [Hf] and [Hc] are the two facts
    about the invariant, [side] closes what each request and each session
    update must satisfy. *)
Ltac maintain Hf Hc side :=
  repeat first
    [ apply maintains_ensureConnected
    | apply maintains_ret
    | apply maintains_throw
    | apply maintains_bind; [ | intros ? ]
    | apply maintains_try_catch; [ | intros ? ]
    | apply (maintains_send _ _ Hf Hc); solve [side]
    | apply maintains_set_session; solve [side]
    | match goal with
      | |- maintains _ _ (http_get _ _ _ _) => unfold http_get
      | |- maintains _ _ set_disconnected => unfold set_disconnected
      | |- maintains _ _ disconnect => unfold disconnect
      | |- maintains _ _ (fetchCSRFToken _ _) => unfold fetchCSRFToken
      | |- maintains _ _ (commonServicesTest _ _) => unfold commonServicesTest
      | |- maintains _ _ (if ?c then _ else _) => destruct c
      | |- maintains _ _ (match ?x with _ => _ end) => destruct x
      end ].

Ltac unfold_operations :=
  unfold getServices, getServiceMetadata, queryEntitySet, getEntity,
    createEntity, updateEntity, deleteEntity, callFunction.

Lemma maintains_isConnected I T :
  maintains I T
    (try_catch
       (bind (http_get respond [] "application/xml" 5000) (fun _ => ret true))
       (fun error =>
          if status_is error 404 then ret true
          else if status_is error 401 || status_is error 403
               then bind set_disconnected (fun _ => ret false)
               else bind set_disconnected (fun _ => ret false))) ->
  maintains I T (isConnected respond).
Proof.
  intros Hm w Hw. unfold isConnected.
  destruct (connected (session w)); cbn [negb]; [now apply Hm | ].
  split; [exact Hw | constructor].
Qed.

Lemma tokenOk_fulfilled s r : tokenOk s -> tokenOk (onFulfilled s r).
Proof.
  unfold tokenOk, onFulfilled. cbn [csrfToken]. intros Hs.
  destruct (x_csrf_token r) as [t | ]; [ | exact Hs ].
  destruct (nonempty t) eqn:Hn; cbn [andb]; [ | exact Hs ].
  unfold str_eqb. destruct (list_eq_dec Z.eq_dec t (lit "Required")) as [ | Hne];
    cbn [negb]; [exact Hs | ].
  split; [now apply nonempty_true | exact Hne].
Qed.

Lemma before_semicolon_clean (cookie : jsstring) :
  ~ In 59 (before_semicolon cookie).
Proof.
  induction cookie as [ | c rest IH]; cbn; [tauto | ].
  destruct (c =? 59) eqn:Hc; cbn; [tauto | ].
  apply Z.eqb_neq in Hc. intros [H | H]; [congruence | now apply IH].
Qed.

Lemma cookiesOk_fulfilled s r : cookiesOk s -> cookiesOk (onFulfilled s r).
Proof.
  unfold cookiesOk, onFulfilled. cbn [cookies]. intros Hs.
  destruct (set_cookie r) as [setCookies | ]; [ | exact Hs ].
  apply Forall_forall. intros c Hin. apply in_map_iff in Hin.
  destruct Hin as (raw & <- & _). apply before_semicolon_clean.
Qed.

(** X1. The token the client holds is always a usable one: starting from a
    session whose token is null or a non-empty string other than
    [Required], no operation ([connect], [disconnect], [isConnected], any
    data operation) leaves an empty or a [Required] token behind, whatever
    the backend sends. *)
Theorem held_token_is_never_placeholder (w : World Backend) :
  tokenOk (session w) ->
  tokenOk (session (final (connect respond config w)))
  /\ tokenOk (session (final (disconnect w)))
  /\ tokenOk (session (final (isConnected respond w)))
  /\ forall op, tokenOk (session (final (perform respond parseXML config op w))).
Proof.
  intros Hw.
  assert (Hc : tokenOk clearedSession) by exact I.
  split; [ | split; [ | split ] ].
  - assert (Hm : maintains tokenOk (fun _ => True) (connect respond config)).
    { unfold connect.
      maintain tokenOk_fulfilled Hc ltac:(first [now intros | intros; exact I]). }
    exact (proj1 (Hm w Hw)).
  - exact I.
  - refine (proj1 (maintains_isConnected tokenOk (fun _ => True) _ w Hw)).
    maintain tokenOk_fulfilled Hc ltac:(first [now intros | intros; exact I]).
  - intros op.
    assert (Hm : maintains tokenOk (fun _ => True)
                   (perform respond parseXML config op)).
    { destruct op; cbn [perform]; unfold_operations;
        maintain tokenOk_fulfilled Hc ltac:(first [now intros | intros; exact I]). }
    exact (proj1 (Hm w Hw)).
Qed.

(** X2. Stored cookies are bare [name=value] pairs: starting from a cookie
    list without semicolons, no operation leaves a cookie that holds a
    semicolon, so the attributes of a [Set-Cookie] header are never
    replayed. *)
Theorem stored_cookies_hold_no_attributes (w : World Backend) :
  cookiesOk (session w) ->
  cookiesOk (session (final (connect respond config w)))
  /\ cookiesOk (session (final (disconnect w)))
  /\ cookiesOk (session (final (isConnected respond w)))
  /\ forall op, cookiesOk (session (final (perform respond parseXML config op w))).
Proof.
  intros Hw.
  assert (Hc : cookiesOk clearedSession) by constructor.
  split; [ | split; [ | split ] ].
  - assert (Hm : maintains cookiesOk (fun _ => True) (connect respond config)).
    { unfold connect.
      maintain cookiesOk_fulfilled Hc ltac:(first [now intros | intros; exact I]). }
    exact (proj1 (Hm w Hw)).
  - constructor.
  - refine (proj1 (maintains_isConnected cookiesOk (fun _ => True) _ w Hw)).
    maintain cookiesOk_fulfilled Hc ltac:(first [now intros | intros; exact I]).
  - intros op.
    assert (Hm : maintains cookiesOk (fun _ => True)
                   (perform respond parseXML config op)).
    { destruct op; cbn [perform]; unfold_operations;
        maintain cookiesOk_fulfilled Hc ltac:(first [now intros | intros; exact I]). }
    exact (proj1 (Hm w Hw)).
Qed.

(** *** What goes on the wire *)

Lemma get_request_without_token s url accept tmo o :
  getWithoutToken (requestInterceptor s (mkRequest GET url accept None tmo None), o).
Proof.
  intros _. cbn [fst]. now rewrite requestInterceptor_get_csrf.
Qed.

Lemma mutation_not_get s m url accept tmo body o :
  m <> GET ->
  getWithoutToken (requestInterceptor s (mkRequest m url accept None tmo body), o).
Proof. intros Hm Hget. cbn in Hget. congruence. Qed.

Ltac wire_side :=
  intros;
  first [ exact I
        | apply get_request_without_token
        | apply mutation_not_get; discriminate
        | left; cbn [fst]; now rewrite requestInterceptor_get_csrf
        | right; cbn [fst]; now rewrite requestInterceptor_get_csrf ].

(** X3. The CSRF token the client holds is never sent on a read: every GET
    issued by a data operation or by [isConnected] goes out without an
    [X-CSRF-Token] header, and a GET issued by [connect] carries at most the
    literal [Fetch] of the token handshake. *)
Theorem held_token_never_sent_on_get (w : World Backend) :
  (forall op ex,
      In ex (trace (perform respond parseXML config op w)) -> getWithoutToken ex)
  /\ (forall ex, In ex (trace (isConnected respond w)) -> getWithoutToken ex)
  /\ (forall ex, In ex (trace (connect respond config w)) ->
                 getWithoutHeldToken ex).
Proof.
  assert (Ht : forall (s : Session) (r : response), True -> True) by auto.
  split; [ | split ].
  - intros op.
    assert (Hm : maintains (fun _ => True) getWithoutToken
                   (perform respond parseXML config op)).
    { destruct op; cbn [perform]; unfold_operations;
        maintain Ht I wire_side. }
    apply Forall_forall. exact (proj2 (Hm w I)).
  - apply Forall_forall.
    refine (proj2 (maintains_isConnected (fun _ => True) getWithoutToken _ w I)).
    maintain Ht I wire_side.
  - assert (Hm : maintains (fun _ => True) getWithoutHeldToken
                   (connect respond config)).
    { unfold connect. maintain Ht I wire_side. }
    apply Forall_forall. exact (proj2 (Hm w I)).
Qed.

(** X4. Every mutating request replays the held token: on a connected client
    holding a token, the single request of [createEntity], [updateEntity]
    and [deleteEntity] (POST, PUT, DELETE) carries that token in its
    [X-CSRF-Token] header. *)
Theorem mutations_carry_held_token
    (serviceName entitySet : jsstring) (keyValues : list (jsstring * jsval))
    (body : jsval) (token keyString : jsstring) (w : World Backend) :
  connected (session w) = true ->
  csrfToken (session w) = Some token ->
  token <> [] ->
  keyPredicate keyValues = Some keyString ->
  map (fun ex => (req_method (fst ex), req_csrf (fst ex)))
      (trace (createEntity respond config serviceName entitySet body w))
  = [(POST, Some token)]
  /\ map (fun ex => (req_method (fst ex), req_csrf (fst ex)))
         (trace (updateEntity respond config serviceName entitySet keyValues body w))
     = [(PUT, Some token)]
  /\ map (fun ex => (req_method (fst ex), req_csrf (fst ex)))
         (trace (deleteEntity respond config serviceName entitySet keyValues w))
     = [(DELETE, Some token)].
Proof.
  intros Hc Ht Hne Hk. unfold keyPredicate in Hk.
  destruct (map_opt keyEntry keyValues) as [entries | ] eqn:He; [ | discriminate Hk ].
  assert (Hh : holds_token (session w) = true).
  { unfold holds_token. rewrite Ht. now destruct token. }
  repeat split; wp_start; unfold createEntity, updateEntity, deleteEntity;
    apply wp_bind, wp_ensureConnected; try congruence;
    intros _; wp_simpl; rewrite ?keyEntry_inline, ?He;
    repeat wp_step; cbn [map fst]; unfold requestInterceptor;
    cbn [req_method req_csrf mkRequest is_get negb]; rewrite Hh, Ht; reflexivity.
Qed.

(** *** The connected flag *)

Lemma got_app_l code (t1 t2 : list exchange) : got code t1 -> got code (t1 ++ t2).
Proof.
  intros (rq & r & Hin & Hs). exists rq, r. split; [ | exact Hs ].
  apply in_or_app. now left.
Qed.

Lemma got_app_r code (t1 t2 : list exchange) : got code t2 -> got code (t1 ++ t2).
Proof.
  intros (rq & r & Hin & Hs). exists rq, r. split; [ | exact Hs ].
  apply in_or_app. now right.
Qed.

Lemma steady_ret {A} (a : A) : steady (@ret Backend A a).
Proof. intros w _. reflexivity. Qed.

Lemma steady_throw {A} e : steady (@throw Backend A e).
Proof. intros w _. reflexivity. Qed.

Lemma steady_bind {A B} (m : M Backend A) (k : A -> M Backend B) :
  steady m -> (forall a, steady (k a)) -> steady (bind m k).
Proof.
  intros Hm Hk w. unfold bind.
  destruct (value (m w)) as [a | e]; cbn [final trace]; intros Hg.
  - rewrite (Hk a (final (m w))), (Hm w); auto using got_app_l, got_app_r.
  - now apply Hm.
Qed.

Lemma steady_try_catch {A} (m : M Backend A) handler :
  steady m -> (forall e, steady (handler e)) -> steady (try_catch m handler).
Proof.
  intros Hm Hh w. unfold try_catch.
  destruct (value (m w)) as [a | e]; cbn [final trace]; intros Hg.
  - now apply Hm.
  - rewrite (Hh e (final (m w))), (Hm w); auto using got_app_l, got_app_r.
Qed.

Lemma steady_send rq : steady (send respond rq).
Proof.
  intros w. wp_start. apply wp_send; intros; wp_simpl.
  - reflexivity.
  - rewrite onRejected_other; [reflexivity | ].
    cbn [status_is error_status]. destruct (status r =? 401) eqn:Hs; [ | reflexivity].
    exfalso. apply H1. eexists; eexists. split; [now left | ].
    now apply Z.eqb_eq.
  - reflexivity.
Qed.

Lemma steady_ensureConnected : steady (@ensureConnected Backend).
Proof.
  intros w _. unfold ensureConnected.
  destruct (negb (connected (session w))); reflexivity.
Qed.

Ltac steadiness :=
  repeat first
    [ apply steady_ensureConnected
    | apply steady_send
    | apply steady_ret
    | apply steady_throw
    | apply steady_bind; [ | intros ? ]
    | apply steady_try_catch; [ | intros ? ]
    | match goal with
      | |- steady (http_get _ _ _ _) => unfold http_get
      | |- steady (commonServicesTest _ _) => unfold commonServicesTest
      | |- steady (if ?c then _ else _) => destruct c
      | |- steady (match ?x with _ => _ end) => destruct x
      end ].

(** X5. Only an HTTP 401 disconnects a data operation: whatever else a data
    operation meets (success, 403, 404, 500, no answer, an unparsable
    document), it leaves the connected flag as it found it. *)
Theorem data_operation_keeps_connection (op : operation) (w : World Backend) :
  ~ got 401 (trace (perform respond parseXML config op w)) ->
  connected (session (final (perform respond parseXML config op w)))
  = connected (session w).
Proof.
  revert w. change (steady (perform respond parseXML config op)).
  destruct op; cbn [perform]; unfold_operations; steadiness.
Qed.

(** X6. [disconnect] never fails and sends nothing; it leaves the session
    cleared, doing it again changes nothing, and after it every data
    operation is refused with the "not connected" error and [isConnected]
    answers false, both without a request. *)
Theorem disconnect_is_final (w : World Backend) :
  value (disconnect w) = Ok tt
  /\ trace (disconnect w) = []
  /\ session (final (disconnect w)) = clearedSession
  /\ backend (final (disconnect w)) = backend w
  /\ disconnect (final (disconnect w))
     = {| value := Ok tt; final := final (disconnect w); trace := [] |}
  /\ (forall op,
         perform respond parseXML config op (final (disconnect w))
         = {| value := Throw notConnectedError; final := final (disconnect w);
              trace := [] |})
  /\ isConnected respond (final (disconnect w))
     = {| value := Ok false; final := final (disconnect w); trace := [] |}.
Proof.
  repeat split. intros op. now apply perform_not_connected.
Qed.

(** *** The requests and the verdict of [connect] *)

Ltac name_connect_trace csrf :=
  cbn [app];
  lazymatch goal with
  | |- exists fetchPart catalogEx probePart, ?e1 :: ?e2 :: ?rest = _ /\ _ =>
      lazymatch csrf with
      | true => exists [e1], e2, rest
      | false => exists [], e1, (e2 :: rest)
      end
  | |- exists fetchPart catalogEx probePart, [?e1] = _ /\ _ =>
      exists [], e1, []
  end.

(** X7. [connect] sends the token fetch exactly when CSRF handling is
    enabled, then the catalog request, then the bare probe exactly when the
    catalog request failed.  Its result depends on nothing but these last
    two: a catalog success is a success; otherwise a probe answered 2xx or
    404 is a success, 401 and 403 give the authentication and authorization
    errors, any other status gives [HTTP status: text] and no answer gives
    "No response received from server".  The token fetch never decides. *)
Theorem connect_requests_and_verdict (w : World Backend) :
  exists fetchPart catalogEx probePart,
    trace (connect respond config w) = fetchPart ++ catalogEx :: probePart
    /\ (if enableCSRF config
        then exists ex,
            fetchPart = [ex] /\ req_url (fst ex) = []
            /\ req_csrf (fst ex) = Some (lit "Fetch")
        else fetchPart = [])
    /\ req_url (fst catalogEx) = lit "../iwfnd/catalogservice;v=2/ServiceCollection"
    /\ (if succeeded (snd catalogEx)
        then probePart = [] /\ value (connect respond config w) = Ok tt
        else exists rq o,
            probePart = [(rq, o)] /\ isProbe rq
            /\ value (connect respond config w) = probeVerdict o).
Proof.
  wp_start. unfold connect, fetchCSRFToken.
  destruct (enableCSRF config) eqn:Hcsrf;
    [ repeat wp_step; name_connect_trace true
    | repeat wp_step; name_connect_trace false ];
    (split; [reflexivity | ]);
    (split; [first [reflexivity | eexists; repeat split;
                                  cbn [fst]; now rewrite requestInterceptor_get_csrf] | ]);
    (split; [reflexivity | ]);
    cbn [succeeded snd];
    repeat match goal with
           | H : validateStatus _ = _ |- _ => rewrite H
           end.
  all: try (split; reflexivity).
  all: eexists; eexists; (split; [reflexivity | ]); (split; [apply probe_on_wire | ]).
  all: unfold probeVerdict, connectFailure; cbn [status_is error_status] in *;
    repeat match goal with
           | H : validateStatus _ = _ |- _ => rewrite H
           | H : (status _ =? _) = _ |- _ => rewrite H
           end; cbn [orb].
  all: first [reflexivity | congruence].
Qed.

Lemma getErrorMessage_nonempty (e : jserror) : getErrorMessage e <> [].
Proof.
  destruct e as [r | | msg]; cbn; try discriminate.
  destruct msg; cbn; discriminate.
Qed.

(** The two ends of [connect], with the error its outer [catch] received. *)
Lemma connect_ends (w : World Backend) :
  (value (connect respond config w) = Ok tt
   /\ connected (session (final (connect respond config w))) = true)
  \/ (exists error,
         value (connect respond config w)
         = Throw (connectFailure (getErrorMessage error))
         /\ session (final (connect respond config w)) = clearedSession).
Proof.
  wp_start. unfold connect, fetchCSRFToken.
  destruct (enableCSRF config); repeat wp_step;
    first [ left; split; reflexivity
          | right; eexists; split; reflexivity ].
Qed.

(** X8. [connect] has two ends only: it returns with the connected flag set,
    or it throws an error whose message is "Failed to connect to SAP OData
    service: " followed by a non-empty cause and leaves the session cleared.
    It never returns disconnected and never fails half connected. *)
Theorem connect_connects_or_resets (w : World Backend) :
  (value (connect respond config w) = Ok tt
   /\ connected (session (final (connect respond config w))) = true)
  \/ (exists cause,
         cause <> []
         /\ value (connect respond config w) = Throw (connectFailure cause)
         /\ session (final (connect respond config w)) = clearedSession).
Proof.
  destruct (connect_ends w) as [Hok | (error & Hv & Hs)]; [now left | right].
  exists (getErrorMessage error). split; [apply getErrorMessage_nonempty | ].
  now split.
Qed.

(** *** Failures of the data operations *)







(** *** Query strings of the read operations *)

Lemma append_snoc name value p :
  URLSearchParams.append name value p = p ++ [(name, value)].
Proof. reflexivity. Qed.

Lemma list_step name (v : option (list jsstring)) p :
  match v with
  | Some l =>
      if (0 <? Z.of_nat (List.length l))
      then URLSearchParams.append (lit name) (join (lit ",") l) p
      else p
  | None => p
  end = p ++ optionalParam name (listValue v).
Proof.
  destruct v as [[ | x l] | ]; cbn [listValue optionalParam]; rewrite ?app_nil_r;
    reflexivity.
Qed.

Lemma text_step name (v : option jsstring) p :
  match v with
  | Some f => if nonempty f then URLSearchParams.append (lit name) f p else p
  | None => p
  end = p ++ optionalParam name (textValue v).
Proof.
  destruct v as [[ | c f] | ]; cbn [textValue optionalParam nonempty];
    rewrite ?app_nil_r; reflexivity.
Qed.

Lemma count_step name (v : option Z) p :
  match v with
  | Some n =>
      if negb (n =? 0)
      then URLSearchParams.append (lit name) (num_toString n) p
      else p
  | None => p
  end = p ++ optionalParam name (countValue v).
Proof.
  destruct v as [n | ]; cbn [countValue optionalParam]; [ | now rewrite app_nil_r ].
  destruct (n =? 0); cbn [negb optionalParam]; rewrite ?app_nil_r; reflexivity.
Qed.

Lemma queryParams_plan (o : ODataQueryOptions) :
  queryParams o
  = flat_map (fun p => optionalParam (fst p) (snd p)) (queryPlan o).
Proof.
  unfold queryParams. cbv zeta.
  rewrite (list_step "$expand"), (count_step "$skip"), (count_step "$top"),
    (text_step "$orderby"), (text_step "$filter"), (list_step "$select").
  cbn [queryPlan flat_map fst snd URLSearchParams.empty app].
  now rewrite app_nil_r, <- !app_assoc.
Qed.

Lemma join_nonempty sep (x : jsstring) l : x <> [] -> join sep (x :: l) <> [].
Proof.
  intros Hx. destruct l; cbn; [exact Hx | ].
  destruct x; [now destruct Hx | discriminate].
Qed.

Lemma querySuffix_nil_iff (p : URLSearchParams.t) : querySuffix p = [] <-> p = [].
Proof.
  split; [ | now intros -> ].
  destruct p as [ | [name value] rest]; [reflexivity | ].
  unfold querySuffix.
  assert (Hne : URLSearchParams.toString ((name, value) :: rest) <> []).
  { unfold URLSearchParams.toString. cbn [map]. apply join_nonempty.
    cbn [fst snd]. destruct (URLSearchParams.form_encode name); discriminate. }
  destruct (URLSearchParams.toString ((name, value) :: rest)); [now destruct Hne | ].
  discriminate.
Qed.

(** X10. The query parameters are built in one fixed order, [$select],
    [$filter], [$orderby], [$top], [$skip], [$expand], each at most once and
    exactly for the options that are truthy (lists joined by commas, counts
    in decimal), whatever the options are; and the URL requested is the bare
    [serviceName/entitySet], without a question mark, exactly when no option
    is truthy. *)
Theorem queryParams_in_fixed_order
    (serviceName entitySet : jsstring) (o : ODataQueryOptions) :
  queryParams o = flat_map (fun p => optionalParam (fst p) (snd p)) (queryPlan o)
  /\ subsequence (paramNames (queryParams o)) queryNames = true
  /\ (queryUrl serviceName entitySet o = serviceName ++ lit "/" ++ entitySet
      <-> Forall (fun p => snd p = None) (queryPlan o)).
Proof.
  split; [apply queryParams_plan | ]. split.
  - rewrite queryParams_plan. unfold queryPlan. cbn [flat_map fst snd].
    destruct (listValue (select o)), (textValue (filter o)),
      (textValue (orderby o)), (countValue (top o)), (countValue (skip o)),
      (listValue (expand o)); vm_compute; reflexivity.
  - unfold queryUrl. split.
    + intros Hu.
      assert (Hs : querySuffix (queryParams o) = []).
      { apply (app_inv_head (serviceName ++ lit "/" ++ entitySet)).
        rewrite app_nil_r, <- !app_assoc. exact Hu. }
      apply querySuffix_nil_iff in Hs. rewrite queryParams_plan in Hs.
      unfold queryPlan in *. cbn [flat_map fst snd] in Hs.
      destruct (listValue (select o)), (textValue (filter o)),
        (textValue (orderby o)), (countValue (top o)), (countValue (skip o)),
        (listValue (expand o)); try discriminate Hs.
      repeat constructor.
    + intros Hall. rewrite queryParams_plan. unfold queryPlan in *.
      repeat match goal with
             | H : Forall _ (_ :: _) |- _ =>
                 let Hh := fresh "Hh" in
                 apply Forall_cons_iff in H; destruct H as [Hh H];
                 cbn [snd] in Hh; rewrite Hh
             end.
      cbn. now rewrite app_nil_r.
Qed.

(** *** The remaining data operations *)


(** X11. [createEntity] on a connected client sends exactly one request, a
    POST of the given data to [serviceName/entitySet]; when it is answered
    2xx the call returns the response body as it came, otherwise it throws
    "Failed to create entity: " with the cause. *)
Theorem createEntity_posts_data
    (serviceName entitySet : jsstring) (body : jsval) (w : World Backend) :
  connected (session w) = true ->
  exists rq o,
    trace (createEntity respond config serviceName entitySet body w) = [(rq, o)]
    /\ req_method rq = POST
    /\ req_url rq = serviceName ++ lit "/" ++ entitySet
    /\ req_data rq = Some body
    /\ value (createEntity respond config serviceName entitySet body w)
       = match o with
         | Replied r =>
             if validateStatus (status r) then Ok (data r)
             else Throw (Error (lit "Failed to create entity: "
                                  ++ getErrorMessage (HttpError r)))
         | NoReply =>
             Throw (Error (lit "Failed to create entity: "
                             ++ getErrorMessage NoResponse))
         end.
Proof.
  intros Hc. wp_start. unfold createEntity.
  apply wp_bind, wp_ensureConnected; [intros _ | congruence]; wp_simpl.
  repeat wp_step; eexists; eexists; (split; [reflexivity | ]);
    repeat split;
    repeat match goal with
           | H : validateStatus _ = _ |- _ => rewrite H
           end; reflexivity.
Qed.


(** *** The request sequence of discovery *)

Lemma urls_app (t1 t2 : list exchange) : urls (t1 ++ t2) = urls t1 ++ urls t2.
Proof. unfold urls. apply map_app. Qed.

Lemma probeCommon_urls names found (w : World Backend) :
  urls (trace (probeCommon respond config names found w))
  = map (fun n => n ++ lit "/") names.
Proof.
  revert found w. induction names as [ | name names IH]; intros found w;
    [reflexivity | ].
  cbn [probeCommon]. wp_start. repeat wp_step; unfold wp; cbn [trace app];
    unfold urls in *; cbn [map fst req_url requestInterceptor mkRequest];
    now rewrite IH.
Qed.

Lemma commonServicesTest_urls (w : World Backend) :
  urls (trace (commonServicesTest respond config w))
  = map (fun n => n ++ lit "/") commonServices.
Proof.
  unfold commonServicesTest, bind.
  destruct (probeCommon_run commonServices [] w) as (hits & _ & Hv & _ & _).
  rewrite Hv. cbn [trace].
  match goal with
  | |- urls (_ ++ trace ((if ?c then _ else _) _)) = _ => destruct c
  end; cbn [trace ret]; rewrite app_nil_r; apply probeCommon_urls.
Qed.

Lemma tryCatalog_sequence paths otherwise (w : World Backend) :
  (exists k list,
      (0 < k <= List.length paths)%nat
      /\ urls (trace (tryCatalog respond config paths otherwise w)) = firstn k paths
      /\ value (tryCatalog respond config paths otherwise w) = Ok list
      /\ source list = Some (lit "gateway_catalog")
      /\ catalogUrl list = nth_error paths (k - 1))
  \/ (exists w' t,
         urls t = paths
         /\ tryCatalog respond config paths otherwise w
            = {| value := value (otherwise w'); final := final (otherwise w');
                 trace := t ++ trace (otherwise w') |}).
Proof.
  revert w. induction paths as [ | path paths IH]; intros w.
  - right. exists w, []. split; [reflexivity | ]. cbn [tryCatalog app].
    now destruct (otherwise w).
  - rewrite tryCatalog_unfold. cbv zeta.
    destruct (tryCatalogPath_run path w) as (wire & o & b & Ht & E & Hu & Hb & Hv).
    rewrite Hv, Ht.
    destruct (match o with Replied _ => _ | NoReply => _ end) as [list | ] eqn:Hl.
    + left. exists 1%nat, list. cbn [value trace app urls map fst firstn].
      split; [cbn; lia | ]. split; [now rewrite Hu | ]. split; [reflexivity | ].
      destruct o as [r | ]; [ | discriminate Hl ].
      destruct (_ && _); [ | discriminate Hl ].
      destruct (array_map _ _); [ | discriminate Hl ].
      injection Hl as <-. split; reflexivity.
    + destruct (IH (final (tryCatalogPath respond config path w)))
        as [(k & list & Hk & Hurls & Hval & Hsrc & Hcat) | (w' & t & Hurls & Hrun)].
      * left. exists (S k), list. cbn [value trace].
        split; [cbn; lia | ].
        split; [unfold urls in *; cbn [app map fst firstn]; now rewrite Hu, Hurls | ].
        split; [exact Hval | ]. split; [exact Hsrc | ].
        rewrite Hcat. destruct k as [ | k]; [lia | ].
        cbn [Nat.sub nth_error]. now rewrite Nat.sub_0_r.
      * right. exists w', ((wire, o) :: t).
        split; [unfold urls in *; cbn [map fst]; now rewrite Hu, Hurls | ].
        rewrite Hrun. reflexivity.
Qed.

(** X14. Discovery is strictly sequential and bounded.  On a connected
    client [getServices] requests the catalog paths in their order and
    stops at the first that yields services, having sent between one and
    four requests; only when all four have been tried does it probe the
    common service names, and then it probes all nine, in order, for
    thirteen requests in all. *)
Theorem getServices_request_sequence (w : World Backend) :
  connected (session w) = true ->
  (exists k list,
      (0 < k <= 4)%nat
      /\ urls (trace (getServices respond config w)) = firstn k catalogPaths
      /\ value (getServices respond config w) = Ok list
      /\ source list = Some (lit "gateway_catalog")
      /\ catalogUrl list = nth_error catalogPaths (k - 1))
  \/ (exists list,
         urls (trace (getServices respond config w))
         = catalogPaths ++ map (fun n => n ++ lit "/") commonServices
         /\ value (getServices respond config w) = Ok list
         /\ source list <> Some (lit "gateway_catalog")
         /\ catalogUrl list = None).
Proof.
  intros Hc. destruct (getServices_run w Hc) as [Hval Htr]. rewrite Hval, Htr.
  destruct (tryCatalog_sequence catalogPaths (commonServicesTest respond config) w)
    as [(k & list & Hk & Hurls & Hv & Hsrc & Hcat) | (w' & t & Hurls & Hrun)].
  - left. now exists k, list.
  - right. rewrite Hrun. cbn [value trace].
    destruct (commonServicesTest_run w') as (hits & _ & _ & _ & Hv).
    eexists. split; [ | split; [exact Hv | ] ].
    + now rewrite urls_app, Hurls, commonServicesTest_urls.
    + destruct hits; cbn; split; try reflexivity; discriminate.
Qed.

(** *** The token handshake *)

Lemma onFulfilled_token_stored s r t :
  x_csrf_token r = Some t -> t <> [] -> t <> lit "Required" ->
  csrfToken (onFulfilled s r) = Some t.
Proof.
  intros Hx Hne Hreq. unfold onFulfilled. cbn [csrfToken]. rewrite Hx.
  destruct t; [now destruct Hne | ]. cbn [nonempty andb]. unfold str_eqb.
  now destruct (list_eq_dec Z.eq_dec (z :: t) (lit "Required")).
Qed.

Lemma onFulfilled_token_kept s r :
  x_csrf_token r = None -> csrfToken (onFulfilled s r) = csrfToken s.
Proof. intros Hx. unfold onFulfilled. cbn [csrfToken]. now rewrite Hx. Qed.

Lemma createEntity_wire serviceName entitySet body (w : World Backend) :
  connected (session w) = true ->
  exists o,
    trace (createEntity respond config serviceName entitySet body w)
    = [(requestInterceptor (session w)
          (mkRequest POST (serviceName ++ lit "/" ++ entitySet) "application/json"
             None (timeout config) (Some body)), o)].
Proof.
  intros Hc. wp_start. unfold createEntity.
  apply wp_bind, wp_ensureConnected; [intros _ | congruence]; wp_simpl.
  repeat wp_step; eexists; reflexivity.
Qed.

(** X15. The CSRF handshake works end to end.  With CSRF handling enabled,
    when the token fetch of [connect] is answered 2xx with a token (not
    empty, not [Required]) and the catalog request is answered 2xx without
    a token of its own, [connect] succeeds holding that token, and the POST
    of the [createEntity] that follows carries it in [X-CSRF-Token]. *)
Theorem csrf_handshake
    (serviceName entitySet : jsstring) (body : jsval) (w : World Backend)
    (r1 r2 : response) (b1 b2 : Backend) (token : jsstring) :
  enableCSRF config = true ->
  respond (backend w)
    (requestInterceptor (session w)
       (mkRequest GET [] "application/xml" (Some (lit "Fetch")) (timeout config)
          None)) = (Replied r1, b1) ->
  validateStatus (status r1) = true ->
  x_csrf_token r1 = Some token -> token <> [] -> token <> lit "Required" ->
  respond b1
    (requestInterceptor (onFulfilled (session w) r1)
       (mkRequest GET (lit "../iwfnd/catalogservice;v=2/ServiceCollection")
          "application/json" None 10000 None)) = (Replied r2, b2) ->
  validateStatus (status r2) = true ->
  x_csrf_token r2 = None ->
  value (connect respond config w) = Ok tt
  /\ csrfToken (session (final (connect respond config w))) = Some token
  /\ map (fun ex => (req_method (fst ex), req_csrf (fst ex)))
         (trace (createEntity respond config serviceName entitySet body
                   (final (connect respond config w))))
     = [(POST, Some token)].
Proof.
  intros Hcsrf E1 V1 X1 Hne Hreq E2 V2 X2.
  assert (Hrun : value (connect respond config w) = Ok tt
                 /\ connected (session (final (connect respond config w))) = true
                 /\ csrfToken (session (final (connect respond config w)))
                    = Some token).
  { wp_start. unfold connect, fetchCSRFToken. rewrite Hcsrf.
    repeat wp_step;
      repeat match goal with
             | H : respond _ _ = _ |- _ =>
                 cbn [session backend] in H;
                 first [rewrite E1 in H | rewrite E2 in H];
                 first [discriminate H | injection H as ? ?; subst]
             end;
      try congruence.
    repeat split. cbn [csrfToken].
    rewrite onFulfilled_token_kept by assumption.
    now apply onFulfilled_token_stored. }
  destruct Hrun as (Hv & Hc & Ht). split; [exact Hv | ]. split; [exact Ht | ].
  destruct (createEntity_wire serviceName entitySet body _ Hc) as (o & ->).
  cbn [map fst]. unfold requestInterceptor, holds_token.
  cbn [req_method req_csrf mkRequest is_get negb]. rewrite Ht.
  now destruct token.
Qed.

End Properties.


(* ------------------------------------------------------------------ *)
(** ** Properties of the tool handlers *)

Module HandlerProperties.
Import SAPODataHandlers.

Section Handlers.

Variable Backend : Type.
Variable respond : Backend -> request -> outcome * Backend.
Variable parseXML : jsval -> jsstring + jsval.
Variable parseConfig : jsval -> jsstring + SAPODataConfig.
Variable readError : jsval -> string -> jsstring.
Variable entriesError : jsstring.
Variable axiosMessage : jserror -> jsstring.

Notation handleTool := (handle respond parseXML readError entriesError axiosMessage).

Lemma andThen_Throw {A B} (m : H Backend A) (k : A -> H Backend B) h e :
  returned (m h) = Throw e ->
  andThen m k h
  = {| returned := Throw e; after := after (m h); exchanged := exchanged (m h) |}.
Proof. unfold andThen. intros ->. reflexivity. Qed.

Lemma andThen_Ok {A B} (m : H Backend A) (k : A -> H Backend B) h a :
  returned (m h) = Ok a ->
  andThen m k h
  = {| returned := returned (k a (after (m h)));
       after := after (k a (after (m h)));
       exchanged := exchanged (m h) ++ exchanged (k a (after (m h))) |}.
Proof. unfold andThen. intros ->. reflexivity. Qed.

(** *** Rules for the errors and the exchanges of a handler *)

Lemma andThen_throws {A B} (m : H Backend A) (k : A -> H Backend B) h e :
  returned (andThen m k h) = Throw e ->
  returned (m h) = Throw e
  \/ exists a, returned (m h) = Ok a /\ returned (k a (after (m h))) = Throw e.
Proof.
  unfold andThen. destruct (returned (m h)) as [a | e0]; cbn; intros He.
  - right. exists a. now split.
  - left. congruence.
Qed.

Lemma andThen_exchanged {A B} (m : H Backend A) (k : A -> H Backend B) h :
  exchanged (andThen m k h)
  = exchanged (m h)
    ++ match returned (m h) with
       | Ok a => exchanged (k a (after (m h)))
       | Throw _ => []
       end.
Proof.
  unfold andThen. destruct (returned (m h)); cbn; now rewrite ?app_nil_r.
Qed.

Lemma arg_run args name (h : Handlers Backend) :
  arg readError args name h
  = {| returned := match get args name with
                   | Some v => Ok v
                   | None => Throw (Error (readError args name))
                   end;
       after := h; exchanged := [] |}.
Proof. unfold arg. now destruct (get args name). Qed.

Lemma payload_run result (h : Handlers Backend) :
  payload readError result h
  = {| returned := match get result "d" with
                   | Some d => Ok (or_else d result)
                   | None => Throw (Error (readError result "d"))
                   end;
       after := h; exchanged := [] |}.
Proof. unfold payload. now destruct (get result "d"). Qed.

Section Rules.

Variable Pre : Handlers Backend -> Prop.
Variable E : jserror -> Prop.
Hypothesis reads : forall v name, E (Error (readError v name)).

Lemma throws_pure {A} (a : A) : throwsWithin Pre E (@pure Backend A a).
Proof. intros h e _. discriminate. Qed.

Lemma throws_arg {B} args name (k : jsval -> H Backend B) :
  (forall v, get args name = Some v -> throwsWithin Pre E (k v)) ->
  throwsWithin Pre E (andThen (arg readError args name) k).
Proof.
  intros Hk h e Hpre He. apply andThen_throws in He.
  rewrite arg_run in He. cbn in He.
  destruct (get args name) as [v | ] eqn:Hg.
  - destruct He as [He | (a & [= <-] & He)]; [discriminate | ].
    exact (Hk v eq_refl h e Hpre He).
  - destruct He as [[= <-] | (a & He & _)]; [apply reads | discriminate].
Qed.

Lemma throws_payload {B} result (k : jsval -> H Backend B) :
  (forall v, throwsWithin Pre E (k v)) ->
  throwsWithin Pre E (andThen (payload readError result) k).
Proof.
  intros Hk h e Hpre He. apply andThen_throws in He.
  rewrite payload_run in He. cbn in He.
  destruct (get result "d") as [d | ].
  - destruct He as [He | (a & [= <-] & He)]; [discriminate | ].
    exact (Hk _ h e Hpre He).
  - destruct He as [[= <-] | (a & He & _)]; [apply reads | discriminate].
Qed.

End Rules.

Lemma throws_onClient {A B} (E : jserror -> Prop) method
    (op : SAPODataConfig -> M Backend A) (k : A -> H Backend B) :
  (forall cfg w e,
      connected (session w) = true -> value (op cfg w) = Throw e -> E e) ->
  (forall a, throwsWithin (fun _ => True) E (k a)) ->
  throwsWithin live E (andThen (onClient readError method op) k).
Proof.
  intros Hop Hk h e (c & Hs & Hc) He. apply andThen_throws in He.
  unfold onClient in He. rewrite Hs in He. cbn in He.
  destruct He as [He | (a & _ & He)].
  - now apply (Hop (clientConfig c) {| session := clientSession c; backend := network h |}).
  - exact (Hk a _ e I He).
Qed.

Lemma sends_pure {A} (a : A) : sendsAtMost 0 (@pure Backend A a).
Proof. intros h. apply Nat.le_refl. Qed.

Lemma sends_arg {B} n args name (k : jsval -> H Backend B) :
  (forall v, sendsAtMost n (k v)) ->
  sendsAtMost n (andThen (arg readError args name) k).
Proof.
  intros Hk h. rewrite andThen_exchanged, arg_run. cbn.
  destruct (get args name) as [v | ]; [apply Hk | apply Nat.le_0_l].
Qed.

Lemma sends_payload {B} n result (k : jsval -> H Backend B) :
  (forall v, sendsAtMost n (k v)) ->
  sendsAtMost n (andThen (payload readError result) k).
Proof.
  intros Hk h. rewrite andThen_exchanged, payload_run. cbn.
  destruct (get result "d") as [d | ]; [apply Hk | apply Nat.le_0_l].
Qed.

Lemma sends_onClient {A B} n method
    (op : SAPODataConfig -> M Backend A) (k : A -> H Backend B) :
  (forall cfg w, (List.length (trace (op cfg w)) <= n)%nat) ->
  (forall a, sendsAtMost 0 (k a)) ->
  sendsAtMost n (andThen (onClient readError method op) k).
Proof.
  intros Hop Hk h. rewrite andThen_exchanged, length_app.
  assert (H1 : (List.length (exchanged (onClient readError method op h)) <= n)%nat).
  { unfold onClient. destruct (sapClient h); [apply Hop | apply Nat.le_0_l]. }
  destruct (returned (onClient readError method op h)) as [a | ]; cbn.
  - specialize (Hk a (after (onClient readError method op h))). lia.
  - lia.
Qed.

(** *** The client operations as the handlers call them *)

Lemma operation_throws {A} (body : M Backend A) prefix w e :
  connected (session w) = true ->
  value (bind SAPODataClient.ensureConnected
           (fun _ => try_catch body
                       (fun error => throw (Error (prefix ++ getErrorMessage error))))
           w) = Throw e ->
  exists cause, e = Error (prefix ++ cause).
Proof.
  intros Hc. unfold bind, SAPODataClient.ensureConnected. rewrite Hc. cbn.
  unfold try_catch. destruct (body w) as [[a | e0] w' t]; cbn; [discriminate | ].
  intros [= <-]. eauto.
Qed.

Lemma operation_trace {A} (body : M Backend A) handler w :
  (forall w', (List.length (trace (body w')) <= 1)%nat) ->
  (forall e w', trace (handler e w') = []) ->
  (List.length
     (trace (bind SAPODataClient.ensureConnected
               (fun _ => try_catch body handler) w)) <= 1)%nat.
Proof.
  intros Hb Hh. unfold bind, SAPODataClient.ensureConnected.
  destruct (negb (connected (session w))); cbn; [lia | ].
  unfold try_catch. specialize (Hb w).
  destruct (body w) as [[a | e0] w' t]; cbn in *; [exact Hb | ].
  rewrite length_app, Hh. cbn. lia.
Qed.

Lemma send_trace rq (w : World Backend) :
  List.length (trace (send respond rq w)) = 1%nat.
Proof.
  unfold send. destruct (respond _ _) as [[resp | ] b]; [ | reflexivity].
  now destruct (validateStatus (status resp)).
Qed.

Lemma send_then_trace {A} rq (k : response -> A) (w : World Backend) :
  (List.length (trace (bind (send respond rq) (fun r => ret (k r)) w)) <= 1)%nat.
Proof.
  unfold bind. pose proof (send_trace rq w) as Hs.
  destruct (send respond rq w) as [[r | e0] w' t]; cbn in *; rewrite ?app_nil_r; lia.
Qed.

Ltac operation_facts :=
  intros;
  lazymatch goal with
  | H : value _ = Throw _ |- exists cause, _ = Error (_ ++ cause) =>
      eapply operation_throws; [eassumption | exact H]
  | |- (List.length (trace _) <= 1)%nat =>
      apply operation_trace;
      [ intros;
        repeat lazymatch goal with
               | |- context [match ?x with _ => _ end] => destruct x
               end;
        first [ apply send_then_trace | apply Nat.le_0_l ]
      | reflexivity ]
  end.

Lemma getServiceMetadata_facts cfg serviceName (w : World Backend) :
  (forall e, connected (session w) = true ->
             value (getServiceMetadata respond parseXML cfg serviceName w) = Throw e ->
             exists cause, e = Error (lit "Failed to get service metadata: " ++ cause))
  /\ (List.length (trace (getServiceMetadata respond parseXML cfg serviceName w)) <= 1)%nat.
Proof.
  split; [operation_facts | ].
  apply operation_trace; [ | reflexivity].
  intros w'. unfold bind, http_get. pose proof (send_trace
    (mkRequest GET (serviceName ++ lit "/$metadata") "application/xml" None
       (timeout cfg) None) w') as Hs.
  destruct (send respond _ w') as [[r | e0] w'' t]; cbn in *; [ | lia].
  destruct (parseXML (data r)); cbn; rewrite app_nil_r; lia.
Qed.

Lemma getEntity_facts cfg serviceName entitySet keyValues (w : World Backend) :
  (forall e, connected (session w) = true ->
             value (getEntity respond cfg serviceName entitySet keyValues w) = Throw e ->
             exists cause, e = Error (lit "Failed to get entity: " ++ cause))
  /\ (List.length (trace (getEntity respond cfg serviceName entitySet keyValues w)) <= 1)%nat.
Proof. split; operation_facts. Qed.

Lemma createEntity_facts cfg serviceName entitySet body (w : World Backend) :
  (forall e, connected (session w) = true ->
             value (createEntity respond cfg serviceName entitySet body w) = Throw e ->
             exists cause, e = Error (lit "Failed to create entity: " ++ cause))
  /\ (List.length (trace (createEntity respond cfg serviceName entitySet body w)) <= 1)%nat.
Proof. split; operation_facts. Qed.

Lemma updateEntity_facts cfg serviceName entitySet keyValues body (w : World Backend) :
  (forall e, connected (session w) = true ->
             value (updateEntity respond cfg serviceName entitySet keyValues body w)
             = Throw e ->
             exists cause, e = Error (lit "Failed to update entity: " ++ cause))
  /\ (List.length
        (trace (updateEntity respond cfg serviceName entitySet keyValues body w)) <= 1)%nat.
Proof. split; operation_facts. Qed.

Lemma deleteEntity_facts cfg serviceName entitySet keyValues (w : World Backend) :
  (forall e, connected (session w) = true ->
             value (deleteEntity respond cfg serviceName entitySet keyValues w) = Throw e ->
             exists cause, e = Error (lit "Failed to delete entity: " ++ cause))
  /\ (List.length
        (trace (deleteEntity respond cfg serviceName entitySet keyValues w)) <= 1)%nat.
Proof. split; operation_facts. Qed.

Lemma callFunction_facts cfg serviceName functionName parameters (w : World Backend) :
  (forall e, connected (session w) = true ->
             value (callFunction respond cfg serviceName functionName parameters w)
             = Throw e ->
             exists cause,
               e = Error ((lit "Failed to call function " ++ functionName ++ lit ": ")
                            ++ cause))
  /\ (List.length
        (trace (callFunction respond cfg serviceName functionName parameters w)) <= 1)%nat.
Proof.
  split; [ | operation_facts].
  intros e Hc. unfold callFunction, bind at 1, SAPODataClient.ensureConnected.
  rewrite Hc. cbn [negb value final trace ret app].
  unfold try_catch.
  match goal with
  | |- context [match value ?r with _ => _ end] => destruct r as [[a | e0] w' t]
  end; cbn; [discriminate | ].
  intros [= <-]. eexists. now rewrite <- !app_assoc.
Qed.

Lemma keyed_facts {A} prefix (op : list (jsstring * jsval) -> M Backend A) keyValues w :
  (forall entries,
      (forall e, connected (session w) = true ->
                 value (op entries w) = Throw e ->
                 exists cause, e = Error (prefix ++ cause))
      /\ (List.length (trace (op entries w)) <= 1)%nat) ->
  (forall e, connected (session w) = true ->
             value (keyed entriesError prefix op keyValues w) = Throw e ->
             exists cause, e = Error (prefix ++ cause))
  /\ (List.length (trace (keyed entriesError prefix op keyValues w)) <= 1)%nat.
Proof.
  intros Hop. unfold keyed. destruct (entriesOf keyValues) as [entries | ].
  - apply Hop.
  - split.
    + intros e Hc. unfold bind, SAPODataClient.ensureConnected. rewrite Hc. cbn.
      intros [= <-]. eauto.
    + unfold bind, SAPODataClient.ensureConnected.
      destruct (negb (connected (session w))); cbn; lia.
Qed.

(** *** The shape every data tool has *)

Ltac body_throws :=
  repeat (apply throws_arg; [intros; left; eauto | intros ? ? ]);
  apply throws_onClient;
  [ intros cfg w e Hc He; right
  | intros;
    repeat first [ apply throws_payload; [intros; left; eauto | intros]
                 | apply throws_pure ] ].

Ltac body_sends :=
  repeat (apply sends_arg; intros ?);
  apply sends_onClient;
  [ intros cfg w
  | intros;
    repeat first [ apply sends_payload; intros | apply sends_pure ] ].

Lemma handle_shape tool args :
  exists body handler,
    handleTool tool args
    = andThen (requireLiveSession respond readError)
        (fun _ => attempt body handler)
    /\ (forall e h',
           exchanged (handler e h') = []
           /\ (returned (handler e h')
               = Throw (Error (toolPrefix tool args ++ errorMessageOf axiosMessage e))
               \/ (tool = CallFunctionTool /\ get args "functionName" = None
                   /\ returned (handler e h')
                      = Throw (Error (readError args "functionName")))))
    /\ throwsWithin live (bodyError readError (toolPrefix tool args)) body
    /\ sendsAtMost 1 body.
Proof.
  destruct tool; cbn [handle toolPrefix];
    unfold handleGetServiceMetadata, handleGetEntity, handleCreateEntity,
      handleUpdateEntity, handleDeleteEntity, handleCallFunction;
    eexists; eexists; (split; [reflexivity | ]); (split; [ | split ]).
  all: try (intros e h'; split; [reflexivity | left; reflexivity]).
  - body_throws. eapply getServiceMetadata_facts; eassumption.
  - body_sends. apply getServiceMetadata_facts.
  - body_throws.
    eapply keyed_facts; [ | eassumption | eassumption ].
    intros entries. apply getEntity_facts.
  - body_sends. apply keyed_facts. intros entries. apply getEntity_facts.
  - body_throws. eapply createEntity_facts; eassumption.
  - body_sends. apply createEntity_facts.
  - body_throws.
    eapply keyed_facts; [ | eassumption | eassumption ].
    intros entries. apply updateEntity_facts.
  - body_sends. apply keyed_facts. intros entries. apply updateEntity_facts.
  - body_throws.
    eapply keyed_facts; [ | eassumption | eassumption ].
    intros entries. apply deleteEntity_facts.
  - body_sends. apply keyed_facts. intros entries. apply deleteEntity_facts.
  - intros e h'. rewrite andThen_exchanged, arg_run. unfold andThen.
    rewrite arg_run. unfold opt_get.
    destruct (get args "functionName") as [fn | ] eqn:Hf; cbn.
    + split; [reflexivity | left]. now rewrite <- !app_assoc.
    + split; [reflexivity | right]. repeat split.
  - body_throws.
    match goal with
    | Hf : get args "functionName" = Some _ |- _ => unfold opt_get; rewrite Hf
    end.
    eapply keyed_facts; [ | eassumption | eassumption ].
    intros entries. apply callFunction_facts.
  - body_sends. apply keyed_facts. intros entries. apply callFunction_facts.
Qed.

Lemma requireLiveSession_no_client h :
  sapClient h = None ->
  requireLiveSession respond readError h
  = {| returned := Throw notConnected; after := h; exchanged := [] |}.
Proof.
  intros Hn. unfold requireLiveSession, andThen, ensureConnected. now rewrite Hn.
Qed.

(** X16. Without a client, that is before any [sap_connect] and after
    [sap_disconnect], each of [handleGetServiceMetadata], [handleGetEntity],
    [handleCreateEntity], [handleUpdateEntity], [handleDeleteEntity] and
    [handleCallFunction] throws "Not connected to SAP OData service. Use
    sap_connect first.", sends nothing and leaves the handler object as it
    was; and so does any handler body placed behind the same two opening
    statements. *)
Theorem tools_need_a_client (tool : dataTool) (args : jsval) (h : Handlers Backend) :
  sapClient h = None ->
  handleTool tool args h
  = {| returned :=
         Throw (Error (lit "Not connected to SAP OData service. Use sap_connect first."));
       after := h; exchanged := [] |}
  /\ forall rest : H Backend ToolResult,
       andThen (requireLiveSession respond readError) (fun _ => rest) h
       = {| returned :=
              Throw (Error (lit "Not connected to SAP OData service. Use sap_connect first."));
            after := h; exchanged := [] |}.
Proof.
  intros Hn.
  assert (Hopen : forall rest : H Backend ToolResult,
             andThen (requireLiveSession respond readError) (fun _ => rest) h
             = {| returned := Throw notConnected; after := h; exchanged := [] |}).
  { intros rest. rewrite (andThen_Throw _ _ _ notConnected);
      now rewrite requireLiveSession_no_client. }
  split; [ | exact Hopen].
  destruct (handle_shape tool args) as (body & handler & -> & _). apply Hopen.
Qed.


Lemma isConnected_idle (w : World Backend) :
  connected (session w) = false ->
  isConnected respond w = {| value := Ok false; final := w; trace := [] |}.
Proof. intros Hc. unfold isConnected. now rewrite Hc. Qed.


Lemma requireLiveSession_client h c :
  sapClient h = Some c ->
  let r := isConnected respond (worldOf c (network h)) in
  requireLiveSession respond readError h
  = {| returned := match value r with
                   | Ok true => Ok tt
                   | Ok false => Throw connectionLost
                   | Throw e => Throw e
                   end;
       after := holding (clientConfig c) (final r);
       exchanged := trace r |}.
Proof.
  intros Hs. cbv zeta.
  unfold requireLiveSession, andThen, ensureConnected, onClient, worldOf, holding.
  rewrite Hs. cbn -[isConnected]. rewrite Hs.
  destruct (value (isConnected respond _)) as [[ | ] | e]; cbn -[isConnected];
    rewrite ?app_nil_r; reflexivity.
Qed.


(** X17. With a client whose connected flag is not set (never connected, a
    failed connect, or invalidated by an earlier failure), each of
    [handleGetServiceMetadata], [handleGetEntity], [handleCreateEntity],
    [handleUpdateEntity], [handleDeleteEntity] and [handleCallFunction]
    throws "SAP OData connection lost. Please reconnect using sap_connect."
    without sending a single request, and leaves the handler object as it
    was; and so does any handler body placed behind the same two opening
    statements. *)
Theorem tools_refuse_dead_session
    (tool : dataTool) (args : jsval) (h : Handlers Backend) (c : Client) :
  sapClient h = Some c ->
  connected (clientSession c) = false ->
  handleTool tool args h
  = {| returned :=
         Throw (Error (lit "SAP OData connection lost. Please reconnect using sap_connect."));
       after := h; exchanged := [] |}
  /\ forall rest : H Backend ToolResult,
       andThen (requireLiveSession respond readError) (fun _ => rest) h
       = {| returned :=
              Throw (Error (lit "SAP OData connection lost. Please reconnect using sap_connect."));
            after := h; exchanged := [] |}.
Proof.
  intros Hs Hc.
  assert (Hr : requireLiveSession respond readError h
               = {| returned := Throw connectionLost; after := h; exchanged := [] |}).
  { rewrite (requireLiveSession_client h c Hs). cbv zeta.
    rewrite isConnected_idle by exact Hc. cbn.
    destruct h as [client net], c as [cfg s]. cbn in *. now rewrite Hs. }
  assert (Hopen : forall rest : H Backend ToolResult,
             andThen (requireLiveSession respond readError) (fun _ => rest) h
             = {| returned := Throw connectionLost; after := h; exchanged := [] |}).
  { intros rest. rewrite (andThen_Throw _ _ _ connectionLost); now rewrite Hr. }
  split; [ | exact Hopen].
  destruct (handle_shape tool args) as (body & handler & -> & _). apply Hopen.
Qed.

(** X18. [handleDisconnect] never throws and never talks to the backend; it
    leaves no client behind, so that any data tool called next is refused as
    not connected, again without a request. *)
Theorem handleDisconnect_clears_client (h : Handlers Backend) :
  let o := handleDisconnect readError axiosMessage h in
  (exists r, returned o = Ok r)
  /\ exchanged o = []
  /\ after o = {| sapClient := None; network := network h |}
  /\ forall tool args,
       handleTool tool args (after o)
       = {| returned := Throw notConnected; after := after o; exchanged := [] |}.
Proof.
  cbv zeta.
  assert (Ha : after (handleDisconnect readError axiosMessage h)
               = {| sapClient := None; network := network h |}).
  { unfold handleDisconnect. destruct h as [[c | ] net]; reflexivity. }
  split; [ | split; [ | split ] ].
  - destruct h as [[c | ] net]; eexists; reflexivity.
  - destruct h as [[c | ] net]; reflexivity.
  - exact Ha.
  - intros tool args. rewrite Ha.
    destruct (handle_shape tool args) as (body & handler & -> & _).
    rewrite (andThen_Throw _ _ _ notConnected);
      now rewrite requireLiveSession_no_client.
Qed.

(** What the probe of [isConnected] does on a client whose flag is set. *)
Lemma isConnected_probe (w : World Backend) :
  connected (session w) = true ->
  let o := fst (respond (backend w) (probeOf (session w))) in
  exists s',
    isConnected respond w
    = {| value := Ok (alive o);
         final := {| session := s';
                     backend := snd (respond (backend w) (probeOf (session w))) |};
         trace := [(probeOf (session w), o)] |}
    /\ connected s' = alive o
    /\ csrfToken s' = csrfToken (sessionAfter (session w) o).
Proof.
  intros Hc. cbv zeta. unfold isConnected, probeOf, alive, sessionAfter.
  rewrite Hc. cbn [negb].
  unfold try_catch, bind, http_get, send.
  destruct (respond (backend w) _) as [[resp | ] b]; cbn -[requestInterceptor].
  - destruct (validateStatus (status resp)) eqn:Hv; cbn -[requestInterceptor].
    + eexists. split; [reflexivity | ]. split; [exact Hc | reflexivity].
    + unfold status_is. cbn -[requestInterceptor].
      destruct (Z.eqb_spec (status resp) 404) as [E | E]; cbn -[requestInterceptor].
      * eexists. split; [reflexivity | ]. split; [ | reflexivity].
        unfold onRejected, status_is. cbn.
        destruct (Z.eqb_spec (status resp) 401); [lia | exact Hc].
      * destruct ((status resp =? 401) || (status resp =? 403));
          cbn -[requestInterceptor];
          eexists; (split; [reflexivity | ]); split; reflexivity.
  - eexists. split; [reflexivity | ]. split; reflexivity.
Qed.

(** X19. [handleConnectionStatus] never throws.  Without a client it
    returns the "No SAP OData connection established" text, sends nothing
    and changes nothing.  With a client whose flag is not set it sends
    nothing; with one whose flag is set it sends the probe of the base URL
    and nothing else.  The report it returns says "Connected" exactly when
    the flag was set and the probe was answered 2xx or 404, and otherwise
    "Disconnected" with the closing note; it lists the base URL, the user
    name, the client or "Not specified", the timeout, whether CSRF handling
    is enabled, and whether the client holds a token after the probe.  The
    flag the client is left with is the status reported. *)
Theorem handleConnectionStatus_reports_flag (h : Handlers Backend) :
  let o := handleConnectionStatus respond readError axiosMessage h in
  match sapClient h with
  | None =>
      o = {| returned :=
               Ok {| text := lit "No SAP OData connection established. Use sap_connect to connect to an SAP OData service.";
                     rawData := NoData |};
             after := h; exchanged := [] |}
  | Some c =>
      let answer := fst (respond (network h) (probeOf (clientSession c))) in
      let up := connected (clientSession c) && alive answer in
      exchanged o
      = (if connected (clientSession c)
         then [(probeOf (clientSession c), answer)] else [])
      /\ exists c',
          sapClient (after o) = Some c'
          /\ clientConfig c' = clientConfig c
          /\ connected (clientSession c') = up
          /\ returned o
             = Ok {| text :=
                       lit "SAP OData Connection Status:" ++ [10; 10]
                       ++ lit "Status: "
                       ++ (if up then [0x2705] ++ lit " Connected"
                           else [0x274C] ++ lit " Disconnected") ++ [10]
                       ++ lit "Base URL: " ++ baseUrl (clientConfig c) ++ [10]
                       ++ lit "Username: " ++ username (clientConfig c) ++ [10]
                       ++ lit "Client: "
                       ++ match client (clientConfig c) with
                          | Some (u :: name) => u :: name
                          | _ => lit "Not specified"
                          end ++ [10]
                       ++ lit "Timeout: " ++ num_toString (timeout (clientConfig c))
                       ++ lit "ms" ++ [10]
                       ++ lit "CSRF Enabled: "
                       ++ (if enableCSRF (clientConfig c) then lit "true"
                           else lit "false") ++ [10]
                       ++ lit "CSRF Token: "
                       ++ match csrfToken (clientSession c') with
                          | Some (_ :: _) => lit "Available"
                          | _ => lit "Not available"
                          end ++ [10]
                       ++ (if up then []
                           else [10] ++ lit "Note: Connection appears to be lost. Use sap_connect to reconnect.");
                     rawData := NoData |}
  end.
Proof.
  cbv zeta. unfold handleConnectionStatus.
  destruct (sapClient h) as [c | ] eqn:Hs; [ | reflexivity].
  unfold attempt, andThen, onClient. rewrite Hs.
  assert (Hrun : exists s' b',
             isConnected respond {| session := clientSession c; backend := network h |}
             = {| value :=
                    Ok (connected (clientSession c)
                        && alive (fst (respond (network h) (probeOf (clientSession c)))));
                  final := {| session := s'; backend := b' |};
                  trace := if connected (clientSession c)
                           then [(probeOf (clientSession c),
                                  fst (respond (network h) (probeOf (clientSession c))))]
                           else [] |}
             /\ connected s'
                = connected (clientSession c)
                  && alive (fst (respond (network h) (probeOf (clientSession c))))).
  { destruct (connected (clientSession c)) eqn:Hc.
    - destruct (isConnected_probe {| session := clientSession c; backend := network h |}
                  Hc) as (s' & Hrun & Hflag & _).
      exists s'. eexists. split; [exact Hrun | exact Hflag].
    - exists (clientSession c), (network h).
      split; [now apply isConnected_idle | exact Hc]. }
  destruct Hrun as (s' & b' & Hrun & Hflag).
  cbn -[isConnected alive probeOf lit app]. rewrite Hrun.
  cbn -[alive probeOf lit app]. rewrite app_nil_r.
  split; [reflexivity | ].
  eexists. split; [reflexivity | ]. split; [reflexivity | ].
  split; [exact Hflag | ].
  unfold statusText, getConnectionInfo, orNotSpecified, boolText, nl.
  cbn [info_baseUrl info_username info_client info_timeout info_enableCSRF
       hasCSRFToken clientConfig clientSession].
  destruct (connected (clientSession c)
            && alive (fst (respond (network h) (probeOf (clientSession c)))));
    destruct (client (clientConfig c)) as [[ | u name] | ];
    destruct (enableCSRF (clientConfig c));
    destruct (csrfToken s') as [[ | t0 token] | ]; reflexivity.
Qed.


(** *** [handleConnect] *)

Lemma handleConnect_run args h config :
  parseConfig args = inr config ->
  let r := connect respond config (newWorld (network h)) in
  handleConnect respond parseConfig readError axiosMessage args h
  = {| returned := match value r with
                   | Ok _ => Ok {| text := connectedText config; rawData := NoData |}
                   | Throw e => Throw (connectError (errorMessageOf axiosMessage e))
                   end;
       after := holding config (final r);
       exchanged := trace r |}.
Proof.
  intros Hp. cbv zeta.
  unfold handleConnect, attempt, andThen, onClient, setClient, newClient, newWorld,
    holding, connectError.
  rewrite Hp.
  destruct h as [[c | ] net];
    cbn -[connect includes connectedText connection404Hint app lit];
    generalize (connect respond config {| session := clearedSession; backend := net |});
    intros [[[] | e] w t];
    cbn -[includes connectedText connection404Hint app lit];
    try destruct (includes (lit "404") (errorMessageOf axiosMessage e));
    cbn -[includes connectedText connection404Hint app lit];
    rewrite ?app_nil_r; reflexivity.
Qed.

(** X20. With valid arguments, [handleConnect] starts from nothing: whatever
    client was held before, with whatever token and cookies, the result, the
    requests and the state left are those of a first connect. *)
Theorem handleConnect_starts_afresh args (h : Handlers Backend) config :
  parseConfig args = inr config ->
  handleConnect respond parseConfig readError axiosMessage args h
  = handleConnect respond parseConfig readError axiosMessage args
      {| sapClient := None; network := network h |}.
Proof.
  intros Hp. now rewrite !(handleConnect_run _ _ config Hp).
Qed.

(** X21. With valid arguments, [handleConnect] ends in one of two ways.  It
    returns the success text and holds a client with the parsed
    configuration and the connected flag set; or it throws, with the 404
    hint when the message it caught contains "404" and otherwise with that
    message behind a second "Failed to connect to SAP OData service: ", and
    holds a client with a cleared session, so that every data tool called
    next reports a lost connection without sending anything. *)
Theorem handleConnect_connects_or_resets args (h : Handlers Backend) config :
  parseConfig args = inr config ->
  let o := handleConnect respond parseConfig readError axiosMessage args h in
  (returned o = Ok {| text := connectedText config; rawData := NoData |}
   /\ exists c, sapClient (after o) = Some c
                /\ clientConfig c = config
                /\ connected (clientSession c) = true)
  \/ (exists error,
         returned o
         = Throw (connectError (lit "Failed to connect to SAP OData service: "
                                  ++ getErrorMessage error))
         /\ sapClient (after o) = Some (newClient config)
         /\ forall tool args',
              handleTool tool args' (after o)
              = {| returned := Throw connectionLost; after := after o;
                   exchanged := [] |}).
Proof.
  intros Hp. cbv zeta. rewrite (handleConnect_run _ _ config Hp). cbv zeta.
  destruct (connect_ends Backend respond config (newWorld (network h)))
    as [[Hv Hc] | (error & Hv & Hs)]; rewrite Hv; cbn [returned after].
  - left. split; [reflexivity | ]. eexists. split; [reflexivity | ]. now split.
  - right. exists error. split; [reflexivity | ].
    assert (Hn : sapClient (holding config
                              (final (connect respond config (newWorld (network h)))))
                 = Some (newClient config)).
    { unfold holding, newClient. cbn [sapClient]. now rewrite Hs. }
    split; [exact Hn | ].
    intros tool args'.
    destruct (handle_shape tool args') as (body & handler & -> & _).
    assert (Hr : requireLiveSession respond readError
                   (holding config (final (connect respond config (newWorld (network h)))))
                 = {| returned := Throw connectionLost;
                      after := holding config
                                 (final (connect respond config (newWorld (network h))));
                      exchanged := [] |}).
    { rewrite (requireLiveSession_client _ _ Hn). cbv zeta.
      rewrite isConnected_idle by reflexivity. cbn.
      unfold holding. now rewrite Hs. }
    rewrite (andThen_Throw _ _ _ connectionLost); now rewrite Hr.
Qed.

(** X22. [handleConnect] disconnects the held client before it validates
    its arguments: a call with invalid arguments sends nothing and throws,
    yet the client that was connected is left with a cleared session, and
    every data tool called next reports a lost connection. *)
Theorem handleConnect_invalid_arguments_disconnect
    args (h : Handlers Backend) (c : Client) msg :
  parseConfig args = inl msg ->
  sapClient h = Some c ->
  let o := handleConnect respond parseConfig readError axiosMessage args h in
  returned o = Throw (connectError msg)
  /\ exchanged o = []
  /\ after o = {| sapClient := Some (newClient (clientConfig c));
                  network := network h |}
  /\ forall tool args',
       handleTool tool args' (after o)
       = {| returned := Throw connectionLost; after := after o; exchanged := [] |}.
Proof.
  intros Hp Hs. cbv zeta.
  assert (Hrun : handleConnect respond parseConfig readError axiosMessage args h
                 = {| returned := Throw (connectError msg);
                      after := {| sapClient := Some (newClient (clientConfig c));
                                  network := network h |};
                      exchanged := [] |}).
  { unfold handleConnect, attempt, andThen, onClient, connectError, newClient.
    rewrite Hp. destruct h as [client net]. cbn in Hs. subst client.
    cbn -[includes connection404Hint app lit].
    destruct (includes (lit "404") msg); reflexivity. }
  rewrite Hrun. cbn [returned after exchanged].
  split; [reflexivity | ]. split; [reflexivity | ]. split; [reflexivity | ].
  intros tool args'.
  destruct (handle_shape tool args') as (body & handler & -> & _).
  match goal with
  | |- andThen _ _ ?h' = _ =>
      assert (Hr : requireLiveSession respond readError h'
                   = {| returned := Throw connectionLost; after := h';
                        exchanged := [] |})
  end.
  { erewrite requireLiveSession_client by reflexivity.
    cbv zeta. rewrite isConnected_idle by reflexivity. reflexivity. }
  rewrite (andThen_Throw _ _ _ connectionLost); now rewrite Hr.
Qed.


(** *** Failures and exchanges of the data tools *)

Lemma andThen_run {A B} (m : H Backend A) (k : A -> H Backend B) h a h' t :
  m h = {| returned := Ok a; after := h'; exchanged := t |} ->
  andThen m k h
  = {| returned := returned (k a h'); after := after (k a h');
       exchanged := t ++ exchanged (k a h') |}.
Proof. unfold andThen. now intros ->. Qed.

Lemma andThen_arg {B} args name v (k : jsval -> H Backend B) h :
  get args name = Some v ->
  andThen (arg readError args name) k h = k v h.
Proof.
  intros Hg. unfold andThen. rewrite arg_run, Hg. cbn. now destruct (k v h).
Qed.


Lemma andThen_onClient {A B} method (op : SAPODataConfig -> M Backend A)
    (k : A -> H Backend B) cfg w :
  andThen (onClient readError method op) k (holding cfg w)
  = match value (op cfg w) with
    | Ok a =>
        {| returned := returned (k a (holding cfg (final (op cfg w))));
           after := after (k a (holding cfg (final (op cfg w))));
           exchanged := trace (op cfg w)
                        ++ exchanged (k a (holding cfg (final (op cfg w)))) |}
    | Throw e =>
        {| returned := Throw e; after := holding cfg (final (op cfg w));
           exchanged := trace (op cfg w) |}
    end.
Proof.
  unfold andThen, onClient, holding. destruct w as [s b]. cbn.
  now destruct (op cfg {| session := s; backend := b |}) as [[a | e] w' t].
Qed.


Lemma attempt_exchanged {A} (m : H Backend A) handler h :
  (forall e h', exchanged (handler e h') = []) ->
  exchanged (attempt m handler h) = exchanged (m h).
Proof.
  intros Hh. unfold attempt. destruct (m h) as [[a | e0] h' t]; cbn; [reflexivity | ].
  now rewrite Hh, app_nil_r.
Qed.

(** What the two opening statements of a data tool do with a client whose
    flag is set: the probe goes out, and the tool goes on exactly when the
    probe is answered 2xx or 404, still with the flag set. *)
Lemma requireLiveSession_live h c :
  sapClient h = Some c ->
  connected (clientSession c) = true ->
  exists o,
    exchanged (requireLiveSession respond readError h) = [(probeOf (clientSession c), o)]
    /\ (if alive o
        then returned (requireLiveSession respond readError h) = Ok tt
             /\ live (after (requireLiveSession respond readError h))
        else returned (requireLiveSession respond readError h) = Throw connectionLost).
Proof.
  intros Hs Hc. rewrite (requireLiveSession_client h c Hs). cbv zeta.
  destruct (isConnected_live Backend respond (worldOf c (network h)) Hc)
    as (rq & o & b & _ & -> & Ht & Hyes & Hno).
  exists o. cbn [returned after exchanged]. split; [exact Ht | ].
  unfold alive. destruct (succeeded o) eqn:Hsuc; cbn [orb].
  - destruct (Hyes (or_introl eq_refl)) as [-> Hf]. split; [reflexivity | ].
    eexists. split; [reflexivity | exact Hf].
  - destruct (replied_with 404 o) eqn:H404.
    + destruct (Hyes (or_intror eq_refl)) as [-> Hf]. split; [reflexivity | ].
      eexists. split; [reflexivity | exact Hf].
    + now destruct (Hno eq_refl eq_refl) as [-> _].
Qed.

Lemma requireLiveSession_returns h :
  returned (requireLiveSession respond readError h) = Ok tt ->
  live (after (requireLiveSession respond readError h)).
Proof.
  destruct (sapClient h) as [c | ] eqn:Hs.
  - destruct (connected (clientSession c)) eqn:Hc.
    + destruct (requireLiveSession_live h c Hs Hc) as (o & _ & Ho).
      destruct (alive o); [now destruct Ho | ]. rewrite Ho. discriminate.
    + rewrite (requireLiveSession_client h c Hs). cbv zeta.
      rewrite isConnected_idle by exact Hc. discriminate.
  - rewrite requireLiveSession_no_client by exact Hs. discriminate.
Qed.


(** X24. The exchanges of [handleGetServiceMetadata], [handleGetEntity],
    [handleCreateEntity], [handleUpdateEntity], [handleDeleteEntity] and
    [handleCallFunction].  Each sends nothing when the client is missing or
    its flag is not set.  Otherwise its first exchange is the probe of the
    base URL, a GET with a timeout of 5000 ms whatever timeout is
    configured; at most one more exchange follows, and none unless the
    probe was answered 2xx or 404.  Whatever handler body is placed behind
    the same two opening statements, the probe comes first in the same way
    and nothing follows it unless it was answered 2xx or 404. *)
Theorem tool_probes_first (tool : dataTool) (args : jsval) (h : Handlers Backend) :
  match sapClient h with
  | None =>
      exchanged (handleTool tool args h) = []
      /\ forall rest : H Backend ToolResult,
           exchanged (andThen (requireLiveSession respond readError)
                        (fun _ => rest) h) = []
  | Some c =>
      if connected (clientSession c)
      then req_method (probeOf (clientSession c)) = GET
           /\ req_url (probeOf (clientSession c)) = []
           /\ req_timeout (probeOf (clientSession c)) = 5000
           /\ (exists o rest,
                  exchanged (handleTool tool args h)
                  = (probeOf (clientSession c), o) :: rest
                  /\ (List.length rest <= 1)%nat
                  /\ (alive o = false -> rest = []))
           /\ forall rest : H Backend ToolResult,
                exists o more,
                  exchanged (andThen (requireLiveSession respond readError)
                               (fun _ => rest) h)
                  = (probeOf (clientSession c), o) :: more
                  /\ (alive o = false -> more = [])
      else exchanged (handleTool tool args h) = []
           /\ forall rest : H Backend ToolResult,
                exchanged (andThen (requireLiveSession respond readError)
                             (fun _ => rest) h) = []
  end.
Proof.
  assert (Hopen : forall rest : H Backend ToolResult,
             match sapClient h with
             | None =>
                 exchanged (andThen (requireLiveSession respond readError)
                              (fun _ => rest) h) = []
             | Some c =>
                 if connected (clientSession c)
                 then exists o,
                     exchanged (andThen (requireLiveSession respond readError)
                                  (fun _ => rest) h)
                     = (probeOf (clientSession c), o)
                         :: (if alive o
                             then exchanged
                                    (rest (after (requireLiveSession respond
                                                    readError h)))
                             else [])
                 else exchanged (andThen (requireLiveSession respond readError)
                                   (fun _ => rest) h) = []
             end).
  { intros rest. rewrite andThen_exchanged.
    destruct (sapClient h) as [c | ] eqn:Hs.
    - destruct (connected (clientSession c)) eqn:Hc.
      + destruct (requireLiveSession_live h c Hs Hc) as (o & -> & Ho).
        exists o. destruct (alive o).
        * now destruct Ho as [-> _].
        * now rewrite Ho.
      + rewrite (requireLiveSession_client h c Hs). cbv zeta.
        now rewrite isConnected_idle by exact Hc.
    - now rewrite requireLiveSession_no_client by exact Hs. }
  destruct (handle_shape tool args) as (body & handler & -> & Hh & _ & Hb).
  pose proof (Hopen (attempt body handler)) as Htool.
  destruct (sapClient h) as [c | ] eqn:Hs.
  - destruct (connected (clientSession c)) eqn:Hc.
    + split; [reflexivity | ]. split; [reflexivity | ]. split; [reflexivity | ].
      split.
      * destruct Htool as (o & ->). exists o. eexists. split; [reflexivity | ].
        destruct (alive o).
        -- rewrite attempt_exchanged by (intros; apply Hh).
           split; [apply Hb | discriminate].
        -- split; [apply Nat.le_0_l | reflexivity].
      * intros rest. destruct (Hopen rest) as (o & ->). exists o. eexists.
        split; [reflexivity | ]. now intros ->.
    + split; [exact Htool | exact Hopen].
  - split; [exact Htool | exact Hopen].
Qed.


(** *** [handleCreateEntity] *)


Lemma isConnected_alive (w : World Backend) :
  connected (session w) = true ->
  alive (fst (respond (backend w) (probeOf (session w)))) = true ->
  isConnected respond w
  = {| value := Ok true;
       final := {| session := sessionAfter (session w)
                                (fst (respond (backend w) (probeOf (session w))));
                   backend := snd (respond (backend w) (probeOf (session w))) |};
       trace := [(probeOf (session w),
                  fst (respond (backend w) (probeOf (session w))))] |}.
Proof.
  intros Hc. unfold isConnected, probeOf, alive, sessionAfter.
  rewrite Hc. cbn [negb].
  unfold try_catch, bind, http_get, send.
  destruct (respond (backend w) _) as [[resp | ] b]; cbn -[requestInterceptor];
    [ | discriminate].
  destruct (validateStatus (status resp)); cbn -[requestInterceptor]; [reflexivity | ].
  unfold status_is. cbn -[requestInterceptor]. now intros ->.
Qed.




(** *** [handleGetServiceMetadata] *)

Lemma getServiceMetadata_run cfg serviceName (w : World Backend) r parsed :
  connected (session w) = true ->
  fst (respond (backend w) (metadataRequest (session w) cfg serviceName)) = Replied r ->
  validateStatus (status r) = true ->
  parseXML (data r) = inr parsed ->
  value (getServiceMetadata respond parseXML cfg (toString serviceName) w)
  = Ok (extractMetadata parsed).
Proof.
  intros Hc Hr Hv Hp.
  unfold getServiceMetadata, bind, SAPODataClient.ensureConnected, try_catch,
    http_get, send.
  unfold metadataRequest in Hr.
  rewrite Hc. cbn [negb value final trace ret app].
  destruct (respond (backend w) _) as [o b]. cbn [fst] in Hr. subst o.
  rewrite Hv. cbn [value final trace]. now rewrite Hp.
Qed.

(** X29. One unreadable node silently empties the answer of
    [sap_get_service_metadata].  When the probe has passed and the metadata
    document is fetched and parsed, but one entity type or function import
    of the tree cannot be read, the tool does not fail: it returns a text
    that holds the header line only, and a model without entities and
    functions that carries the parse tree as [raw]. *)
Theorem handleGetServiceMetadata_unreadable_node
    (args serviceName : jsval) (h : Handlers Backend) (c : Client) (o1 : outcome)
    (r : response) (parsed bad : jsval) :
  sapClient h = Some c ->
  connected (clientSession c) = true ->
  fst (respond (network h) (probeOf (clientSession c))) = o1 ->
  alive o1 = true ->
  get args "serviceName" = Some serviceName ->
  fst (respond (snd (respond (network h) (probeOf (clientSession c))))
         (metadataRequest (sessionAfter (clientSession c) o1) (clientConfig c)
            serviceName)) = Replied r ->
  validateStatus (status r) = true ->
  parseXML (data r) = inr parsed ->
  (In bad (entityNodes parsed) /\ extractEntity bad = None)
  \/ (In bad (functionNodes parsed) /\ extractFunction bad = None) ->
  returned (handleGetServiceMetadata respond parseXML readError axiosMessage args h)
  = Ok {| text := lit "SAP OData Service Metadata for " ++ toString serviceName
                    ++ lit ":" ++ nl ++ nl;
          rawData := Model {| entities := []; functions := [];
                              raw := Some parsed |} |}.
Proof.
  intros Hs Hc Ho1 Halive Hsn Hr Hv Hp Hbad.
  assert (Hreq : requireLiveSession respond readError h
                 = {| returned := Ok tt;
                      after := holding (clientConfig c)
                                 {| session := sessionAfter (clientSession c) o1;
                                    backend := snd (respond (network h)
                                                      (probeOf (clientSession c))) |};
                      exchanged := [(probeOf (clientSession c), o1)] |}).
  { rewrite (requireLiveSession_client h c Hs). cbv zeta.
    rewrite isConnected_alive; cbn [worldOf session backend]; rewrite ?Ho1; auto. }
  assert (Hlive : connected (sessionAfter (clientSession c) o1) = true).
  { pose proof (requireLiveSession_returns h) as Hl. rewrite Hreq in Hl.
    destruct (Hl eq_refl) as (c' & [= <-] & Hc'). exact Hc'. }
  unfold handleGetServiceMetadata.
  rewrite (andThen_run _ _ _ _ _ _ Hreq). cbv beta.
  unfold attempt. cbv zeta.
  rewrite !(andThen_arg _ _ _ _ _ Hsn). cbv beta.
  rewrite !andThen_onClient. cbv beta.
  match goal with
  | |- context [getServiceMetadata respond parseXML ?cfg _ ?w] =>
      rewrite (getServiceMetadata_run cfg serviceName w r parsed Hlive Hr Hv Hp)
  end.
  rewrite (extractMetadata_bad_node parsed bad Hbad).
  reflexivity.
Qed.

(** *** Key values that are missing *)

Lemma keyed_missing {A} prefix (op : list (jsstring * jsval) -> M Backend A)
    keyValues (w : World Backend) :
  connected (session w) = true ->
  entriesOf keyValues = None ->
  keyed entriesError prefix op keyValues w
  = {| value := Throw (Error (prefix ++ getErrorMessage (Error entriesError)));
       final := w; trace := [] |}.
Proof.
  intros Hc He. unfold keyed, bind, SAPODataClient.ensureConnected.
  now rewrite He, Hc.
Qed.

(** X30. Key values that are missing never reach the backend.  When the
    probe has passed and [keyValues] is [undefined] or [null] while the
    other arguments can be read, [handleGetEntity], [handleUpdateEntity] and
    [handleDeleteEntity] send nothing after the probe and fail with their
    prefix twice followed by the engine's message for [Object.entries]. *)
Theorem missing_key_values_send_nothing
    (tool : dataTool) (args serviceName entitySet keyValues body : jsval)
    (h : Handlers Backend) (c : Client) (o1 : outcome) :
  tool = GetEntityTool \/ tool = UpdateEntityTool \/ tool = DeleteEntityTool ->
  sapClient h = Some c ->
  connected (clientSession c) = true ->
  fst (respond (network h) (probeOf (clientSession c))) = o1 ->
  alive o1 = true ->
  get args "serviceName" = Some serviceName ->
  get args "entitySet" = Some entitySet ->
  get args "keyValues" = Some keyValues ->
  get args "data" = Some body ->
  entriesOf keyValues = None ->
  returned (handleTool tool args h)
  = Throw (Error (toolPrefix tool args ++ toolPrefix tool args
                    ++ getErrorMessage (Error entriesError)))
  /\ exchanged (handleTool tool args h) = [(probeOf (clientSession c), o1)].
Proof.
  intros Htool Hs Hc Ho1 Halive Hsn Hes Hkv Hbody Hnone.
  assert (Hreq : requireLiveSession respond readError h
                 = {| returned := Ok tt;
                      after := holding (clientConfig c)
                                 {| session := sessionAfter (clientSession c) o1;
                                    backend := snd (respond (network h)
                                                      (probeOf (clientSession c))) |};
                      exchanged := [(probeOf (clientSession c), o1)] |}).
  { rewrite (requireLiveSession_client h c Hs). cbv zeta.
    rewrite isConnected_alive; cbn [worldOf session backend]; rewrite ?Ho1; auto. }
  assert (Hlive : connected (sessionAfter (clientSession c) o1) = true).
  { pose proof (requireLiveSession_returns h) as Hl. rewrite Hreq in Hl.
    destruct (Hl eq_refl) as (c' & [= <-] & Hc'). exact Hc'. }
  destruct Htool as [-> | [-> | ->]]; cbn [handle toolPrefix];
    unfold handleGetEntity, handleUpdateEntity, handleDeleteEntity;
    rewrite (andThen_run _ _ _ _ _ _ Hreq); cbv beta;
    unfold attempt; cbv zeta;
    rewrite !(andThen_arg _ _ _ _ _ Hsn); cbv beta;
    rewrite !(andThen_arg _ _ _ _ _ Hes); cbv beta;
    rewrite !(andThen_arg _ _ _ _ _ Hkv); cbv beta;
    rewrite ?(andThen_arg _ _ _ _ _ Hbody); cbv beta;
    rewrite !andThen_onClient; cbv beta;
    match goal with
    | |- context [keyed entriesError ?p ?op keyValues ?w] =>
        rewrite !(keyed_missing p op keyValues w Hlive Hnone)
    end;
    split; reflexivity.
Qed.

End Handlers.
End HandlerProperties.

(* ------------------------------------------------------------------ *)
(** ** Properties of the dispatch *)

Module ServerProperties.
Import SAPODataHandlers SAPODataMCPServer.

Lemma str_eqb_refl (s : jsstring) : str_eqb s s = true.
Proof. unfold str_eqb. now destruct (list_eq_dec Z.eq_dec s s). Qed.

Lemma str_eqb_neq (s t : jsstring) : s <> t -> str_eqb s t = false.
Proof. intros Hne. unfold str_eqb. now destruct (list_eq_dec Z.eq_dec s t). Qed.

(** The table and the switch agree: the name at position [i] of the table
    selects the [i]-th case. *)
Lemma switchOnName_at {R} (i : nat) (name : string)
    (c1 c2 c3 c4 c5 c6 c7 c8 c9 c10 c11 otherwise : R) :
  nth_error toolNames i = Some name ->
  switchOnName (lit name) c1 c2 c3 c4 c5 c6 c7 c8 c9 c10 c11 otherwise
  = nth i [c1; c2; c3; c4; c5; c6; c7; c8; c9; c10; c11] otherwise.
Proof.
  intros Hn.
  do 11 (destruct i as [ | i]; [injection Hn as <-; reflexivity | ]).
  destruct i; discriminate Hn.
Qed.

Section Server.

Variable Backend : Type.
Variable respond : Backend -> request -> outcome * Backend.
Variable parseXML : jsval -> jsstring + jsval.
Variable parseConfig : jsval -> jsstring + SAPODataConfig.
Variable readError : jsval -> string -> jsstring.
Variable entriesError : jsstring.
Variable axiosMessage : jserror -> jsstring.
Variable handleGetServices : H Backend ToolResult.
Variable handleQueryEntitySet : jsval -> H Backend ToolResult.
Variable mcpMessage : ErrorCode -> jsstring -> jsstring.

Notation call :=
  (callTool respond parseXML parseConfig readError entriesError axiosMessage
     handleGetServices handleQueryEntitySet mcpMessage).

(** X26. Every error of the stdio server's tool call carries the code
    [InternalError].  The [MethodNotFound] error thrown for a name that is
    not in the table is caught by the handler's own [catch]: the caller gets
    an [InternalError] whose text is the message of that [McpError], nothing
    is sent and the handler object is unchanged. *)
Theorem callTool_failures_are_internal
    (name : jsstring) (args : jsval) (h : Handlers Backend) :
  (forall error,
      replied (call name args h) = inr error ->
      exists message, error = Mcp InternalError message)
  /\ ((forall listed, In listed toolNames -> name <> lit listed) ->
      call name args h
      = {| replied := inr (Mcp InternalError
                             (mcpMessage MethodNotFound
                                (lit "Unknown tool: " ++ name)));
           left_ := h; wire := [] |}).
Proof.
  split.
  - intros error. unfold callTool. cbv zeta.
    match goal with
    | |- context [match replied ?a with _ => _ end] =>
        destruct (replied a) as [r | e] eqn:Ha
    end.
    + rewrite Ha. discriminate.
    + cbn [replied]. intros [= <-]. eauto.
  - intros Hout. unfold callTool, switchOnName. cbv zeta.
    rewrite !str_eqb_neq by (apply Hout; cbn; tauto).
    reflexivity.
Qed.

Notation registeredFor :=
  (registered respond parseXML parseConfig readError entriesError axiosMessage
     handleGetServices handleQueryEntitySet).

(** X27. The tool table and the switch of the registered callback agree:
    the tool listed at position [i] of [toolDefinitions] runs the [i]-th
    handler of the switch.  Every listed tool has a handler, and the
    "not implemented" answer of the [default] branch is never given for a
    listed tool. *)
Theorem listed_tool_is_dispatched (i : nat) (name : string) (args : jsval) :
  nth_error toolNames i = Some name ->
  registeredFor (lit name) args
  = nth i
      [handleConnect respond parseConfig readError axiosMessage args;
       handleGetServices;
       handleGetServiceMetadata respond parseXML readError axiosMessage args;
       handleQueryEntitySet args;
       handleGetEntity respond readError entriesError axiosMessage args;
       handleCreateEntity respond readError axiosMessage args;
       handleUpdateEntity respond readError entriesError axiosMessage args;
       handleDeleteEntity respond readError entriesError axiosMessage args;
       handleCallFunction respond readError entriesError axiosMessage args;
       handleConnectionStatus respond readError axiosMessage;
       handleDisconnect readError axiosMessage]
      (pure {| text := lit "Tool " ++ lit name ++ lit " not implemented.";
               rawData := NoData |}).
Proof.
  intros Hn. unfold registered. now rewrite (switchOnName_at i name) by exact Hn.
Qed.

(** X28. For every listed tool the stdio server runs the very handler that
    the registered callback of the other two entry points runs: it returns
    what that handler returns, leaves the state it leaves after the same
    exchanges, and turns what it throws into an [InternalError] with the
    same message. *)
Theorem callTool_runs_registered_handler
    (name : string) (args : jsval) (h : Handlers Backend) :
  In name toolNames ->
  call (lit name) args h
  = {| replied := match returned (registeredFor (lit name) args h) with
                  | Ok r => inl r
                  | Throw e => inr (Mcp InternalError (errorMessageOf axiosMessage e))
                  end;
       left_ := after (registeredFor (lit name) args h);
       wire := exchanged (registeredFor (lit name) args h) |}.
Proof.
  intros Hin. apply In_nth_error in Hin. destruct Hin as [i Hn].
  unfold callTool, registered. rewrite !(switchOnName_at i name) by exact Hn.
  do 11 (destruct i as [ | i];
         [ cbn [nth]; unfold ofHandler; cbv zeta; cbn [replied left_ wire];
           match goal with
           | |- context [returned ?o] => destruct (returned o)
           end; reflexivity
         | ]).
  destruct i; discriminate Hn.
Qed.

End Server.
End ServerProperties.

(* ------------------------------------------------------------------ *)
(** ** The properties on concrete runs *)

Lemma all_failed_by_check (t : list exchange) :
  forallb (fun ex => negb (succeeded (snd ex))) t = true ->
  forall rq o, In (rq, o) t -> succeeded o = false.
Proof.
  intros H rq o Hin. rewrite forallb_forall in H.
  specialize (H _ Hin). cbn in H. now destruct (succeeded o).
Qed.

Lemma catalog_failed_by_check (t : list exchange) :
  forallb (fun ex => negb (existsb (str_eqb (req_url (fst ex))) catalogPaths)
                     || negb (succeeded (snd ex))) t = true ->
  forall rq o, In (rq, o) t -> In (req_url rq) catalogPaths -> succeeded o = false.
Proof.
  intros H rq o Hin Hcat. rewrite forallb_forall in H.
  specialize (H _ Hin). cbn [fst snd] in H.
  assert (Hex : existsb (str_eqb (req_url rq)) catalogPaths = true).
  { apply existsb_exists. exists (req_url rq). split; [exact Hcat | ].
    unfold str_eqb. now destruct (list_eq_dec Z.eq_dec (req_url rq) (req_url rq)). }
  rewrite Hex in H. cbn in H. now destruct (succeeded o).
Qed.

(** C1: the claimed text [$top=5&$filter=Price%20gt%2010] occurs neither in
    the query string nor in the URL requested. *)
Lemma queryEntitySet_top5PriceFilter_not_as_claimed :
  includes (lit "$top=5&$filter=Price%20gt%2010")
    (URLSearchParams.toString (queryParams top5PriceFilter)) = false
  /\ existsb (includes (lit "$top=5&$filter=Price%20gt%2010"))
       (urls (trace (queryEntitySet bareBackend demoConfig (lit "SVC")
                       (lit "Products") top5PriceFilter liveWorld))) = false.
Proof. split; vm_compute; reflexivity. Qed.

Lemma queryEntitySet_top5PriceFilter_request_witness :
  connected (session liveWorld) = true
  /\ urls (trace (queryEntitySet bareBackend demoConfig (lit "SVC")
                    (lit "Products") top5PriceFilter liveWorld))
     = [lit "SVC" ++ lit "/" ++ lit "Products"
          ++ lit "?%24filter=Price+gt+10&%24top=5"].
Proof.
  split; [reflexivity | ].
  apply (queryEntitySet_top5PriceFilter_request unit bareBackend demoConfig
           (lit "SVC") (lit "Products") liveWorld).
  reflexivity.
Defined.

Lemma key_predicate_shared_witness :
  connected (session liveWorld) = true
  /\ (urls (trace (getEntity bareBackend demoConfig (lit "SVC") (lit "Products")
                     idKey liveWorld))
      = [lit "SVC/Products(ID='42')"]
      /\ urls (trace (updateEntity bareBackend demoConfig (lit "SVC")
                        (lit "Products") idKey (JObj []) liveWorld))
         = [lit "SVC/Products(ID='42')"]
      /\ urls (trace (deleteEntity bareBackend demoConfig (lit "SVC")
                        (lit "Products") idKey liveWorld))
         = [lit "SVC/Products(ID='42')"]).
Proof.
  split; [reflexivity | ].
  destruct (key_predicate_shared unit bareBackend demoConfig (lit "SVC")
              (lit "Products") idKey (JObj []) liveWorld eq_refl)
    as [[[Hget _] [[Hput _] [Hdel _]]] _].
  repeat split; assumption.
Defined.

Lemma unauthorized_invalidates_session_witness :
  (play (backend (scripted [unauthorized]))
     (requestInterceptor (session (scripted [unauthorized])) probeRequest)
   = (Replied (answer 401 "Unauthorized" JUndefined), [])
   /\ status (answer 401 "Unauthorized" JUndefined) = 401
   /\ session (final (send play probeRequest (scripted [unauthorized])))
      = clearedSession)
  /\ (connected (session (scripted [unauthorized])) = true
      /\ got 401 (trace (perform play (parseAs productTree) demoConfig
                           productsQuery (scripted [unauthorized])))
      /\ connected (session (final (perform play (parseAs productTree) demoConfig
                                      productsQuery (scripted [unauthorized]))))
         = false
      /\ value (perform play (parseAs productTree) demoConfig GetServices
                  (final (perform play (parseAs productTree) demoConfig
                            productsQuery (scripted [unauthorized]))))
         = Throw notConnectedError)
  /\ (got 401 (trace (isConnected play (scripted [unauthorized])))
      /\ session (final (isConnected play (scripted [unauthorized])))
         = clearedSession).
Proof.
  destruct (unauthorized_invalidates_session Script play (parseAs productTree)
              demoConfig) as (Hsend & Hop & Hlive).
  assert (G1 : got 401 (trace (perform play (parseAs productTree) demoConfig
                                 productsQuery (scripted [unauthorized])))).
  { exists (liveRequest GET (lit "SVC/Products") "application/json"),
      (answer 401 "Unauthorized" JUndefined).
    split; [left; reflexivity | reflexivity]. }
  assert (G2 : got 401 (trace (isConnected play (scripted [unauthorized])))).
  { exists (requestInterceptor liveSession
              (mkRequest GET [] "application/xml" None 5000 None)),
      (answer 401 "Unauthorized" JUndefined).
    split; [left; reflexivity | reflexivity]. }
  split; [ | split ].
  - split; [reflexivity | ]. split; [reflexivity | ].
    apply (Hsend probeRequest (scripted [unauthorized])
             (answer 401 "Unauthorized" JUndefined) []); reflexivity.
  - split; [reflexivity | ]. split; [exact G1 | ].
    destruct (Hop productsQuery (scripted [unauthorized]) eq_refl G1) as [Hd Hnext].
    split; [exact Hd | ]. now rewrite Hnext.
  - split; [exact G2 | ].
    exact (proj1 (Hlive (scripted [unauthorized]) eq_refl G2)).
Defined.

Lemma connect_failure_clears_session_witness :
  In (probeRequest, unauthorized)
    (trace (connect play demoConfig
              (fresh [unauthorized; unauthorized; unauthorized])))
  /\ isProbe probeRequest
  /\ status (answer 401 "Unauthorized" JUndefined) = 401
  /\ value (connect play demoConfig
              (fresh [unauthorized; unauthorized; unauthorized]))
     = Throw authenticationFailed
  /\ session (final (connect play demoConfig
                       (fresh [unauthorized; unauthorized; unauthorized])))
     = clearedSession.
Proof.
  assert (Hin : In (probeRequest, unauthorized)
                  (trace (connect play demoConfig
                            (fresh [unauthorized; unauthorized; unauthorized])))).
  { right; right; left; reflexivity. }
  assert (Hp : isProbe probeRequest) by (split; reflexivity).
  split; [exact Hin | ]. split; [exact Hp | ]. split; [reflexivity | ].
  exact (proj1 (connect_failure_clears_session Script play demoConfig
                  (fresh [unauthorized; unauthorized; unauthorized]))
           probeRequest (answer 401 "Unauthorized" JUndefined) Hin Hp eq_refl).
Defined.

Lemma connect_then_isConnected_on_404_witness :
  (forall b rq, isProbe rq ->
                exists r b', bareBackend b rq = (Replied r, b') /\ status r = 404)
  /\ value (connect bareBackend demoConfig idleWorld) = Ok tt
  /\ connected (session (final (connect bareBackend demoConfig idleWorld))) = true
  /\ value (isConnected bareBackend
              (final (connect bareBackend demoConfig idleWorld))) = Ok true
  /\ connected (session (final (isConnected bareBackend
                                  (final (connect bareBackend demoConfig idleWorld)))))
     = true.
Proof.
  assert (H404 : forall b rq, isProbe rq ->
                   exists r b', bareBackend b rq = (Replied r, b') /\ status r = 404).
  { intros b rq [Hu _]. unfold bareBackend. rewrite Hu.
    exists (answer 404 "Not Found" JUndefined), tt. split; reflexivity. }
  split; [exact H404 | ].
  exact (connect_then_isConnected_on_404 unit bareBackend demoConfig idleWorld H404).
Defined.

Lemma getServices_source_tag_witness :
  (connected (session (scripted catalogScript)) = true
   /\ In (liveRequest GET (lit "../IWFND/CATALOGSERVICE;v=2/ServiceCollection")
            "application/json",
          Replied (answer 200 "OK" catalogDocument))
        (trace (getServices play demoConfig (scripted catalogScript)))
   /\ get (data (answer 200 "OK" catalogDocument)) "d"
      = Some (JObj [(lit "results", JArr [flightRecord; partnerRecord])])
   /\ get flightRecord "Title" = Some (JStr (lit "Flight sample"))
   /\ get partnerRecord "Title" = Some (JStr [])
   /\ value (getServices play demoConfig (scripted catalogScript))
      = Ok {| services := [flightService; partnerService];
              source := Some (lit "gateway_catalog");
              catalogUrl := Some (lit "../IWFND/CATALOGSERVICE;v=2/ServiceCollection");
              message := None |})
  /\ (answered (trace (getServices play demoConfig (scripted probeScript)))
      = [lit "GWDEMO" ++ lit "/"; lit "API_MATERIAL_SRV" ++ lit "/"]
      /\ value (getServices play demoConfig (scripted probeScript))
         = Ok {| services :=
                   [{| svc_name := JStr (lit "GWDEMO");
                       svc_title := JStr (lit "GWDEMO");
                       svc_version := JUndefined;
                       svc_url := lit "https://sap-host:8000/sap/opu/odata/sap/GWDEMO/" |};
                    {| svc_name := JStr (lit "API_MATERIAL_SRV");
                       svc_title := JStr (lit "API_MATERIAL_SRV");
                       svc_version := JUndefined;
                       svc_url := lit "https://sap-host:8000/sap/opu/odata/sap/API_MATERIAL_SRV/" |}];
                 source := Some (lit "common_services_test");
                 catalogUrl := None;
                 message := None |})
  /\ (answered (trace (getServices play demoConfig (scripted []))) = []
      /\ value (getServices play demoConfig (scripted []))
         = Ok {| services := [];
                 source := Some (lit "none_found");
                 catalogUrl := None;
                 message := Some (lit "No services found. The base URL exists but specific services need to be discovered through SAP GUI or by testing known service names.") |}).
Proof.
  split; [ | split ].
  - assert (Hin : In (liveRequest GET
                        (lit "../IWFND/CATALOGSERVICE;v=2/ServiceCollection")
                        "application/json",
                      Replied (answer 200 "OK" catalogDocument))
                    (trace (getServices play demoConfig (scripted catalogScript)))).
    { right; left; reflexivity. }
    split; [reflexivity | ]. split; [exact Hin | ].
    split; [reflexivity | ]. split; [reflexivity | ]. split; [reflexivity | ].
    refine (proj1 (getServices_source_tag Script play demoConfig
                     (scripted catalogScript) eq_refl)
              _ _ (JObj [(lit "results", JArr [flightRecord; partnerRecord])])
              flightRecord partnerRecord
              (JStr (lit "RMTSAMPLEFLIGHT")) (JStr (lit "Flight sample"))
              (JStr (lit "2"))
              (JStr (lit "API_BUSINESS_PARTNER")) (JStr []) (JStr (lit "1"))
              Hin _ eq_refl eq_refl eq_refl
              eq_refl eq_refl eq_refl eq_refl eq_refl eq_refl).
    right; left; reflexivity.
  - assert (Hans : answered (trace (getServices play demoConfig
                                      (scripted probeScript)))
                   = [lit "GWDEMO" ++ lit "/"; lit "API_MATERIAL_SRV" ++ lit "/"])
      by (vm_compute; reflexivity).
    split; [exact Hans | ].
    refine (proj2 (proj2 (proj1 (proj2 (getServices_source_tag Script play demoConfig
                                          (scripted probeScript) eq_refl))
                            (lit "GWDEMO") (lit "API_MATERIAL_SRV") _ Hans))).
    apply catalog_failed_by_check. vm_compute. reflexivity.
  - split; [vm_compute; reflexivity | ].
    refine (proj1 (proj2 (proj2 (getServices_source_tag Script play
                                   demoConfig (scripted []) eq_refl)))
              _).
    apply all_failed_by_check. vm_compute. reflexivity.
Defined.

Lemma getServiceMetadata_nullable_witness :
  value (getServiceMetadata play (parseAs productTree) demoConfig (lit "SVC")
           (scripted [reply 200 "OK" xmlText]))
  = Ok {| entities := [productEntity]; functions := []; raw := None |}
  /\ nth_error (properties productEntity) 0
     = Some {| prop_name := JStr (lit "ID"); prop_type := JStr (lit "Edm.String");
               nullable := false |}
  /\ exists entity prop,
      nth_error (entityNodes productTree) 0 = Some entity
      /\ nth_error (propertyNodes entity) 0 = Some prop
      /\ markedNotNullable prop.
Proof.
  split; [reflexivity | ]. split; [reflexivity | ].
  destruct (getServiceMetadata_nullable Script play (parseAs productTree)
              demoConfig (lit "SVC") (scripted [reply 200 "OK" xmlText])
              {| entities := [productEntity]; functions := []; raw := None |}
              eq_refl)
    as (rq & r & parsed & Ht & Hp & Hprops).
  injection Ht as _ <-. injection Hp as <-.
  destruct (Hprops 0%nat 0%nat productEntity
              {| prop_name := JStr (lit "ID"); prop_type := JStr (lit "Edm.String");
                 nullable := false |} eq_refl eq_refl)
    as (entity & prop & Hi & Hj & Hiff & _).
  exists entity, prop. split; [exact Hi | ]. split; [exact Hj | ].
  apply Hiff. reflexivity.
Defined.

(** The model read from the sample tree: only the marked key is required. *)
Example extractMetadata_productTree :
  extractMetadata productTree
  = {| entities := [productEntity]; functions := []; raw := None |}.
Proof. vm_compute. reflexivity. Qed.

(** C8: a document the XML parser rejects makes [getServiceMetadata] throw;
    no empty model is returned. *)
Lemma getServiceMetadata_parse_failure_propagates :
  value (getServiceMetadata play (parseAs productTree) demoConfig (lit "SVC")
           (scripted [reply 200 "OK" plainText]))
  = Throw (Error (lit "Failed to get service metadata: Non-whitespace before first tag.")).
Proof. vm_compute. reflexivity. Qed.

Lemma getServiceMetadata_extraction_is_best_effort_witness :
  (connected (session (scripted [reply 200 "OK" xmlText])) = true
   /\ parseAs brokenTree (data (answer 200 "OK" xmlText)) = inr brokenTree
   /\ extractMetadata_try brokenTree = None
   /\ value (getServiceMetadata play (parseAs brokenTree) demoConfig (lit "SVC")
               (scripted [reply 200 "OK" xmlText]))
      = Ok {| entities := []; functions := []; raw := Some brokenTree |})
  /\ (parseAs brokenTree (data (answer 200 "OK" plainText))
      = inl (lit "Non-whitespace before first tag.")
      /\ value (getServiceMetadata play (parseAs brokenTree) demoConfig (lit "SVC")
                  (scripted [reply 200 "OK" plainText]))
         = Throw (Error (lit "Failed to get service metadata: "
                           ++ getErrorMessage
                                (Error (lit "Non-whitespace before first tag."))))).
Proof.
  split.
  - split; [reflexivity | ]. split; [reflexivity | ]. split; [reflexivity | ].
    exact (proj1 (getServiceMetadata_extraction_is_best_effort Script play
                    (parseAs brokenTree) demoConfig (lit "SVC")
                    (scripted [reply 200 "OK" xmlText])
                    (answer 200 "OK" xmlText) [] eq_refl eq_refl eq_refl)
             brokenTree eq_refl eq_refl).
  - split; [reflexivity | ].
    exact (proj2 (getServiceMetadata_extraction_is_best_effort Script play
                    (parseAs brokenTree) demoConfig (lit "SVC")
                    (scripted [reply 200 "OK" plainText])
                    (answer 200 "OK" plainText) [] eq_refl eq_refl eq_refl)
             (lit "Non-whitespace before first tag.") eq_refl).
Defined.

(** C9: on a client that is not connected [isConnected] answers false
    without any round trip. *)
Lemma isConnected_idle_sends_nothing :
  trace (isConnected bareBackend idleWorld) = []
  /\ value (isConnected bareBackend idleWorld) = Ok false.
Proof. split; reflexivity. Qed.

Lemma isConnected_classification_witness :
  (connected (session idleWorld) = false
   /\ value (isConnected bareBackend idleWorld) = Ok false
   /\ trace (isConnected bareBackend idleWorld) = []
   /\ final (isConnected bareBackend idleWorld) = idleWorld)
  /\ (connected (session liveWorld) = true
      /\ value (isConnected bareBackend liveWorld) = Ok true
      /\ connected (session (final (isConnected bareBackend liveWorld))) = true)
  /\ (connected (session (scripted [reply 403 "Forbidden" JUndefined])) = true
      /\ value (isConnected play (scripted [reply 403 "Forbidden" JUndefined]))
         = Ok false
      /\ connected (session (final (isConnected play
                                      (scripted [reply 403 "Forbidden" JUndefined]))))
         = false).
Proof.
  split; [ | split ].
  - split; [reflexivity | ].
    exact (proj1 (isConnected_classification unit bareBackend idleWorld) eq_refl).
  - split; [reflexivity | ].
    destruct (proj2 (isConnected_classification unit bareBackend liveWorld) eq_refl)
      as (rq & o & Ht & _ & _ & H404 & _).
    apply H404. injection Ht as _ <-. reflexivity.
  - split; [reflexivity | ].
    destruct (proj2 (isConnected_classification Script play
                       (scripted [reply 403 "Forbidden" JUndefined])) eq_refl)
      as (rq & o & Ht & _ & _ & _ & Hauth & _).
    apply Hauth. right. injection Ht as _ <-. reflexivity.
Defined.

(** *** The further properties on concrete runs *)

Lemma held_token_is_never_placeholder_witness :
  tokenOk (session (fresh [tokenReply "Required"; reply 200 "OK" JUndefined]))
  /\ tokenOk (session (final (connect play demoConfig
                                (fresh [tokenReply "Required";
                                        reply 200 "OK" JUndefined])))).
Proof.
  split; [exact I | ].
  exact (proj1 (held_token_is_never_placeholder Script play (parseAs productTree)
                  demoConfig
                  (fresh [tokenReply "Required"; reply 200 "OK" JUndefined]) I)).
Defined.

Lemma stored_cookies_hold_no_attributes_witness :
  cookiesOk (session (fresh [tokenReply "abc"; reply 200 "OK" JUndefined]))
  /\ cookiesOk (session (final (connect play demoConfig
                                  (fresh [tokenReply "abc";
                                          reply 200 "OK" JUndefined])))).
Proof.
  assert (H0 : cookiesOk (session (fresh [tokenReply "abc";
                                          reply 200 "OK" JUndefined])))
    by constructor.
  split; [exact H0 | ].
  exact (proj1 (stored_cookies_hold_no_attributes Script play (parseAs productTree)
                  demoConfig
                  (fresh [tokenReply "abc"; reply 200 "OK" JUndefined]) H0)).
Defined.

Lemma held_token_never_sent_on_get_witness :
  In (liveRequest GET (lit "SVC/Products") "application/json",
      reply 200 "OK" JUndefined)
     (trace (perform play (parseAs productTree) demoConfig productsQuery
               (scripted [reply 200 "OK" JUndefined])))
  /\ getWithoutToken (liveRequest GET (lit "SVC/Products") "application/json",
                      reply 200 "OK" JUndefined).
Proof.
  assert (Hin : In (liveRequest GET (lit "SVC/Products") "application/json",
                    reply 200 "OK" JUndefined)
                   (trace (perform play (parseAs productTree) demoConfig productsQuery
                             (scripted [reply 200 "OK" JUndefined]))))
    by (left; reflexivity).
  split; [exact Hin | ].
  exact (proj1 (held_token_never_sent_on_get Script play (parseAs productTree)
                  demoConfig (scripted [reply 200 "OK" JUndefined]))
           productsQuery _ Hin).
Defined.

Lemma mutations_carry_held_token_witness :
  (connected (session (scripted [reply 201 "Created" chair])) = true
   /\ csrfToken (session (scripted [reply 201 "Created" chair])) = Some (lit "tok")
   /\ lit "tok" <> []
   /\ keyPredicate idKey = Some (lit "ID='42'"))
  /\ map (fun ex => (req_method (fst ex), req_csrf (fst ex)))
         (trace (createEntity play demoConfig (lit "SVC") (lit "Products") chair
                   (scripted [reply 201 "Created" chair])))
     = [(POST, Some (lit "tok"))].
Proof.
  assert (Hne : lit "tok" <> []) by discriminate.
  split; [repeat split; [exact Hne] | ].
  exact (proj1 (mutations_carry_held_token Script play demoConfig (lit "SVC")
                  (lit "Products") idKey chair (lit "tok") (lit "ID='42'")
                  (scripted [reply 201 "Created" chair])
                  eq_refl eq_refl Hne eq_refl)).
Defined.

Lemma data_operation_keeps_connection_witness :
  ~ got 401 (trace (perform play (parseAs productTree) demoConfig productsQuery
                      (scripted [serverError])))
  /\ connected (session (final (perform play (parseAs productTree) demoConfig
                                  productsQuery (scripted [serverError]))))
     = connected (session (scripted [serverError])).
Proof.
  assert (Hno : ~ got 401 (trace (perform play (parseAs productTree) demoConfig
                                    productsQuery (scripted [serverError])))).
  { intros (rq & r & [Hin | []] & Hst). injection Hin as _ <-. discriminate Hst. }
  split; [exact Hno | ].
  exact (data_operation_keeps_connection Script play (parseAs productTree) demoConfig
           productsQuery (scripted [serverError]) Hno).
Defined.


Lemma queryParams_in_fixed_order_witness :
  paramNames (queryParams top5PriceFilter) = [lit "$filter"; lit "$top"]
  /\ subsequence (paramNames (queryParams top5PriceFilter)) queryNames = true.
Proof.
  split; [reflexivity | ].
  exact (proj1 (proj2 (queryParams_in_fixed_order (lit "SVC") (lit "Products")
                         top5PriceFilter))).
Defined.

Lemma createEntity_posts_data_witness :
  connected (session (scripted [reply 201 "Created" chair])) = true
  /\ exists rq o,
      trace (createEntity play demoConfig (lit "SVC") (lit "Products") chair
               (scripted [reply 201 "Created" chair])) = [(rq, o)]
      /\ req_method rq = POST
      /\ req_url rq = lit "SVC" ++ lit "/" ++ lit "Products"
      /\ req_data rq = Some chair.
Proof.
  split; [reflexivity | ].
  destruct (createEntity_posts_data Script play demoConfig (lit "SVC") (lit "Products")
              chair (scripted [reply 201 "Created" chair]) eq_refl)
    as (rq & o & Ht & Hm & Hu & Hd & _).
  exists rq, o. repeat split; assumption.
Defined.


Lemma extractMetadata_all_or_nothing_witness :
  (In (JStr []) (entityNodes brokenTree) /\ extractEntity (JStr []) = None)
  /\ extractMetadata brokenTree
     = {| entities := []; functions := []; raw := Some brokenTree |}.
Proof.
  assert (Hbad : In (JStr []) (entityNodes brokenTree)
                 /\ extractEntity (JStr []) = None)
    by (split; [left; reflexivity | reflexivity]).
  split; [exact Hbad | ].
  exact (proj1 (extractMetadata_all_or_nothing brokenTree) (JStr []) (or_introl Hbad)).
Defined.

Lemma getServices_request_sequence_witness :
  connected (session (scripted catalogScript)) = true
  /\ ((exists k list,
          (0 < k <= 4)%nat
          /\ urls (trace (getServices play demoConfig (scripted catalogScript)))
             = firstn k catalogPaths
          /\ value (getServices play demoConfig (scripted catalogScript)) = Ok list
          /\ source list = Some (lit "gateway_catalog")
          /\ catalogUrl list = nth_error catalogPaths (k - 1))
      \/ (exists list,
             urls (trace (getServices play demoConfig (scripted catalogScript)))
             = catalogPaths ++ map (fun n => n ++ lit "/") commonServices
             /\ value (getServices play demoConfig (scripted catalogScript)) = Ok list
             /\ source list <> Some (lit "gateway_catalog")
             /\ catalogUrl list = None)).
Proof.
  split; [reflexivity | ].
  exact (getServices_request_sequence Script play demoConfig (scripted catalogScript)
           eq_refl).
Defined.

Lemma csrf_handshake_witness :
  (enableCSRF demoConfig = true
   /\ play (backend (fresh handshakeScript))
        (requestInterceptor (session (fresh handshakeScript))
           (mkRequest GET [] "application/xml" (Some (lit "Fetch"))
              (timeout demoConfig) None))
      = (Replied (tokenAnswer "abc"),
         [reply 200 "OK" JUndefined; reply 201 "Created" JNull])
   /\ x_csrf_token (tokenAnswer "abc") = Some (lit "abc"))
  /\ value (connect play demoConfig (fresh handshakeScript)) = Ok tt
  /\ csrfToken (session (final (connect play demoConfig (fresh handshakeScript))))
     = Some (lit "abc")
  /\ map (fun ex => (req_method (fst ex), req_csrf (fst ex)))
         (trace (createEntity play demoConfig (lit "SVC") (lit "Products") chair
                   (final (connect play demoConfig (fresh handshakeScript)))))
     = [(POST, Some (lit "abc"))].
Proof.
  split; [repeat split | ].
  assert (Hne : lit "abc" <> []) by discriminate.
  assert (Hnr : lit "abc" <> lit "Required") by (vm_compute; discriminate).
  exact (csrf_handshake Script play demoConfig (lit "SVC") (lit "Products") chair
           (fresh handshakeScript) (tokenAnswer "abc") (answer 200 "OK" JUndefined)
           [reply 200 "OK" JUndefined; reply 201 "Created" JNull]
           [reply 201 "Created" JNull] (lit "abc")
           eq_refl eq_refl eq_refl eq_refl Hne Hnr eq_refl eq_refl eq_refl).
Defined.

Lemma tools_need_a_client_witness :
  SAPODataHandlers.sapClient (noClient []) = None
  /\ demoTool SAPODataHandlers.CreateEntityTool chairArgs (noClient [])
     = {| SAPODataHandlers.returned :=
            Throw (Error (lit "Not connected to SAP OData service. Use sap_connect first."));
          SAPODataHandlers.after := noClient [];
          SAPODataHandlers.exchanged := [] |}.
Proof.
  split; [reflexivity | ].
  exact (proj1 (HandlerProperties.tools_need_a_client Script play
                  (parseAs productTree) v8ReadError v8EntriesError getErrorMessage
                  SAPODataHandlers.CreateEntityTool chairArgs (noClient []) eq_refl)).
Defined.

Lemma tools_refuse_dead_session_witness :
  (SAPODataHandlers.sapClient (holder clearedSession [reply 200 "OK" JUndefined])
   = Some (demoClient clearedSession)
   /\ connected (SAPODataHandlers.clientSession (demoClient clearedSession)) = false)
  /\ demoTool SAPODataHandlers.CreateEntityTool chairArgs
       (holder clearedSession [reply 200 "OK" JUndefined])
     = {| SAPODataHandlers.returned :=
            Throw (Error (lit "SAP OData connection lost. Please reconnect using sap_connect."));
          SAPODataHandlers.after := holder clearedSession [reply 200 "OK" JUndefined];
          SAPODataHandlers.exchanged := [] |}.
Proof.
  split; [split; reflexivity | ].
  exact (proj1 (HandlerProperties.tools_refuse_dead_session Script play
                  (parseAs productTree) v8ReadError v8EntriesError getErrorMessage
                  SAPODataHandlers.CreateEntityTool chairArgs
                  (holder clearedSession [reply 200 "OK" JUndefined])
                  (demoClient clearedSession) eq_refl eq_refl)).
Defined.

Lemma handleConnectionStatus_reports_flag_witness :
  alive unauthorized = false
  /\ SAPODataHandlers.returned
       (SAPODataHandlers.handleConnectionStatus play v8ReadError getErrorMessage
          (holder liveSession [unauthorized]))
     = Ok {| SAPODataHandlers.text :=
               lit "SAP OData Connection Status:" ++ [10; 10]
               ++ lit "Status: " ++ [0x274C] ++ lit " Disconnected" ++ [10]
               ++ lit "Base URL: https://sap-host:8000/sap/opu/odata/sap/" ++ [10]
               ++ lit "Username: DEVELOPER" ++ [10]
               ++ lit "Client: Not specified" ++ [10]
               ++ lit "Timeout: 30000ms" ++ [10]
               ++ lit "CSRF Enabled: true" ++ [10]
               ++ lit "CSRF Token: Not available" ++ [10; 10]
               ++ lit "Note: Connection appears to be lost. Use sap_connect to reconnect.";
             SAPODataHandlers.rawData := SAPODataHandlers.NoData |}
  /\ SAPODataHandlers.exchanged
       (SAPODataHandlers.handleConnectionStatus play v8ReadError getErrorMessage
          (holder liveSession [unauthorized]))
     = [(probeOf liveSession, unauthorized)].
Proof.
  split; [reflexivity | ].
  destruct (HandlerProperties.handleConnectionStatus_reports_flag Script play
              v8ReadError getErrorMessage (holder liveSession [unauthorized]))
    as (Hex & c' & Hc' & _ & _ & Hret).
  split; [ | exact Hex].
  assert (Hclient : c' = demoClient clearedSession).
  { vm_compute in Hc'. injection Hc' as <-. reflexivity. }
  subst c'. exact Hret.
Defined.

Lemma handleConnect_starts_afresh_witness :
  parseDemo connectArgs = inr demoConfig
  /\ demoConnect connectArgs (holder liveSession handshakeScript)
     = demoConnect connectArgs (noClient handshakeScript).
Proof.
  split; [reflexivity | ].
  exact (HandlerProperties.handleConnect_starts_afresh Script play parseDemo
           v8ReadError getErrorMessage connectArgs
           (holder liveSession handshakeScript) demoConfig eq_refl).
Defined.

Lemma handleConnect_connects_or_resets_witness :
  parseDemo connectArgs = inr demoConfig
  /\ SAPODataHandlers.returned (demoConnect connectArgs (noClient rejected))
     = Throw (Error (lit "Failed to connect to SAP OData service: Failed to connect to SAP OData service: Authentication failed - check username/password"))
  /\ demoTool SAPODataHandlers.CreateEntityTool chairArgs
       (SAPODataHandlers.after (demoConnect connectArgs (noClient rejected)))
     = {| SAPODataHandlers.returned := Throw SAPODataHandlers.connectionLost;
          SAPODataHandlers.after :=
            SAPODataHandlers.after (demoConnect connectArgs (noClient rejected));
          SAPODataHandlers.exchanged := [] |}.
Proof.
  split; [reflexivity | ]. split; [reflexivity | ].
  destruct (HandlerProperties.handleConnect_connects_or_resets Script play
              (parseAs productTree) parseDemo v8ReadError v8EntriesError
              getErrorMessage connectArgs (noClient rejected) demoConfig eq_refl)
    as [[Hok _] | (error & _ & _ & Hnext)].
  - discriminate Hok.
  - exact (Hnext SAPODataHandlers.CreateEntityTool chairArgs).
Defined.

Lemma handleConnect_invalid_arguments_disconnect_witness :
  (parseDemo (JObj []) = inl (lit "Required")
   /\ SAPODataHandlers.sapClient (holder liveSession []) = Some (demoClient liveSession))
  /\ SAPODataHandlers.returned (demoConnect (JObj []) (holder liveSession []))
     = Throw (Error (lit "Failed to connect to SAP OData service: Required"))
  /\ SAPODataHandlers.after (demoConnect (JObj []) (holder liveSession []))
     = holder clearedSession [].
Proof.
  split; [split; reflexivity | ].
  destruct (HandlerProperties.handleConnect_invalid_arguments_disconnect Script play
              (parseAs productTree) parseDemo v8ReadError v8EntriesError
              getErrorMessage (JObj []) (holder liveSession [])
              (demoClient liveSession) (lit "Required") eq_refl eq_refl)
    as (Hr & _ & Ha & _).
  split; [exact Hr | exact Ha].
Defined.


Lemma tool_probes_first_witness :
  SAPODataHandlers.exchanged
    (demoTool SAPODataHandlers.CreateEntityTool chairArgs
       (holder liveSession [serverError; reply 201 "Created" chair]))
  = [(probeOf liveSession, serverError)]
  /\ (alive serverError = false
      /\ exists o rest,
          SAPODataHandlers.exchanged
            (demoTool SAPODataHandlers.CreateEntityTool chairArgs
               (holder liveSession [serverError; reply 201 "Created" chair]))
          = (probeOf liveSession, o) :: rest
          /\ (List.length rest <= 1)%nat
          /\ (alive o = false -> rest = [])).
Proof.
  split; [reflexivity | ]. split; [reflexivity | ].
  exact (proj1 (proj2 (proj2 (proj2
           (HandlerProperties.tool_probes_first Script play (parseAs productTree)
              v8ReadError v8EntriesError getErrorMessage
              SAPODataHandlers.CreateEntityTool chairArgs
              (holder liveSession [serverError; reply 201 "Created" chair])))))).
Defined.


Lemma listed_tool_is_dispatched_witness :
  nth_error SAPODataMCPServer.toolNames 5 = Some "sap_create_entity"%string
  /\ demoRegistered (lit "sap_create_entity") chairArgs = demoCreate chairArgs.
Proof.
  split; [reflexivity | ].
  exact (ServerProperties.listed_tool_is_dispatched Script play (parseAs productTree)
           parseDemo v8ReadError v8EntriesError getErrorMessage
           (SAPODataHandlers.pure emptyResult)
           (fun _ => SAPODataHandlers.pure emptyResult)
           5 "sap_create_entity" chairArgs eq_refl).
Defined.

Lemma callTool_runs_registered_handler_witness :
  In "sap_create_entity"%string SAPODataMCPServer.toolNames
  /\ SAPODataMCPServer.replied
       (demoCall (lit "sap_create_entity") chairArgs (noClient []))
     = inr (SAPODataMCPServer.Mcp SAPODataMCPServer.InternalError
              (lit "Not connected to SAP OData service. Use sap_connect first.")).
Proof.
  assert (Hin : In "sap_create_entity"%string SAPODataMCPServer.toolNames)
    by (do 5 right; left; reflexivity).
  split; [exact Hin | ].
  unfold demoCall.
  rewrite (ServerProperties.callTool_runs_registered_handler Script play
             (parseAs productTree) parseDemo v8ReadError v8EntriesError
             getErrorMessage
             (SAPODataHandlers.pure emptyResult)
             (fun _ => SAPODataHandlers.pure emptyResult)
             sdkMessage "sap_create_entity" chairArgs (noClient []) Hin).
  reflexivity.
Defined.

Lemma callTool_failures_are_internal_witness :
  (forall listed, In listed SAPODataMCPServer.toolNames -> lit "sap_reboot" <> lit listed)
  /\ demoCall (lit "sap_reboot") JUndefined (noClient [])
     = {| SAPODataMCPServer.replied :=
            inr (SAPODataMCPServer.Mcp SAPODataMCPServer.InternalError
                   (lit "MCP error -32601: Unknown tool: sap_reboot"));
          SAPODataMCPServer.left_ := noClient [];
          SAPODataMCPServer.wire := [] |}.
Proof.
  assert (Hout : forall listed, In listed SAPODataMCPServer.toolNames ->
                                lit "sap_reboot" <> lit listed).
  { intros listed Hin. cbn in Hin.
    repeat (destruct Hin as [<- | Hin]; [vm_compute; discriminate | ]).
    destruct Hin. }
  split; [exact Hout | ].
  exact (proj2 (ServerProperties.callTool_failures_are_internal Script play
                  (parseAs productTree) parseDemo v8ReadError v8EntriesError
                  getErrorMessage
                  (SAPODataHandlers.pure emptyResult)
                  (fun _ => SAPODataHandlers.pure emptyResult)
                  sdkMessage (lit "sap_reboot") JUndefined (noClient []))
           Hout).
Defined.

Lemma handleGetServiceMetadata_unreadable_node_witness :
  (fst (play metadataScript (probeOf liveSession)) = reply 200 "OK" JUndefined
   /\ parseAs brokenTree xmlText = inr brokenTree
   /\ In (JStr []) (entityNodes brokenTree)
   /\ extractEntity (JStr []) = None)
  /\ SAPODataHandlers.returned
       (SAPODataHandlers.handleGetServiceMetadata play (parseAs brokenTree)
          v8ReadError getErrorMessage productsArgs (holder liveSession metadataScript))
     = Ok {| SAPODataHandlers.text :=
               lit "SAP OData Service Metadata for SVC:" ++ [10; 10];
             SAPODataHandlers.rawData :=
               SAPODataHandlers.Model
                 {| entities := []; functions := []; raw := Some brokenTree |} |}.
Proof.
  assert (Hbad : In (JStr []) (entityNodes brokenTree)
                 /\ extractEntity (JStr []) = None)
    by (split; [left; reflexivity | reflexivity]).
  split; [split; [reflexivity | split; [reflexivity | exact Hbad]] | ].
  exact (HandlerProperties.handleGetServiceMetadata_unreadable_node Script play
           (parseAs brokenTree) v8ReadError getErrorMessage productsArgs
           (JStr (lit "SVC")) (holder liveSession metadataScript)
           (demoClient liveSession) (reply 200 "OK" JUndefined)
           (answer 200 "OK" xmlText) brokenTree (JStr [])
           eq_refl eq_refl eq_refl eq_refl eq_refl eq_refl eq_refl eq_refl
           (or_introl Hbad)).
Defined.

Lemma missing_key_values_send_nothing_witness :
  (get productsArgs "keyValues" = Some JUndefined
   /\ SAPODataHandlers.entriesOf JUndefined = None)
  /\ SAPODataHandlers.returned
       (demoTool SAPODataHandlers.DeleteEntityTool productsArgs
          (holder liveSession metadataScript))
     = Throw (Error (lit "Failed to delete entity: Failed to delete entity: Cannot convert undefined or null to object"))
  /\ SAPODataHandlers.exchanged
       (demoTool SAPODataHandlers.DeleteEntityTool productsArgs
          (holder liveSession metadataScript))
     = [(probeOf liveSession, reply 200 "OK" JUndefined)].
Proof.
  split; [split; reflexivity | ].
  exact (HandlerProperties.missing_key_values_send_nothing Script play
           (parseAs productTree) v8ReadError v8EntriesError getErrorMessage
           SAPODataHandlers.DeleteEntityTool productsArgs (JStr (lit "SVC"))
           (JStr (lit "Products")) JUndefined JUndefined
           (holder liveSession metadataScript) (demoClient liveSession)
           (reply 200 "OK" JUndefined)
           (or_intror (or_intror eq_refl)) eq_refl eq_refl eq_refl eq_refl
           eq_refl eq_refl eq_refl eq_refl eq_refl).
Defined.
